(** * DiffDelta client: cursor store, feed models, poll engine, watch loop

    A shallow embedding of [diffdelta/models.py], [diffdelta/cursor.py] and
    [diffdelta/client.py].

    Conventions of the embedding.
    - Values are typed as the Python annotations declare them ([str] is
      [string], [Optional[str]] is [option string], [Dict[str, str]] is
      [gmap string string], [int] is [Z]).
    - A raw JSON document ([Dict[str, Any]]) is represented by the keys the
      client reads, each one absent ([None]) or present with a value of the
      documented type; [d.get(k, dflt)] is [default dflt (k d)].  Documents
      of another shape (a section that is not an array, an item that is not
      an object, a cursor that is not a string) are outside the model, and
      so is a cursor file whose object has a member that is not a string.
    - Effects are threaded through a state-and-exception monad in which the
      state survives a raised exception, as a mutated Python object does.
    - The outside world (disk, network, interrupts) is a record of oracles
      and logs. *)

From Stdlib Require Import ZArith String Ascii List Bool Lia.
From Stdlib Require QArith.
From stdpp Require Import base option list strings gmap.
Import ListNotations.

Local Open Scope string_scope.

(** ** Exceptions *)

(** The exception classes that the modelled code raises or catches.
    [KeyboardInterrupt] and [SystemExit] derive from [BaseException] only;
    [UnicodeDecodeError] and [JSONDecodeError] are siblings below
    [ValueError]; [HTTPError] stands for the errors of [requests]
    ([raise_for_status], connection failures), which derive from [OSError]. *)
Inductive exn : Type :=
  | KeyboardInterrupt
  | SystemExit
  | OSError
  | HTTPError
  | JSONDecodeError
  | UnicodeDecodeError
  | OtherException (name : string).

(** Built-in errors that no clause of the modelled code names: all three
    are below [Exception], none is below [OSError], and [ValueError] here
    is a plain one, not one of its two subclasses above. *)
Definition ValueError : exn := OtherException "ValueError".
Definition OverflowError : exn := OtherException "OverflowError".
Definition RecursionError : exn := OtherException "RecursionError".

(** An [except] clause is the set of exceptions it matches. *)
Definition except_Exception (e : exn) : bool :=
  match e with
  | KeyboardInterrupt | SystemExit => false
  | _ => true
  end.

Definition except_KeyboardInterrupt (e : exn) : bool :=
  match e with
  | KeyboardInterrupt => true
  | _ => false
  end.

Definition except_OSError (e : exn) : bool :=
  match e with
  | OSError | HTTPError => true
  | _ => false
  end.

Definition except_JSONDecodeError_OSError (e : exn) : bool :=
  match e with
  | JSONDecodeError => true
  | _ => except_OSError e
  end.

(** ** The state-and-exception monad *)

Definition M (S A : Type) : Type := S -> (exn + A) * S.

Definition ret {S A} (a : A) : M S A := fun s => (inr a, s).

Definition bind {S A B} (m : M S A) (k : A -> M S B) : M S B :=
  fun s =>
    match m s with
    | (inr a, s') => k a s'
    | (inl e, s') => (inl e, s')
    end.

Definition raise {S A} (e : exn) : M S A := fun s => (inl e, s).

Definition gets {S A} (f : S -> A) : M S A := fun s => (inr (f s), s).

Definition modify {S} (f : S -> S) : M S unit := fun s => (inr tt, f s).

(** [try: body  except C1: h1  except C2: h2 ...]: the first clause that
    matches the raised exception runs; with no match the exception
    propagates. *)
Fixpoint select_handler {S A} (e : exn)
    (clauses : list ((exn -> bool) * (exn -> M S A))) : option (M S A) :=
  match clauses with
  | [] => None
  | (matches, handler) :: rest =>
      if matches e then Some (handler e) else select_handler e rest
  end.

Definition try_except {S A} (body : M S A)
    (clauses : list ((exn -> bool) * (exn -> M S A))) : M S A :=
  fun s =>
    match body s with
    | (inr a, s') => (inr a, s')
    | (inl e, s') =>
        match select_handler e clauses with
        | Some h => h s'
        | None => (inl e, s')
        end
    end.

Declare Scope py_scope.
Delimit Scope py_scope with py.
Notation "x <- m ;; k" := (bind m (fun x => k))
  (at level 100, m at next level, right associativity) : py_scope.
Notation "m ;;; k" := (bind m (fun _ => k))
  (at level 100, right associativity) : py_scope.
Local Open Scope py_scope.

(** ** Strings and paths *)

Definition slash : ascii := "/"%char.

Definition is_slash (c : ascii) : bool := Ascii.eqb c slash.

Fixpoint drop_while {A} (p : A -> bool) (l : list A) : list A :=
  match l with
  | [] => []
  | x :: l' => if p x then drop_while p l' else l
  end.

(** [s.rstrip("/")] *)
Definition rstrip_slash (s : string) : string :=
  string_of_list_ascii
    (rev (drop_while is_slash (rev (list_ascii_of_string s)))).

(** [posixpath.dirname]: everything up to and including the last slash,
    then trailing slashes stripped unless the head is slashes only. *)
Definition dirname (p : string) : string :=
  let head :=
    rev (drop_while (fun c => negb (is_slash c)) (rev (list_ascii_of_string p))) in
  if forallb is_slash head then string_of_list_ascii head
  else rstrip_slash (string_of_list_ascii head).

Definition ends_with_slash (a : string) : bool :=
  match rev (list_ascii_of_string a) with
  | c :: _ => is_slash c
  | [] => false
  end.

Definition starts_with_slash (b : string) : bool :=
  match b with
  | String c _ => is_slash c
  | EmptyString => false
  end.

(** [posixpath.join] of two components. *)
Definition path_join (a b : string) : string :=
  if starts_with_slash b then b
  else if (a =? "") || ends_with_slash a then a ++ b
  else a ++ "/" ++ b.

(** The path holds a NUL character.  [os.mkdir] and [open] turn their
    argument into a C string before they ask the system and raise
    [ValueError] (embedded null byte) for such a path; [os.path.exists]
    answers [False] for it (Python 3.8 and later). *)
Definition has_nul (path : string) : bool :=
  existsb (Ascii.eqb "000"%char) (list_ascii_of_string path).

(** Python truthiness of a [str]. *)
Definition truthy (s : string) : bool := negb (s =? "").

(** [x in xs] for a list of strings. *)
Definition str_in (x : string) (xs : list string) : bool :=
  existsb (String.eqb x) xs.

(** ** Data models ([models.py]) *)

(** An opaque JSON value, for the parts of a document that the client
    carries along without looking inside. *)
#[local] Unset Elimination Schemes.
Inductive json : Type :=
  | JNull
  | JBool (b : bool)
  | JNum (n : Z)
  | JStr (s : string)
  | JArr (l : list json)
  | JObj (members : list (string * json)).
#[local] Set Elimination Schemes.

(** The ["content"] of a raw item: a string or an object. *)
Inductive RawContent : Type :=
  | ContentStr (s : string)
  | ContentDict (excerpt_text summary : option string).

(** A raw item object of a feed section.  [item_other] holds the keys
    that the client never reads (a ["bucket"] key, for instance). *)
Record RawItem : Type := {
  item_source : option string;
  item_id : option string;
  item_headline : option string;
  item_url : option string;
  item_content : option RawContent;
  item_published_at : option string;
  item_updated_at : option string;
  item_provenance : option (list (string * json));
  item_other : list (string * json)
}.

(** The ["buckets"] object of a feed document. *)
Record RawBuckets : Type := {
  buckets_new : option (list RawItem);
  buckets_updated : option (list RawItem);
  buckets_removed : option (list RawItem)
}.

(** An entry of the ["sources"] array. *)
Record RawSource : Type := {
  src_source_id : option string;
  src_name : option string;
  src_tags : option (list string);
  src_description : option string;
  src_homepage : option string;
  src_enabled : option bool;
  src_status : option string;
  src_head_url : option string;
  src_latest_url : option string
}.

(** A JSON object as returned by [_get_json]: head, feed and sources
    documents are all read with [.get], so one record with every key
    optional covers the three shapes. *)
Record RawDoc : Type := {
  doc_cursor : option string;
  doc_hash : option string;
  doc_changed : option bool;
  doc_generated_at : option string;
  doc_ttl_sec : option Z;
  doc_prev_cursor : option string;
  doc_source_id : option string;
  doc_buckets : option RawBuckets;
  doc_batch_narrative : option string;
  doc_sources : option (list RawSource)
}.

(** [a or b] on strings. *)
Definition str_or (a b : string) : string := if truthy a then a else b.

Module FeedItem.
Record t : Type := {
  source : string;
  id : string;
  headline : string;
  url : string;
  excerpt : string;
  published_at : option string;
  updated_at : option string;
  bucket : string;
  provenance : list (string * json);
  raw : RawItem
}.

Definition from_raw (data : RawItem) (bucket : string) : t :=
  let content := default (ContentDict None None) (item_content data) in
  let excerpt :=
    match content with
    | ContentDict excerpt_text summary =>
        str_or (default "" excerpt_text) (default "" summary)
    | ContentStr s => s
    end in
  {| source := default "" (item_source data);
     id := default "" (item_id data);
     headline := default "" (item_headline data);
     url := default "" (item_url data);
     excerpt := excerpt;
     published_at := item_published_at data;
     updated_at := item_updated_at data;
     bucket := bucket;
     provenance := default [] (item_provenance data);
     raw := data |}.
End FeedItem.

Module Head.
Record t : Type := {
  cursor : string;
  hash : string;
  changed : bool;
  generated_at : string;
  ttl_sec : Z
}.

Definition from_raw (data : RawDoc) : t :=
  {| cursor := default "" (doc_cursor data);
     hash := default "" (doc_hash data);
     changed := default false (doc_changed data);
     generated_at := default "" (doc_generated_at data);
     ttl_sec := default 900%Z (doc_ttl_sec data) |}.
End Head.

Definition empty_buckets : RawBuckets :=
  {| buckets_new := None; buckets_updated := None; buckets_removed := None |}.

Module Feed.
Record t : Type := {
  cursor : string;
  prev_cursor : string;
  source_id : string;
  generated_at : string;
  items : list FeedItem.t;
  new : list FeedItem.t;
  updated : list FeedItem.t;
  removed : list FeedItem.t;
  narrative : string;
  raw : RawDoc
}.

Definition from_raw (data : RawDoc) : t :=
  let buckets := default empty_buckets (doc_buckets data) in
  let new_items :=
    map (fun i => FeedItem.from_raw i "new") (default [] (buckets_new buckets)) in
  let updated_items :=
    map (fun i => FeedItem.from_raw i "updated")
        (default [] (buckets_updated buckets)) in
  let removed_items :=
    map (fun i => FeedItem.from_raw i "removed")
        (default [] (buckets_removed buckets)) in
  let all_items := (new_items ++ updated_items ++ removed_items)%list in
  {| cursor := default "" (doc_cursor data);
     prev_cursor := default "" (doc_prev_cursor data);
     source_id := default "" (doc_source_id data);
     generated_at := default "" (doc_generated_at data);
     items := all_items;
     new := new_items;
     updated := updated_items;
     removed := removed_items;
     narrative := default "" (doc_batch_narrative data);
     raw := data |}.
End Feed.

Module SourceInfo.
Record t : Type := {
  source_id : string;
  name : string;
  tags : list string;
  description : string;
  homepage : string;
  enabled : bool;
  status : string;
  head_url : string;
  latest_url : string
}.

Definition from_raw (data : RawSource) : t :=
  {| source_id := default "" (src_source_id data);
     name := default "" (src_name data);
     tags := default [] (src_tags data);
     description := default "" (src_description data);
     homepage := default "" (src_homepage data);
     enabled := default true (src_enabled data);
     status := default "ok" (src_status data);
     head_url := default "" (src_head_url data);
     latest_url := default "" (src_latest_url data) |}.
End SourceInfo.

(** ** The outside world *)

(** What the cursor file holds, as text-mode [open] followed by
    [json.load] sees it.  [json.load(f)] starts with [f.read()], which
    decodes the bytes and raises [UnicodeDecodeError] on bytes that are not
    text; only then does the parser run and raise [JSONDecodeError] on text
    that is not JSON.  On text that is JSON the parser can still give up:
    an integer literal longer than the interpreter's digit limit (4300 by
    default) makes [int] raise a plain [ValueError], and nesting deeper
    than the recursion limit raises [RecursionError].  [JsonDict] is the
    documented format, an object whose members are strings; a file that
    holds the table [d] written by [json.dump] reads back as [JsonDict d].
    An object with a member that is not a string has no value here: the
    table is a [Dict[str, str]]. *)
Inductive file : Type :=
  | Unreadable                       (* [open]/[read] raises [OSError] *)
  | NotText                          (* bytes the text codec rejects *)
  | NotJson                          (* text that is not JSON *)
  | TooManyDigits                    (* JSON with an integer past the digit limit *)
  | TooDeep                          (* JSON nested past the recursion limit *)
  | JsonOther                        (* JSON, but not an object *)
  | JsonDict (d : gmap string string). (* an object of string members *)

(** The file-system calls of [_save] that the environment may refuse. *)
Inductive io_op : Type :=
  | Makedirs (dir : string)
  | OpenWrite (path : string)
  | WriteText (path : string).

(** Lines printed by [watch]. *)
Inductive message : Type :=
  | MsgWatching (interval : Z)
  | MsgPressCtrlC
  | MsgFound (n : nat)
  | MsgNoChanges
  | MsgStopped
  | MsgError (e : exn) (interval : Z).

(** Oracles ([io_fails], [server], [interrupted], [environ], [home]) are
    fixed by the environment; [disk] is mutable; [requests], [slept],
    [stdout] and [dispatched] are logs of what the program did.
    - [server n url] is the outcome of the [n]-th GET when it asks [url]:
      the parsed body, or the exception of [session.get],
      [raise_for_status] or [resp.json].
    - [interrupted n] says that the [n]-th [time.sleep] is cut short by
      [KeyboardInterrupt]. *)
Record World : Type := {
  disk : gmap string file;
  io_fails : io_op -> bool;
  environ : gmap string string;
  home : string;
  server : nat -> string -> exn + RawDoc;
  requests : list (string * (exn + RawDoc));
  interrupted : nat -> bool;
  slept : list Z;
  stdout : list message;
  dispatched : list FeedItem.t
}.

Definition with_disk (f : gmap string file -> gmap string file) (w : World) : World :=
  {| disk := f (disk w); io_fails := io_fails w; environ := environ w;
     home := home w; server := server w; requests := requests w;
     interrupted := interrupted w; slept := slept w; stdout := stdout w;
     dispatched := dispatched w |}.

Definition with_requests
    (f : list (string * (exn + RawDoc)) -> list (string * (exn + RawDoc)))
    (w : World) : World :=
  {| disk := disk w; io_fails := io_fails w; environ := environ w;
     home := home w; server := server w; requests := f (requests w);
     interrupted := interrupted w; slept := slept w; stdout := stdout w;
     dispatched := dispatched w |}.

Definition with_slept (f : list Z -> list Z) (w : World) : World :=
  {| disk := disk w; io_fails := io_fails w; environ := environ w;
     home := home w; server := server w; requests := requests w;
     interrupted := interrupted w; slept := f (slept w); stdout := stdout w;
     dispatched := dispatched w |}.

Definition with_stdout (f : list message -> list message) (w : World) : World :=
  {| disk := disk w; io_fails := io_fails w; environ := environ w;
     home := home w; server := server w; requests := requests w;
     interrupted := interrupted w; slept := slept w; stdout := f (stdout w);
     dispatched := dispatched w |}.

Definition with_dispatched (f : list FeedItem.t -> list FeedItem.t) (w : World) : World :=
  {| disk := disk w; io_fails := io_fails w; environ := environ w;
     home := home w; server := server w; requests := requests w;
     interrupted := interrupted w; slept := slept w; stdout := stdout w;
     dispatched := f (dispatched w) |}.

(** [os.path.exists(path)]: no file is found under a path with a NUL
    character, whatever the disk holds. *)
Definition path_exists (path : string) : M World bool :=
  gets (fun w => negb (has_nul path) && bool_decide (is_Some (disk w !! path))).

(** [with open(path, "r") as f: data = json.load(f)].  The result is
    [Some d] for a dict and [None] for any other JSON value. *)
Definition open_json_load (path : string) : M World (option (gmap string string)) :=
  if has_nul path then raise ValueError
  else
    f <- gets (fun w => disk w !! path) ;;
    match f with
    | None => raise OSError
    | Some Unreadable => raise OSError
    | Some NotText => raise UnicodeDecodeError
    | Some NotJson => raise JSONDecodeError
    | Some TooManyDigits => raise ValueError
    | Some TooDeep => raise RecursionError
    | Some JsonOther => ret None
    | Some (JsonDict d) => ret (Some d)
    end.

(** [os.makedirs(dir, exist_ok=True)].  On the empty path [mkdir] raises
    [FileNotFoundError].  The directories are made from the outermost one
    inwards: the system may refuse one of them ([OSError]) before the
    component with a NUL character is reached, and [mkdir] of that
    component raises [ValueError]. *)
Definition makedirs (dir : string) : M World unit :=
  if dir =? "" then raise OSError
  else
    refused <- gets (fun w => io_fails w (Makedirs dir)) ;;
    if refused then raise OSError
    else if has_nul dir then raise ValueError
    else ret tt.

(** [with open(path, "w") as f: json.dump(cursors, f, indent=2)].  [open]
    raises [ValueError] for a path with a NUL character before it asks the
    system.  Opening truncates the file; a failure while writing leaves it
    cut short. *)
Definition open_json_dump (path : string) (cursors : gmap string string) : M World unit :=
  if has_nul path then raise ValueError
  else
    no_open <- gets (fun w => io_fails w (OpenWrite path)) ;;
    if no_open then raise OSError
    else
      no_write <- gets (fun w => io_fails w (WriteText path)) ;;
      if no_write then
        modify (with_disk (insert path NotJson)) ;;; raise OSError
      else modify (with_disk (insert path (JsonDict cursors))).

(** ** Cursor persistence ([cursor.py]) *)

Definition DEFAULT_CURSOR_DIR (w : World) : string := path_join (home w) ".diffdelta".
Definition DEFAULT_CURSOR_FILE : string := "cursors.json".

Module CursorStore.
Record t : Type := {
  _path : string;
  _cursors : gmap string string
}.

Definition set_cursors (self : t) (c : gmap string string) : t :=
  {| _path := _path self; _cursors := c |}.

Definition _load (self : t) : M World t :=
  try_except
    (present <- path_exists (_path self) ;;
     if present then
       data <- open_json_load (_path self) ;;
       match data with
       | Some d => ret (set_cursors self d)
       | None => ret self
       end
     else ret self)
    [(except_JSONDecodeError_OSError, fun _ => ret (set_cursors self ∅))].

Definition _save (self : t) : M World unit :=
  try_except
    (makedirs (dirname (_path self)) ;;;
     open_json_dump (_path self) (_cursors self))
    [(except_OSError, fun _ => ret tt)].

Definition __init__ (path : option string) : M World t :=
  p <- match path with
       | Some p =>
           if truthy p then ret p
           else gets (fun w => path_join (DEFAULT_CURSOR_DIR w) DEFAULT_CURSOR_FILE)
       | None => gets (fun w => path_join (DEFAULT_CURSOR_DIR w) DEFAULT_CURSOR_FILE)
       end ;;
  _load {| _path := p; _cursors := ∅ |}.

Definition get (self : t) (key : string) : option string :=
  _cursors self !! key.

(** [set] and [clear] change the table in place and then call [_save].
    Their outcome comes with the store object as the call leaves it, so
    that the change is there whether [_save] returns or raises. *)
Definition saved (self' : t) : World -> (exn + unit) * (t * World) :=
  fun w => let (r, w') := _save self' w in (r, (self', w')).

Definition set (self : t) (key cursor : string) : World -> (exn + unit) * (t * World) :=
  saved (set_cursors self (<[key := cursor]> (_cursors self))).

Definition clear (self : t) (key : option string) : World -> (exn + unit) * (t * World) :=
  saved (match key with
         | Some k =>
             if truthy k then set_cursors self (delete k (_cursors self))
             else set_cursors self ∅
         | None => set_cursors self ∅
         end).
End CursorStore.

(** ** The client ([client.py]) *)

Definition DEFAULT_BASE_URL : string := "https://diffdelta.io".
Definition DEFAULT_TIMEOUT : Z := 15.

(** Truthiness of an [Optional[List[str]]] filter: [None] and the empty
    list are both false. *)
Definition filter_given (f : option (list string)) : bool :=
  match f with
  | Some (_ :: _) => true
  | _ => false
  end.

(** [{s.source_id: s.tags for s in all_sources}]: a later entry with the
    same id replaces an earlier one. *)
Definition tags_by_source (all_sources : list SourceInfo.t) : gmap string (list string) :=
  fold_left (fun m s => <[SourceInfo.source_id s := SourceInfo.tags s]> m)
            all_sources ∅.

Inductive flow : Type := Continue | Break.

(** How a run of [watch] bounded by a number of iterations ends: the
    function returned, or the loop is still going. *)
Inductive loop_end : Type := Returned | StillLooping.

Module DiffDelta.
Record t : Type := {
  base_url : string;
  api_key : option string;
  timeout : Z;
  _cursors : option CursorStore.t;
  _source_tags_cache : option (gmap string (list string))
}.

(** The client object together with the world it runs in. *)
Record St : Type := { self : t; world : World }.

(** A call of [self._cursors.set] or [self._cursors.clear]: the store is
    the client's own object, so the client sees what the call did to it
    also when the call raises. *)
Definition on_cursors (m : World -> (exn + unit) * (CursorStore.t * World)) : M St unit :=
  fun s =>
    let out := m (world s) in
    (fst out,
     {| self := {| base_url := base_url (self s); api_key := api_key (self s);
                   timeout := timeout (self s); _cursors := Some (fst (snd out));
                   _source_tags_cache := _source_tags_cache (self s) |};
        world := snd (snd out) |}).

Definition set_source_tags_cache (c : option (gmap string (list string))) : M St unit :=
  modify (fun s =>
    {| self := {| base_url := base_url (self s); api_key := api_key (self s);
                  timeout := timeout (self s); _cursors := _cursors (self s);
                  _source_tags_cache := c |};
       world := world s |}).

Definition __init__ (base_url : string) (api_key : option string)
    (cursor_path : option string) (timeout : Z) : M World t :=
  cursors <-
    match cursor_path with
    | None => ret None
    | Some cursor_path =>
        resolved <-
          (if truthy cursor_path then ret cursor_path
           else gets (fun w => default "" (environ w !! "DD_CURSOR_PATH"))) ;;
        store <- CursorStore.__init__ (if truthy resolved then Some resolved else None) ;;
        ret (Some store)
    end ;;
  ret {| base_url := rstrip_slash base_url; api_key := api_key;
         timeout := timeout; _cursors := cursors;
         _source_tags_cache := None |}.

(** [_get_json]: one GET, answered by the server oracle and logged.  The
    session, its headers and the timeout are on the server's side of the
    oracle. *)
Definition _get_json (url : string) : M St RawDoc :=
  fun s =>
    let w := world s in
    let r := server w (length (requests w)) url in
    (r, {| self := self s;
           world := with_requests (fun l => (l ++ [(url, r)])%list) w |}).

Definition head (url : option string) : M St Head.t :=
  b <- gets (fun s => base_url (self s)) ;;
  let url := default (b ++ "/diff/head.json") url in
  data <- _get_json url ;;
  ret (Head.from_raw data).

Definition fetch_feed (url : option string) : M St Feed.t :=
  b <- gets (fun s => base_url (self s)) ;;
  let url := default (b ++ "/diff/latest.json") url in
  data <- _get_json url ;;
  ret (Feed.from_raw data).

Definition sources : M St (list SourceInfo.t) :=
  b <- gets (fun s => base_url (self s)) ;;
  data <- _get_json (b ++ "/diff/sources.json") ;;
  ret (map SourceInfo.from_raw (default [] (doc_sources data))).

Definition _get_source_tags : M St (gmap string (list string)) :=
  cache <- gets (fun s => _source_tags_cache (self s)) ;;
  match cache with
  | Some c => ret c
  | None =>
      try_except
        (all_sources <- sources ;;
         set_source_tags_cache (Some (tags_by_source all_sources)))
        [(except_Exception, fun _ => set_source_tags_cache (Some ∅))] ;;;
      cache <- gets (fun s => _source_tags_cache (self s)) ;;
      ret (default ∅ cache)
  end.

(** Step 5 of [_poll_feed]: the loop over [feed.items]; [acc] is the
    list [items] built so far. *)
Fixpoint filter_items (tags sources : option (list string)) (buckets : list string)
    (feed_items acc : list FeedItem.t) : M St (list FeedItem.t) :=
  match feed_items with
  | [] => ret acc
  | item :: rest =>
      if negb (str_in (FeedItem.bucket item) buckets) then
        filter_items tags sources buckets rest acc
      else if filter_given sources
              && negb (str_in (FeedItem.source item) (default [] sources)) then
        filter_items tags sources buckets rest acc
      else if filter_given tags then
        source_tags <- _get_source_tags ;;
        let item_tags := default [] (source_tags !! FeedItem.source item) in
        if negb (existsb (fun t => str_in t item_tags) (default [] tags)) then
          filter_items tags sources buckets rest acc
        else filter_items tags sources buckets rest (acc ++ [item])%list
      else filter_items tags sources buckets rest (acc ++ [item])%list
  end.

(** Step 2 of [_poll_feed]: [stored_cursor and stored_cursor == head.cursor]. *)
Definition cursor_unchanged (stored_cursor : option string) (head : Head.t) : bool :=
  match stored_cursor with
  | Some c => truthy c && (c =? Head.cursor head)
  | None => false
  end.

(** Step 4 of [_poll_feed]:
    [if self._cursors and feed.cursor: self._cursors.set(cursor_key, feed.cursor)]. *)
Definition save_new_cursor (cursor_key : string) (feed : Feed.t) : M St unit :=
  cursors <- gets (fun s => _cursors (self s)) ;;
  match cursors with
  | Some store =>
      if truthy (Feed.cursor feed) then
        on_cursors (CursorStore.set store cursor_key (Feed.cursor feed))
      else ret tt
  | None => ret tt
  end.

Definition _poll_feed (head_url latest_url cursor_key : string)
    (tags sources : option (list string)) (buckets : list string)
    : M St (list FeedItem.t) :=
  h <- head (Some head_url) ;;
  cursors <- gets (fun s => _cursors (self s)) ;;
  let stored_cursor :=
    match cursors with
    | Some store => CursorStore.get store cursor_key
    | None => None
    end in
  if cursor_unchanged stored_cursor h then ret []
  else
    feed <- fetch_feed (Some latest_url) ;;
    save_new_cursor cursor_key feed ;;;
    filter_items tags sources buckets (Feed.items feed) [].

Definition default_buckets (buckets : option (list string)) : list string :=
  default ["new"; "updated"] buckets.

Definition poll (tags sources buckets : option (list string)) : M St (list FeedItem.t) :=
  let buckets := default_buckets buckets in
  let cursor_key := "global" in
  b <- gets (fun s => base_url (self s)) ;;
  _poll_feed (b ++ "/diff/head.json") (b ++ "/diff/latest.json")
             cursor_key tags sources buckets.

Definition poll_source (source_id : string) (buckets : option (list string))
    : M St (list FeedItem.t) :=
  let buckets := default_buckets buckets in
  let cursor_key := "source:" ++ source_id in
  b <- gets (fun s => base_url (self s)) ;;
  _poll_feed (b ++ "/diff/source/" ++ source_id ++ "/head.json")
             (b ++ "/diff/source/" ++ source_id ++ "/latest.json")
             cursor_key None None buckets.

Definition print (m : message) : M St unit :=
  modify (fun s =>
    {| self := self s; world := with_stdout (fun l => (l ++ [m])%list) (world s) |}).

(** [callback(item)]: the handler is a caller-supplied function; it sees
    the items handed to it before and either returns or raises. *)
Definition call (callback : list FeedItem.t -> FeedItem.t -> option exn)
    (item : FeedItem.t) : M St unit :=
  fun s =>
    let w := world s in
    let s' := {| self := self s;
                 world := with_dispatched (fun l => (l ++ [item])%list) w |} in
    match callback (dispatched w) item with
    | None => (inr tt, s')
    | Some e => (inl e, s')
    end.

(** [for item in items: callback(item)] *)
Fixpoint for_each (callback : list FeedItem.t -> FeedItem.t -> option exn)
    (items : list FeedItem.t) : M St unit :=
  match items with
  | [] => ret tt
  | item :: rest => call callback item ;;; for_each callback rest
  end.

(** [time.sleep] first turns the seconds into nanoseconds held in a signed
    64-bit integer, and raises [OverflowError] when they do not fit. *)
Definition fits_nanoseconds (seconds : Z) : bool :=
  (- 2 ^ 63 <=? seconds * 1000000000)%Z && (seconds * 1000000000 <=? 2 ^ 63 - 1)%Z.

(** [time.sleep(interval)]: rejects a length that does not fit, then a
    negative one; may be cut short by an interrupt. *)
Definition sleep (interval : Z) : M St unit :=
  if negb (fits_nanoseconds interval) then raise OverflowError
  else if (interval <? 0)%Z then raise ValueError
  else
    fun s =>
      let w := world s in
      let s' := {| self := self s;
                   world := with_slept (fun l => (l ++ [interval])%list) w |} in
      if interrupted w (length (slept w)) then (inl KeyboardInterrupt, s')
      else (inr tt, s').

(** The first [try] of the loop body. *)
Definition watch_poll (callback : list FeedItem.t -> FeedItem.t -> option exn)
    (tags sources : option (list string)) (interval : Z) (buckets : list string)
    : M St flow :=
  try_except
    (items <- poll tags sources (Some buckets) ;;
     match items with
     | _ :: _ =>
         print (MsgFound (length items)) ;;;
         for_each callback items
     | [] => print MsgNoChanges
     end ;;;
     ret Continue)
    [(except_KeyboardInterrupt, fun _ => print MsgStopped ;;; ret Break);
     (except_Exception, fun e => print (MsgError e interval) ;;; ret Continue)].

(** The second [try] of the loop body. *)
Definition watch_sleep (interval : Z) : M St flow :=
  try_except
    (sleep interval ;;; ret Continue)
    [(except_KeyboardInterrupt, fun _ => print MsgStopped ;;; ret Break)].

(** One pass through the body of [while True]. *)
Definition watch_body (callback : list FeedItem.t -> FeedItem.t -> option exn)
    (tags sources : option (list string)) (interval : Z) (buckets : list string)
    : M St flow :=
  f <- watch_poll callback tags sources interval buckets ;;
  match f with
  | Break => ret Break
  | Continue => watch_sleep interval
  end.

(** [while True], cut off after [n] passes. *)
Fixpoint watch_loop (n : nat)
    (callback : list FeedItem.t -> FeedItem.t -> option exn)
    (tags sources : option (list string)) (interval : Z) (buckets : list string)
    : M St loop_end :=
  match n with
  | O => ret StillLooping
  | S n' =>
      f <- watch_body callback tags sources interval buckets ;;
      match f with
      | Break => ret Returned
      | Continue => watch_loop n' callback tags sources interval buckets
      end
  end.

(** The polling interval: the one given, or else [max(h.ttl_sec, 60)]
    for the global head, or 900 when that head cannot be fetched. *)
Definition polling_interval (interval : option Z) : M St Z :=
  match interval with
  | Some i => ret i
  | None =>
      try_except
        (h <- head None ;; ret (Z.max (Head.ttl_sec h) 60))
        [(except_Exception, fun _ => ret 900%Z)]
  end.

Definition watch (n : nat)
    (callback : list FeedItem.t -> FeedItem.t -> option exn)
    (tags sources : option (list string)) (interval : option Z)
    (buckets : option (list string)) : M St loop_end :=
  let buckets := default_buckets buckets in
  interval <- polling_interval interval ;;
  print (MsgWatching interval) ;;;
  print MsgPressCtrlC ;;;
  watch_loop n callback tags sources interval buckets.

Definition reset_cursors (source_id : option string) : M St unit :=
  cursors <- gets (fun s => _cursors (self s)) ;;
  match cursors with
  | Some store =>
      on_cursors (match source_id with
                  | Some sid =>
                      if truthy sid then CursorStore.clear store (Some ("source:" ++ sid))
                      else CursorStore.clear store None
                  | None => CursorStore.clear store None
                  end)
  | None => ret tt
  end.
End DiffDelta.

(** ** Vocabulary of the statements *)

(** The cursor that the client holds for a feed key; [None] also when
    persistence is disabled. *)
Definition stored_cursor (s : DiffDelta.St) (key : string) : option string :=
  match DiffDelta._cursors (DiffDelta.self s) with
  | Some store => CursorStore.get store key
  | None => None
  end.

(** The answer that the next GET receives when it asks [url], and the
    state once that GET is logged. *)
Definition answer (url : string) (s : DiffDelta.St) : exn + RawDoc :=
  fst (DiffDelta._get_json url s).

Definition logged (url : string) (s : DiffDelta.St) : DiffDelta.St :=
  snd (DiffDelta._get_json url s).

(** The GETs issued between two worlds, oldest first. *)
Definition new_requests (w w' : World) : list (string * (exn + RawDoc)) :=
  drop (length (requests w)) (requests w').

(** Between [w] and [w'] a feed with cursor [c] was fetched successfully
    from [url]. *)
Definition feed_fetched (w w' : World) (url c : string) : Prop :=
  exists doc, In (url, inr doc) (new_requests w w')
              /\ Feed.cursor (Feed.from_raw doc) = c.

(** From [s] to [s'] no stored cursor moved, except that the one of [key]
    may have become the cursor of a feed fetched from [url] in between. *)
Definition cursors_advance_only_to_fetched
    (s s' : DiffDelta.St) (key url : string) : Prop :=
  forall k,
    stored_cursor s' k = stored_cursor s k
    \/ (k = key /\ exists c, stored_cursor s' k = Some c
                             /\ feed_fetched (DiffDelta.world s) (DiffDelta.world s') url c).

(** [_save] cannot complete on this world for this path. *)
Definition save_fails (w : World) (path : string) : bool :=
  (dirname path =? "")
  || io_fails w (Makedirs (dirname path))
  || has_nul path
  || io_fails w (OpenWrite path)
  || io_fails w (WriteText path).

(** [_save] raises on this world for this path: the directory part is not
    empty and the system does not refuse it, which leaves the [ValueError]
    of [mkdir] or [open] for a path with a NUL character. *)
Definition save_raises (w : World) (path : string) : bool :=
  negb (dirname path =? "")
  && negb (io_fails w (Makedirs (dirname path)))
  && has_nul path.

(** What [_save] hands to its caller. *)
Definition save_result (w : World) (path : string) : exn + unit :=
  if save_raises w path then inl ValueError else inr tt.

(** What [self._cursors.set] hands to a poll that fetched a feed with
    cursor [cursor]: it is called with a store and a non-empty cursor only. *)
Definition cursor_save_result (s : DiffDelta.St) (cursor : string) : exn + unit :=
  match DiffDelta._cursors (DiffDelta.self s) with
  | Some store =>
      if truthy cursor then save_result (DiffDelta.world s) (CursorStore._path store)
      else inr tt
  | None => inr tt
  end.

(** The item test of step 5, with the tag table made explicit: a filter
    that is [None] or empty lets every item through. *)
Definition keep (tags sources : option (list string)) (buckets : list string)
    (source_tags : gmap string (list string)) (item : FeedItem.t) : bool :=
  str_in (FeedItem.bucket item) buckets
  && (negb (filter_given sources)
      || str_in (FeedItem.source item) (default [] sources))
  && (negb (filter_given tags)
      || existsb (fun t => str_in t (default [] (source_tags !! FeedItem.source item)))
                 (default [] tags)).

(** The item test as the specification words it: a filter lets every item
    through only when it is absent. *)
Definition spec_keep (tags sources : option (list string)) (buckets : list string)
    (source_tags : gmap string (list string)) (item : FeedItem.t) : bool :=
  str_in (FeedItem.bucket item) buckets
  && match sources with
     | None => true
     | Some l => str_in (FeedItem.source item) l
     end
  && match tags with
     | None => true
     | Some l =>
         existsb (fun t => str_in t (default [] (source_tags !! FeedItem.source item))) l
     end.

(** A step from [s] to [s'] of a client that polls [key] at [url]: the
    base URL stays, the request log only grows, and the cursors move as
    [cursors_advance_only_to_fetched] allows. *)
Definition cursor_step (key url : string) (s s' : DiffDelta.St) : Prop :=
  DiffDelta.base_url (DiffDelta.self s') = DiffDelta.base_url (DiffDelta.self s)
  /\ (exists l, requests (DiffDelta.world s')
                = (requests (DiffDelta.world s) ++ l)%list)
  /\ cursors_advance_only_to_fetched s s' key url.

(** A step that touches neither the client object nor the request log. *)
Definition quiet_step (s s' : DiffDelta.St) : Prop :=
  DiffDelta.self s' = DiffDelta.self s
  /\ requests (DiffDelta.world s') = requests (DiffDelta.world s).

(** A handler that refuses the item named [bad] and accepts the rest. *)
Definition picky_handler (bad : string) (_ : list FeedItem.t) (item : FeedItem.t)
    : option exn :=
  if FeedItem.id item =? bad then Some (OtherException "ValueError") else None.

(** The answer to the sources request if it is the [k]-th GET from now. *)
Definition sources_answer (k : nat) (s : DiffDelta.St) : exn + RawDoc :=
  server (DiffDelta.world s) (k + length (requests (DiffDelta.world s)))
         (DiffDelta.base_url (DiffDelta.self s) ++ "/diff/sources.json").

(** The tag table that the filter works with when the sources request,
    if any, is the [k]-th GET from now: the cached table, or else the one
    built from the answer (empty when that GET fails).  Within a poll that
    fetches the feed, [k] is 2: the head and the feed come first. *)
Definition tag_table (k : nat) (s : DiffDelta.St) : gmap string (list string) :=
  match DiffDelta._source_tags_cache (DiffDelta.self s) with
  | Some c => c
  | None =>
      match sources_answer k s with
      | inr doc => tags_by_source (map SourceInfo.from_raw (default [] (doc_sources doc)))
      | inl _ => ∅
      end
  end.

(** The sources request, if it is made, does not die of an interrupt
    ([except Exception] lets those through). *)
Definition sources_fetch_catchable (k : nat) (s : DiffDelta.St) : Prop :=
  match DiffDelta._source_tags_cache (DiffDelta.self s) with
  | Some _ => True
  | None =>
      match sources_answer k s with
      | inr _ => True
      | inl e => except_Exception e = true
      end
  end.

(** Between [s] and [s'] the head was requested and nothing else. *)
Definition head_only (head_url : string) (s s' : DiffDelta.St) : Prop :=
  new_requests (DiffDelta.world s) (DiffDelta.world s') = [(head_url, answer head_url s)].

(** Between [s] and [s'] the head was requested and then the full feed. *)
Definition fetches_full_feed (head_url latest_url : string) (s s' : DiffDelta.St) : Prop :=
  exists rest,
    new_requests (DiffDelta.world s) (DiffDelta.world s')
    = (head_url, answer head_url s)
      :: (latest_url, answer latest_url (logged head_url s)) :: rest.

(** What a step leaves alone when it only talks to the server: the base
    URL, the cursor store, the server, and the requests already logged. *)
Definition frame (s s' : DiffDelta.St) : Prop :=
  DiffDelta.base_url (DiffDelta.self s') = DiffDelta.base_url (DiffDelta.self s)
  /\ DiffDelta._cursors (DiffDelta.self s') = DiffDelta._cursors (DiffDelta.self s)
  /\ exists l, requests (DiffDelta.world s')
               = (requests (DiffDelta.world s) ++ l)%list.

(** ** Sample data *)

Definition empty_item : RawItem :=
  {| item_source := None; item_id := None; item_headline := None;
     item_url := None; item_content := None; item_published_at := None;
     item_updated_at := None; item_provenance := None; item_other := [] |}.

Definition sample_item (source id : string) (other : list (string * json)) : RawItem :=
  {| item_source := Some source; item_id := Some id; item_headline := Some id;
     item_url := None; item_content := None; item_published_at := None;
     item_updated_at := None; item_provenance := None; item_other := other |}.

Definition empty_doc : RawDoc :=
  {| doc_cursor := None; doc_hash := None; doc_changed := None;
     doc_generated_at := None; doc_ttl_sec := None; doc_prev_cursor := None;
     doc_source_id := None; doc_buckets := None; doc_batch_narrative := None;
     doc_sources := None |}.

Definition head_doc (cursor : string) : RawDoc :=
  {| doc_cursor := Some cursor; doc_hash := None; doc_changed := None;
     doc_generated_at := None; doc_ttl_sec := None; doc_prev_cursor := None;
     doc_source_id := None; doc_buckets := None; doc_batch_narrative := None;
     doc_sources := None |}.

Definition feed_doc (cursor : string) (new updated removed : list RawItem) : RawDoc :=
  {| doc_cursor := Some cursor; doc_hash := None; doc_changed := None;
     doc_generated_at := None; doc_ttl_sec := None; doc_prev_cursor := None;
     doc_source_id := None;
     doc_buckets := Some {| buckets_new := Some new; buckets_updated := Some updated;
                            buckets_removed := Some removed |};
     doc_batch_narrative := None; doc_sources := None |}.

(** A cursor path with a NUL character in its directory part. *)
Definition nul_path : string := "/tmp/bot" ++ String "000"%char "/cursors.json".

(** A world with the given cursor file and server, in which every file
    operation is permitted and nobody interrupts. *)
Definition quiet_world (files : gmap string file)
    (srv : nat -> string -> exn + RawDoc) : World :=
  {| disk := files; io_fails := fun _ => false; environ := ∅; home := "/home/bot";
     server := srv; requests := []; interrupted := fun _ => false; slept := [];
     stdout := []; dispatched := [] |}.

(** A world like [quiet_world] whose disk is read-only. *)
Definition readonly_world (files : gmap string file) : World :=
  {| disk := files; io_fails := fun _ => true; environ := ∅; home := "/home/bot";
     server := fun _ _ => inl HTTPError; requests := [];
     interrupted := fun _ => false; slept := []; stdout := []; dispatched := [] |}.

(** A client over the default server with the given cursor table. *)
Definition client_with (cursors : option (gmap string string)) : DiffDelta.t :=
  {| DiffDelta.base_url := DEFAULT_BASE_URL; DiffDelta.api_key := None;
     DiffDelta.timeout := DEFAULT_TIMEOUT;
     DiffDelta._cursors :=
       (fun c => {| CursorStore._path := "/home/bot/.diffdelta/cursors.json";
                    CursorStore._cursors := c |}) <$> cursors;
     DiffDelta._source_tags_cache := None |}.

(** A server that answers head requests with [hcur] and feed requests
    with [fdoc]; the sources listing is unavailable. *)
Definition simple_server (hcur : string) (fdoc : RawDoc) (n : nat) (url : string)
    : exn + RawDoc :=
  if url =? "https://diffdelta.io/diff/head.json" then inr (head_doc hcur)
  else if url =? "https://diffdelta.io/diff/latest.json" then inr fdoc
  else inl HTTPError.

(** ** Vocabulary of the further properties *)

(** The client object with another tag cache. *)
Definition with_cache (c : option (gmap string (list string))) (d : DiffDelta.t)
    : DiffDelta.t :=
  {| DiffDelta.base_url := DiffDelta.base_url d;
     DiffDelta.api_key := DiffDelta.api_key d;
     DiffDelta.timeout := DiffDelta.timeout d;
     DiffDelta._cursors := DiffDelta._cursors d;
     DiffDelta._source_tags_cache := c |}.

(** The state [s] after the GETs [l] were logged and the tag cache became
    [c]; everything else is as in [s]. *)
Definition touched (l : list (string * (exn + RawDoc)))
    (c : option (gmap string (list string))) (s : DiffDelta.St) : DiffDelta.St :=
  {| DiffDelta.self := with_cache c (DiffDelta.self s);
     DiffDelta.world := with_requests (fun r => (r ++ l)%list) (DiffDelta.world s) |}.

(** The URLs asked between two states, oldest first. *)
Definition urls_asked (s s' : DiffDelta.St) : list string :=
  map fst (new_requests (DiffDelta.world s) (DiffDelta.world s')).

(** The item passes the bucket filter and the source filter of step 5. *)
Definition passes_bucket_and_source (sources : option (list string))
    (buckets : list string) (item : FeedItem.t) : bool :=
  str_in (FeedItem.bucket item) buckets
  && (negb (filter_given sources)
      || str_in (FeedItem.source item) (default [] sources)).

(** The path of the cursor file that [DiffDelta(cursor_path=cp)] settles
    on in world [w]: the argument, else [DD_CURSOR_PATH], else the default. *)
Definition cursor_file_of (cp : string) (w : World) : string :=
  if truthy cp then cp
  else
    let env := default "" (environ w !! "DD_CURSOR_PATH") in
    if truthy env then env
    else path_join (DEFAULT_CURSOR_DIR w) DEFAULT_CURSOR_FILE.

(** What [_load] makes of the file at [path] for a store that starts
    empty: the table it takes from the file, or the error of [json.load]
    that its [except] clause lets through. *)
Definition loaded (w : World) (path : string) : exn + gmap string string :=
  if has_nul path then inr ∅
  else
    match disk w !! path with
    | Some NotText => inl UnicodeDecodeError
    | Some TooManyDigits => inl ValueError
    | Some TooDeep => inl RecursionError
    | Some (JsonDict d) => inr d
    | _ => inr ∅
    end.

(** ** Recipes ([recipes/*.py]): the risk bands *)

(** A risk score is the number under ["risk_score"] of the raw item: a
    JSON integer or finite float, here a rational.  Python compares
    numbers exactly, so [score >= k] for an integer [k] is [score_ge]. *)
Definition score_ge (score : QArith_base.Q) (k : Z) : bool :=
  QArith_base.Qle_bool (QArith_base.inject_Z k) score.

(** [score < k] *)
Definition score_lt (score : QArith_base.Q) (k : Z) : bool :=
  negb (score_ge score k).

Module slack_alerts.
Definition MIN_RISK_SCORE : Z := 0.

Definition risk_emoji (score : option QArith_base.Q) : string :=
  match score with
  | None => "ℹ️"
  | Some score =>
      if score_ge score 9 then "🔴"
      else if score_ge score 7 then "🟠"
      else if score_ge score 4 then "🟡"
      else "🟢"
  end.

(** The guard of [post_to_slack]:
    [if risk is not None and risk < MIN_RISK_SCORE: return]. *)
Definition returns_early (risk : option QArith_base.Q) : bool :=
  match risk with
  | Some risk => score_lt risk MIN_RISK_SCORE
  | None => false
  end.
End slack_alerts.

Module discord_alerts.
Definition MIN_RISK_SCORE : Z := 0.

Definition risk_color (score : option QArith_base.Q) : Z :=
  match score with
  | None => 0x5865F2
  | Some score =>
      if score_ge score 9 then 0xED4245
      else if score_ge score 7 then 0xFFA500
      else if score_ge score 4 then 0xFEE75C
      else 0x57F287
  end.

(** The guard of [post_to_discord]:
    [if risk is not None and risk < MIN_RISK_SCORE: return]. *)
Definition returns_early (risk : option QArith_base.Q) : bool :=
  match risk with
  | Some risk => score_lt risk MIN_RISK_SCORE
  | None => false
  end.
End discord_alerts.

Module github_issues.
Definition MIN_RISK_SCORE : Z := 7.

Definition risk_badge (score : QArith_base.Q) : string :=
  if score_ge score 9 then "🔴 CRITICAL"
  else if score_ge score 7 then "🟠 HIGH"
  else if score_ge score 4 then "🟡 MEDIUM"
  else "🟢 LOW".

(** The guard of [create_issue]:
    [if risk is None or risk < MIN_RISK_SCORE: return]. *)
Definition returns_early (risk : option QArith_base.Q) : bool :=
  match risk with
  | None => true
  | Some risk => score_lt risk MIN_RISK_SCORE
  end.
End github_issues.

Module pagerduty_trigger.
Definition MIN_RISK_SCORE : Z := 8.

Definition risk_to_severity (score : QArith_base.Q) : string :=
  if score_ge score 9 then "critical"
  else if score_ge score 7 then "error"
  else if score_ge score 4 then "warning"
  else "info".

(** The guard of [trigger_pagerduty]:
    [if risk is None or risk < MIN_RISK_SCORE: return]. *)
Definition returns_early (risk : option QArith_base.Q) : bool :=
  match risk with
  | None => true
  | Some risk => score_lt risk MIN_RISK_SCORE
  end.
End pagerduty_trigger.

(** ** Proof automation *)

(** Unfolds the monad operations and reduces the redexes they leave. *)
Ltac py_run :=
  cbv beta iota zeta delta
    [bind ret raise gets modify try_except select_handler fst snd].

(** * Properties *)

(** ** Paths *)

Example dirname_of_default_path :
  dirname "/home/bot/.diffdelta/cursors.json" = "/home/bot/.diffdelta".
Proof. reflexivity. Qed.

Example dirname_of_bare_file_name : dirname "cursors.json" = "".
Proof. reflexivity. Qed.

Example dirname_at_root : dirname "/cursors.json" = "/".
Proof. reflexivity. Qed.

Example dirname_strips_slashes : dirname "state//cursors.json" = "state".
Proof. reflexivity. Qed.

Example path_join_home : path_join "/home/bot" ".diffdelta" = "/home/bot/.diffdelta".
Proof. reflexivity. Qed.

Example path_join_absolute : path_join "/a" "/b" = "/b".
Proof. reflexivity. Qed.

Example rstrip_base_url : rstrip_slash "https://diffdelta.io//" = "https://diffdelta.io".
Proof. reflexivity. Qed.

Example tags_by_source_last_wins :
  tags_by_source
    [ {| SourceInfo.source_id := "src1"; SourceInfo.name := "one";
         SourceInfo.tags := ["security"]; SourceInfo.description := "";
         SourceInfo.homepage := ""; SourceInfo.enabled := true;
         SourceInfo.status := "ok"; SourceInfo.head_url := "";
         SourceInfo.latest_url := "" |};
      {| SourceInfo.source_id := "src1"; SourceInfo.name := "one again";
         SourceInfo.tags := ["finance"]; SourceInfo.description := "";
         SourceInfo.homepage := ""; SourceInfo.enabled := true;
         SourceInfo.status := "ok"; SourceInfo.head_url := "";
         SourceInfo.latest_url := "" |} ] !! "src1"
  = Some ["finance"].
Proof. vm_compute. reflexivity. Qed.

(** ** Feed models *)

Lemma FeedItem_from_raw_bucket (i : RawItem) (b : string) :
  FeedItem.bucket (FeedItem.from_raw i b) = b.
Proof. reflexivity. Qed.

Lemma FeedItem_from_raw_raw (i : RawItem) (b : string) :
  FeedItem.raw (FeedItem.from_raw i b) = i.
Proof. reflexivity. Qed.

Lemma map_bucket_from_raw (b : string) (l : list RawItem) :
  map FeedItem.bucket (map (fun i => FeedItem.from_raw i b) l) = repeat b (length l).
Proof. induction l as [|i l IH]; simpl; [reflexivity | now rewrite IH]. Qed.

Lemma map_raw_from_raw (b : string) (l : list RawItem) :
  map FeedItem.raw (map (fun i => FeedItem.from_raw i b) l) = l.
Proof. induction l as [|i l IH]; simpl; [reflexivity | now rewrite IH]. Qed.

(** A raw record that carries its own ["bucket"] key, filed under the
    [updated] section: the section wins. *)
Example from_raw_ignores_bucket_key :
  map FeedItem.bucket
      (Feed.items (Feed.from_raw
         (feed_doc "c1" [sample_item "src1" "a" []]
                   [sample_item "src2" "b" [("bucket", JStr "removed")]]
                   [sample_item "src1" "c" []])))
  = ["new"; "updated"; "removed"].
Proof. reflexivity. Qed.

(** C6.  For every raw feed document, the items of [Feed.from_raw] are the
    [new], [updated] and [removed] sections of the document, in that order
    and each in document order: item by item they are [FeedItem.from_raw]
    of the raw records, their [raw] fields are the concatenation of the
    three sections, and their [bucket] fields spell the section each one
    came from, whatever keys the raw record has. *)
Theorem C6_from_raw_items_by_section (data : RawDoc) :
  let buckets := default empty_buckets (doc_buckets data) in
  let new := default [] (buckets_new buckets) in
  let updated := default [] (buckets_updated buckets) in
  let removed := default [] (buckets_removed buckets) in
  let feed := Feed.from_raw data in
  Feed.items feed
    = (map (fun i => FeedItem.from_raw i "new") new
       ++ map (fun i => FeedItem.from_raw i "updated") updated
       ++ map (fun i => FeedItem.from_raw i "removed") removed)%list
  /\ Feed.items feed = (Feed.new feed ++ Feed.updated feed ++ Feed.removed feed)%list
  /\ map FeedItem.raw (Feed.items feed) = (new ++ updated ++ removed)%list
  /\ map FeedItem.bucket (Feed.items feed)
     = (repeat "new" (length new) ++ repeat "updated" (length updated)
        ++ repeat "removed" (length removed))%list
  /\ (forall (i : RawItem) (section : string) (other : list (string * json)),
        FeedItem.bucket
          (FeedItem.from_raw
             {| item_source := item_source i; item_id := item_id i;
                item_headline := item_headline i; item_url := item_url i;
                item_content := item_content i;
                item_published_at := item_published_at i;
                item_updated_at := item_updated_at i;
                item_provenance := item_provenance i;
                item_other := other |} section) = section).
Proof.
  cbv zeta. repeat split.
  - unfold Feed.from_raw; simpl.
    rewrite !map_app, !map_raw_from_raw. reflexivity.
  - unfold Feed.from_raw; simpl.
    rewrite !map_app, !map_bucket_from_raw. reflexivity.
Qed.

(** ** Cursor store *)

Lemma drop_while_In {A} (p : A -> bool) (l : list A) (x : A) :
  In x (drop_while p l) -> In x l.
Proof.
  induction l as [|a l IH]; simpl; [tauto | ].
  destruct (p a); [intros H; right; exact (IH H) | tauto].
Qed.

Lemma has_nul_In (path : string) :
  has_nul path = true <-> In "000"%char (list_ascii_of_string path).
Proof.
  unfold has_nul. rewrite existsb_exists. split.
  - intros (c & Hin & Hc). apply Ascii.eqb_eq in Hc. now subst c.
  - intros Hin. exists "000"%char. split; [exact Hin | apply Ascii.eqb_refl].
Qed.

Lemma rstrip_slash_In (s : string) (c : ascii) :
  In c (list_ascii_of_string (rstrip_slash s)) -> In c (list_ascii_of_string s).
Proof.
  unfold rstrip_slash. rewrite list_ascii_of_string_of_list_ascii.
  intros H. apply in_rev in H. apply drop_while_In in H. now apply in_rev.
Qed.

(** The directory part is cut out of the path: a NUL character in it is a
    NUL character of the path. *)
Lemma has_nul_dirname (path : string) :
  has_nul path = false -> has_nul (dirname path) = false.
Proof.
  intros H. destruct (has_nul (dirname path)) eqn:Hd; [ | reflexivity].
  rewrite <- H. symmetry. apply has_nul_In. apply has_nul_In in Hd.
  unfold dirname in Hd.
  destruct (forallb is_slash _) in Hd.
  - rewrite list_ascii_of_string_of_list_ascii in Hd.
    apply in_rev in Hd. apply drop_while_In in Hd. now apply in_rev.
  - apply rstrip_slash_In in Hd.
    rewrite list_ascii_of_string_of_list_ascii in Hd.
    apply in_rev in Hd. apply drop_while_In in Hd. now apply in_rev.
Qed.

(** [_save] hands [save_result] to its caller, and touches nothing but
    the disk. *)
Lemma save_returns (self : CursorStore.t) (w : World) :
  exists w', CursorStore._save self w = (save_result w (CursorStore._path self), w')
             /\ server w' = server w /\ requests w' = requests w
             /\ io_fails w' = io_fails w.
Proof.
  unfold save_result, save_raises.
  unfold CursorStore._save, makedirs, open_json_dump; py_run.
  destruct (dirname (CursorStore._path self) =? "") eqn:Hd; simpl.
  { eexists; repeat split. }
  destruct (io_fails w (Makedirs _)); simpl.
  { eexists; repeat split. }
  destruct (has_nul (CursorStore._path self)) eqn:Hn; simpl.
  { destruct (has_nul (dirname _)); simpl; eexists; repeat split. }
  rewrite (has_nul_dirname _ Hn); simpl.
  destruct (io_fails w (OpenWrite _)); simpl.
  { eexists; repeat split. }
  destruct (io_fails w (WriteText _)); simpl; eexists; repeat split.
Qed.

Lemma save_persists (self : CursorStore.t) (w : World) :
  save_fails w (CursorStore._path self) = false ->
  CursorStore._save self w
  = (inr tt, with_disk (insert (CursorStore._path self)
                               (JsonDict (CursorStore._cursors self))) w).
Proof.
  unfold save_fails. intros H.
  apply orb_false_elim in H as [H H4].
  apply orb_false_elim in H as [H H3].
  apply orb_false_elim in H as [H Hn].
  apply orb_false_elim in H as [H1 H2].
  unfold CursorStore._save, makedirs, open_json_dump; py_run.
  rewrite H1; simpl. rewrite H2; simpl. rewrite (has_nul_dirname _ Hn); simpl.
  rewrite Hn; simpl. rewrite H3; simpl. rewrite H4; simpl.
  reflexivity.
Qed.

(** A write that goes through is one that does not raise, over a path
    that is not empty and has no NUL character. *)
Lemma save_goes_through (w : World) (path : string) :
  save_fails w path = false ->
  save_raises w path = false /\ has_nul path = false /\ path <> "".
Proof.
  unfold save_fails, save_raises. intros H.
  apply orb_false_elim in H as [H _].
  apply orb_false_elim in H as [H _].
  apply orb_false_elim in H as [H Hn].
  apply orb_false_elim in H as [Hd _].
  rewrite Hn, andb_false_r. repeat split.
  intros ->. discriminate Hd.
Qed.

Lemma load_dict (self : CursorStore.t) (w : World) (d : gmap string string) :
  has_nul (CursorStore._path self) = false ->
  disk w !! CursorStore._path self = Some (JsonDict d) ->
  CursorStore._load self w = (inr (CursorStore.set_cursors self d), w).
Proof.
  intros Hn H.
  unfold CursorStore._load, path_exists, open_json_load; py_run.
  rewrite Hn, H; simpl; rewrite H; reflexivity.
Qed.

(** Loading starts from an empty table whenever the file is missing,
    cannot be opened, is not JSON, or is JSON but not an object. *)
Lemma load_fresh (self : CursorStore.t) (w : World) :
  CursorStore._cursors self = ∅ ->
  (disk w !! CursorStore._path self = None
   \/ disk w !! CursorStore._path self = Some Unreadable
   \/ disk w !! CursorStore._path self = Some NotJson
   \/ disk w !! CursorStore._path self = Some JsonOther) ->
  CursorStore._load self w = (inr self, w).
Proof.
  intros He H. destruct self as [p c]. simpl in *. subst c.
  unfold CursorStore._load, path_exists, open_json_load; py_run.
  simpl.
  destruct (has_nul p); simpl; [reflexivity | ].
  destruct H as [H | [H | [H | H]]]; rewrite H; simpl; rewrite ?H; reflexivity.
Qed.

Lemma load_undecodable (self : CursorStore.t) (w : World) :
  has_nul (CursorStore._path self) = false ->
  disk w !! CursorStore._path self = Some NotText ->
  CursorStore._load self w = (inl UnicodeDecodeError, w).
Proof.
  intros Hn H.
  unfold CursorStore._load, path_exists, open_json_load; py_run.
  rewrite Hn, H; simpl; rewrite H; reflexivity.
Qed.

Lemma init_explicit_path (path : string) (w : World) :
  path <> "" ->
  CursorStore.__init__ (Some path) w
  = CursorStore._load {| CursorStore._path := path; CursorStore._cursors := ∅ |} w.
Proof.
  intros H. unfold CursorStore.__init__, truthy; py_run.
  destruct (String.eqb_spec path ""); [contradiction | reflexivity].
Qed.

Lemma dirname_nonempty (path : string) : (dirname path =? "") = false -> path <> "".
Proof. intros H ->. discriminate H. Qed.

(** A failed write leaves the disk as it was, or the file cut short. *)
Lemma save_outcome (self : CursorStore.t) (w : World) :
  save_fails w (CursorStore._path self) = true ->
  exists w', CursorStore._save self w = (save_result w (CursorStore._path self), w')
             /\ (disk w' = disk w
                 \/ disk w' = <[CursorStore._path self := NotJson]> (disk w)).
Proof.
  unfold save_fails, save_result, save_raises. intros H.
  unfold CursorStore._save, makedirs, open_json_dump; py_run.
  destruct (dirname (CursorStore._path self) =? ""); simpl.
  { eexists; split; [reflexivity | now left]. }
  destruct (io_fails w (Makedirs _)); simpl.
  { eexists; split; [reflexivity | now left]. }
  destruct (has_nul (CursorStore._path self)) eqn:Hn; simpl.
  { destruct (has_nul (dirname _)); simpl; eexists; split; try reflexivity; now left. }
  rewrite (has_nul_dirname _ Hn); simpl.
  destruct (io_fails w (OpenWrite _)); simpl.
  { eexists; split; [reflexivity | now left]. }
  destruct (io_fails w (WriteText _)); [ | discriminate H].
  eexists; split; [reflexivity | now right].
Qed.

(** The cases of a damaged or missing cursor file that construction
    survives: the table starts empty and the disk is left alone. *)
Lemma init_starts_fresh (path : string) (w : World) :
  path <> "" ->
  (disk w !! path = None \/ disk w !! path = Some Unreadable
   \/ disk w !! path = Some NotJson \/ disk w !! path = Some JsonOther) ->
  CursorStore.__init__ (Some path) w
  = (inr {| CursorStore._path := path; CursorStore._cursors := ∅ |}, w).
Proof.
  intros Hp H. rewrite init_explicit_path by assumption.
  now apply load_fresh.
Qed.

(** When the environment lets [_save] through, [set] replaces whatever the
    file held by the table as a JSON object. *)
Lemma set_overwrites (self : CursorStore.t) (key cursor : string) (w : World) :
  save_fails w (CursorStore._path self) = false ->
  CursorStore.set self key cursor w
  = (inr tt,
     (CursorStore.set_cursors self (<[key := cursor]> (CursorStore._cursors self)),
      with_disk (insert (CursorStore._path self)
                  (JsonDict (<[key := cursor]> (CursorStore._cursors self)))) w)).
Proof.
  intros H. unfold CursorStore.set, CursorStore.saved.
  rewrite save_persists by exact H. reflexivity.
Qed.

(** C7.  The construction does fail on a cursor file whose bytes are not
    text in the codec of [open]: [_load] catches [JSONDecodeError] and
    [OSError] only, and the [UnicodeDecodeError] of [json.load] leaves
    [__init__], also through the constructor of the client.  And over a
    path without a directory part, [os.makedirs("")] stops every [_save],
    so a [set] after a corrupt file leaves the corrupt file in place. *)
Theorem C7_init_raises_on_undecodable_file :
  let path := "/var/lib/bot/cursors.json" in
  let w := quiet_world {[ path := NotText ]} (fun _ _ => inl HTTPError) in
  let w2 := quiet_world {[ "cursors.json" := NotJson ]} (fun _ _ => inl HTTPError) in
  fst (CursorStore.__init__ (Some path) w) = inl UnicodeDecodeError
  /\ fst (DiffDelta.__init__ DEFAULT_BASE_URL None (Some path) DEFAULT_TIMEOUT w)
     = inl UnicodeDecodeError
  /\ (exists store store' w2',
        CursorStore.__init__ (Some "cursors.json") w2 = (inr store, w2)
        /\ CursorStore._cursors store = ∅
        /\ CursorStore.set store "global" "abc123" w2 = (inr tt, (store', w2'))
        /\ disk w2' !! "cursors.json" = Some NotJson).
Proof.
  cbv zeta. split; [ | split].
  - rewrite init_explicit_path by discriminate.
    rewrite load_undecodable; reflexivity.
  - vm_compute. reflexivity.
  - rewrite init_starts_fresh; [ | discriminate | right; right; left; reflexivity ].
    do 3 eexists. split; [reflexivity | ]. split; [reflexivity | ].
    split; reflexivity.
Qed.

(** What [set] and [clear] do when the write fails, whatever the failure. *)
Lemma saved_when_write_fails (self' : CursorStore.t) (w : World) :
  save_fails w (CursorStore._path self') = true ->
  exists w',
    CursorStore.saved self' w = (save_result w (CursorStore._path self'), (self', w'))
    /\ (disk w' = disk w \/ disk w' = <[CursorStore._path self' := NotJson]> (disk w)).
Proof.
  intros Hfail. destruct (save_outcome self' w Hfail) as (w' & Hs & Hd).
  exists w'. split; [ | exact Hd].
  unfold CursorStore.saved. rewrite Hs. reflexivity.
Qed.

(** C8.  [set] and [clear] change the table before they call [_save], so
    when the write fails the table in memory carries the change: [get]
    sees the new cursor after [set], nothing under a cleared key, nothing
    at all after a full [clear]; the other keys are untouched, and the disk
    keeps its old content or a file cut short.  Whether the caller sees
    the failure depends on its kind.  An [OSError] is swallowed and the
    call returns normally, which is all that can happen over a path
    without a NUL character.  But [_save] catches [OSError] only: over a
    path with a NUL character whose directory part the system does not
    refuse, [os.makedirs] or [open] raises [ValueError], and [set] and
    [clear] pass it on to their caller. *)
Theorem C8_failed_write_raises_on_nul_path (self : CursorStore.t) (w : World) :
  save_fails w (CursorStore._path self) = true ->
  let outcome := save_result w (CursorStore._path self) in
  (forall key cursor, exists self' w',
      CursorStore.set self key cursor w = (outcome, (self', w'))
      /\ CursorStore.get self' key = Some cursor
      /\ (forall k, k <> key -> CursorStore.get self' k = CursorStore.get self k)
      /\ (disk w' = disk w \/ disk w' = <[CursorStore._path self := NotJson]> (disk w)))
  /\ (forall key, key <> "" -> exists self' w',
        CursorStore.clear self (Some key) w = (outcome, (self', w'))
        /\ CursorStore.get self' key = None
        /\ (forall k, k <> key -> CursorStore.get self' k = CursorStore.get self k)
        /\ (disk w' = disk w \/ disk w' = <[CursorStore._path self := NotJson]> (disk w)))
  /\ (exists self' w',
        CursorStore.clear self None w = (outcome, (self', w'))
        /\ (forall k, CursorStore.get self' k = None)
        /\ (disk w' = disk w \/ disk w' = <[CursorStore._path self := NotJson]> (disk w)))
  /\ (has_nul (CursorStore._path self) = false -> outcome = inr tt)
  /\ (has_nul (CursorStore._path self) = true ->
      dirname (CursorStore._path self) <> "" ->
      io_fails w (Makedirs (dirname (CursorStore._path self))) = false ->
      outcome = inl ValueError).
Proof.
  intros Hfail outcome. subst outcome. split; [ | split; [ | split; [ | split]]].
  - intros key cursor.
    destruct (saved_when_write_fails
                (CursorStore.set_cursors self (<[key := cursor]> (CursorStore._cursors self)))
                w Hfail) as (w' & Hs & Hd).
    exists (CursorStore.set_cursors self (<[key := cursor]> (CursorStore._cursors self))), w'.
    split; [exact Hs | ].
    split; [apply lookup_insert_eq | ].
    split; [ | exact Hd].
    intros k Hk. unfold CursorStore.get; simpl. now apply lookup_insert_ne.
  - intros key Hkey.
    destruct (saved_when_write_fails
                (CursorStore.set_cursors self (delete key (CursorStore._cursors self)))
                w Hfail) as (w' & Hs & Hd).
    exists (CursorStore.set_cursors self (delete key (CursorStore._cursors self))), w'.
    split.
    { unfold CursorStore.clear, truthy.
      destruct (String.eqb_spec key ""); [contradiction | ]. exact Hs. }
    split; [apply lookup_delete_eq | ].
    split; [ | exact Hd].
    intros k Hk. unfold CursorStore.get; simpl. now apply lookup_delete_ne.
  - destruct (saved_when_write_fails (CursorStore.set_cursors self ∅) w Hfail)
      as (w' & Hs & Hd).
    exists (CursorStore.set_cursors self ∅), w'.
    split; [exact Hs | ].
    split; [ | exact Hd].
    intros k. apply lookup_empty.
  - intros Hn. unfold save_result, save_raises. now rewrite Hn, andb_false_r.
  - intros Hn Hdir Hmk. unfold save_result, save_raises.
    rewrite Hn, Hmk. destruct (String.eqb_spec (dirname (CursorStore._path self)) "");
      [contradiction | reflexivity].
Qed.

Lemma C8_witness :
  let self := {| CursorStore._path := nul_path;
                 CursorStore._cursors := {[ "global" := "c1" ]} |} in
  let w := quiet_world ∅ (fun _ _ => inl HTTPError) in
  save_fails w (CursorStore._path self) = true
  /\ exists self' w',
       CursorStore.set self "global" "c2" w = (inl ValueError, (self', w'))
       /\ CursorStore.get self' "global" = Some "c2"
       /\ disk w' = disk w.
Proof.
  cbv zeta. split; [reflexivity | ].
  destruct (proj1 (C8_failed_write_raises_on_nul_path
                     {| CursorStore._path := nul_path;
                        CursorStore._cursors := {[ "global" := "c1" ]} |}
                     (quiet_world ∅ (fun _ _ => inl HTTPError)) eq_refl) "global" "c2")
    as (self' & w' & Hset & Hget & _ & Hdisk).
  exists self', w'. split; [exact Hset | ]. split; [exact Hget | ].
  destruct Hdisk as [Hdisk | Hdisk]; [exact Hdisk | ].
  unfold CursorStore.set, CursorStore.saved in Hset.
  vm_compute in Hset. injection Hset as _ Hw. subst w'. reflexivity.
Defined.

(** The part of the claim that holds: over a read-only disk and an
    ordinary path the write fails with an [OSError] and [set] returns. *)
Example set_on_a_read_only_disk :
  let self := {| CursorStore._path := "/home/bot/.diffdelta/cursors.json";
                 CursorStore._cursors := {[ "global" := "c1" ]} |} in
  exists self',
    CursorStore.set self "global" "c2" (readonly_world ∅) = (inr tt, (self', readonly_world ∅))
    /\ CursorStore.get self' "global" = Some "c2".
Proof. cbv zeta. eexists. split; [vm_compute; reflexivity | reflexivity]. Qed.

(** C9.  When [set key cursor] gets its write through, a fresh store
    built over the same path loads the very table that was saved, and its
    [get key] returns exactly [cursor]. *)
Theorem C9_set_then_reload (self : CursorStore.t) (key cursor : string) (w : World) :
  save_fails w (CursorStore._path self) = false ->
  exists self' w' fresh,
    CursorStore.set self key cursor w = (inr tt, (self', w'))
    /\ disk w' !! CursorStore._path self = Some (JsonDict (CursorStore._cursors self'))
    /\ CursorStore.__init__ (Some (CursorStore._path self)) w' = (inr fresh, w')
    /\ CursorStore.get fresh key = Some cursor
    /\ CursorStore._cursors fresh = CursorStore._cursors self'.
Proof.
  intros Hok.
  destruct (save_goes_through _ _ Hok) as (_ & Hn & Hpath).
  rewrite set_overwrites by exact Hok.
  do 3 eexists. split; [reflexivity | ].
  assert (Hd : disk (with_disk (insert (CursorStore._path self)
                 (JsonDict (<[key := cursor]> (CursorStore._cursors self)))) w)
               !! CursorStore._path self
               = Some (JsonDict (<[key := cursor]> (CursorStore._cursors self)))).
  { simpl. apply lookup_insert_eq. }
  split; [exact Hd | ].
  split.
  { rewrite init_explicit_path by exact Hpath.
    apply (load_dict {| CursorStore._path := CursorStore._path self;
                        CursorStore._cursors := ∅ |}); [exact Hn | exact Hd]. }
  split; [ | reflexivity].
  unfold CursorStore.get; simpl. apply lookup_insert_eq.
Qed.

Lemma C9_witness :
  let self := {| CursorStore._path := "/home/bot/.diffdelta/cursors.json";
                 CursorStore._cursors := ∅ |} in
  let w := quiet_world ∅ (fun _ _ => inl HTTPError) in
  save_fails w (CursorStore._path self) = false
  /\ exists self' w' fresh,
       CursorStore.set self "global" "abc123" w = (inr tt, (self', w'))
       /\ CursorStore.__init__ (Some (CursorStore._path self)) w' = (inr fresh, w')
       /\ CursorStore.get fresh "global" = Some "abc123".
Proof.
  cbv zeta. split; [reflexivity | ].
  destruct (C9_set_then_reload
              {| CursorStore._path := "/home/bot/.diffdelta/cursors.json";
                 CursorStore._cursors := ∅ |}
              "global" "abc123" (quiet_world ∅ (fun _ _ => inl HTTPError)) eq_refl)
    as (self' & w' & fresh & Hset & _ & Hinit & Hget & _).
  exists self', w', fresh. repeat split; assumption.
Defined.

(** ** Poll engine *)

Lemma get_json_run (url : string) (s : DiffDelta.St) :
  DiffDelta._get_json url s = (answer url s, logged url s).
Proof. reflexivity. Qed.

Lemma logged_requests (url : string) (s : DiffDelta.St) :
  requests (DiffDelta.world (logged url s))
  = (requests (DiffDelta.world s) ++ [(url, answer url s)])%list.
Proof. reflexivity. Qed.

Lemma head_run (url : string) (s : DiffDelta.St) :
  DiffDelta.head (Some url) s
  = (match answer url s with
     | inl e => inl e
     | inr data => inr (Head.from_raw data)
     end, logged url s).
Proof.
  unfold DiffDelta.head; py_run. simpl default.
  rewrite get_json_run. destruct (answer url s); reflexivity.
Qed.

Lemma fetch_feed_run (url : string) (s : DiffDelta.St) :
  DiffDelta.fetch_feed (Some url) s
  = (match answer url s with
     | inl e => inl e
     | inr data => inr (Feed.from_raw data)
     end, logged url s).
Proof.
  unfold DiffDelta.fetch_feed; py_run. simpl default.
  rewrite get_json_run. destruct (answer url s); reflexivity.
Qed.

Lemma frame_refl (s : DiffDelta.St) : frame s s.
Proof. repeat split. exists []. now rewrite app_nil_r. Qed.

Lemma frame_trans (s1 s2 s3 : DiffDelta.St) : frame s1 s2 -> frame s2 s3 -> frame s1 s3.
Proof.
  intros (Hb & Hc & l & Hl) (Hb' & Hc' & l' & Hl').
  split; [congruence | ]. split; [congruence | ].
  exists (l ++ l')%list. rewrite Hl', Hl. now rewrite <- app_assoc.
Qed.

Lemma frame_logged (url : string) (s : DiffDelta.St) : frame s (logged url s).
Proof. repeat split. eexists. apply logged_requests. Qed.

Lemma get_source_tags_frame (s : DiffDelta.St) :
  frame s (snd (DiffDelta._get_source_tags s)).
Proof.
  unfold DiffDelta._get_source_tags, DiffDelta.sources,
    DiffDelta.set_source_tags_cache; py_run.
  destruct (DiffDelta._source_tags_cache (DiffDelta.self s)) eqn:Hc.
  { apply frame_refl. }
  rewrite get_json_run.
  destruct (answer _ s) as [e | doc].
  - destruct (except_Exception e); simpl.
    + repeat split. eexists. apply logged_requests.
    + repeat split. eexists. apply logged_requests.
  - simpl. repeat split. eexists. apply logged_requests.
Qed.

Lemma sources_answer_next (s : DiffDelta.St) :
  sources_answer 0 s
  = answer (DiffDelta.base_url (DiffDelta.self s) ++ "/diff/sources.json") s.
Proof. reflexivity. Qed.

(** With a catchable sources fetch, [_get_source_tags] returns the table
    of [tag_table] and leaves it cached. *)
Lemma get_source_tags_run (s : DiffDelta.St) :
  sources_fetch_catchable 0 s ->
  exists s', DiffDelta._get_source_tags s = (inr (tag_table 0 s), s')
             /\ DiffDelta._source_tags_cache (DiffDelta.self s') = Some (tag_table 0 s).
Proof.
  unfold sources_fetch_catchable, tag_table. rewrite sources_answer_next.
  unfold DiffDelta._get_source_tags, DiffDelta.sources,
    DiffDelta.set_source_tags_cache; py_run.
  destruct (DiffDelta._source_tags_cache (DiffDelta.self s)) eqn:Hc.
  { intros _. eexists. split; [reflexivity | exact Hc]. }
  rewrite get_json_run.
  destruct (answer _ s) as [e | doc].
  - intros ->. simpl. eexists. split; reflexivity.
  - intros _. simpl. eexists. split; reflexivity.
Qed.

Lemma tag_table_cached (s : DiffDelta.St) (c : gmap string (list string)) :
  DiffDelta._source_tags_cache (DiffDelta.self s) = Some c ->
  tag_table 0 s = c /\ sources_fetch_catchable 0 s.
Proof. unfold tag_table, sources_fetch_catchable. intros ->. split; [reflexivity | exact I]. Qed.

Lemma filter_items_frame (tags sources : option (list string)) (buckets : list string)
    (feed_items acc : list FeedItem.t) (s : DiffDelta.St) :
  frame s (snd (DiffDelta.filter_items tags sources buckets feed_items acc s)).
Proof.
  revert acc s. induction feed_items as [|item rest IH]; intros acc s.
  { apply frame_refl. }
  simpl DiffDelta.filter_items.
  destruct (negb (str_in (FeedItem.bucket item) buckets)); [apply IH | ].
  destruct (filter_given sources
            && negb (str_in (FeedItem.source item) (default [] sources)));
    [apply IH | ].
  destruct (filter_given tags); [ | apply IH].
  cbv beta iota zeta delta [bind].
  pose proof (get_source_tags_frame s) as Hf.
  destruct (DiffDelta._get_source_tags s) as [[e | t] s1]; simpl in Hf.
  { exact Hf. }
  destruct (negb (existsb _ _)); (eapply frame_trans; [exact Hf | apply IH]).
Qed.

(** Step 5 returns, in feed order, exactly the items that pass [keep]
    against the tag table of the state it starts in. *)
Lemma filter_items_run (tags sources : option (list string)) (buckets : list string)
    (feed_items acc : list FeedItem.t) (s : DiffDelta.St) :
  sources_fetch_catchable 0 s ->
  fst (DiffDelta.filter_items tags sources buckets feed_items acc s)
  = inr (acc ++ List.filter (keep tags sources buckets (tag_table 0 s)) feed_items)%list.
Proof.
  revert acc s. induction feed_items as [|item rest IH]; intros acc s Hs.
  { simpl. now rewrite app_nil_r. }
  cbn [DiffDelta.filter_items List.filter].
  set (k := keep tags sources buckets (tag_table 0 s) item).
  assert (Hk : k = str_in (FeedItem.bucket item) buckets
                   && (negb (filter_given sources)
                       || str_in (FeedItem.source item) (default [] sources))
                   && (negb (filter_given tags)
                       || existsb (fun t => str_in t (default [] (tag_table 0 s
                                                         !! FeedItem.source item)))
                                  (default [] tags))) by reflexivity.
  clearbody k.
  destruct (str_in (FeedItem.bucket item) buckets); cbn [negb andb orb] in Hk |- *;
    [ | subst k; now apply IH].
  destruct (filter_given sources),
           (str_in (FeedItem.source item) (default [] sources));
    cbn [negb andb orb] in Hk |- *;
    try (subst k; now apply IH).
  all: destruct (filter_given tags); cbn [negb andb orb] in Hk |- *;
    [ | subst k; rewrite IH by exact Hs; now rewrite <- app_assoc ].
  all: cbv beta iota zeta delta [bind];
    destruct (get_source_tags_run s Hs) as (s1 & Hrun & Hcache);
    rewrite Hrun; cbv iota;
    destruct (tag_table_cached _ _ Hcache) as [Ht Hs1];
    destruct (existsb _ (default [] tags)); cbn [negb] in Hk |- *; cbv iota;
    subst k; rewrite IH by exact Hs1; rewrite Ht;
    [now rewrite <- app_assoc | reflexivity].
Qed.

Lemma save_new_cursor_run (key : string) (feed : Feed.t) (s : DiffDelta.St) :
  exists s',
    DiffDelta.save_new_cursor key feed s = (cursor_save_result s (Feed.cursor feed), s')
    /\ DiffDelta.base_url (DiffDelta.self s') = DiffDelta.base_url (DiffDelta.self s)
    /\ DiffDelta._source_tags_cache (DiffDelta.self s')
       = DiffDelta._source_tags_cache (DiffDelta.self s)
    /\ server (DiffDelta.world s') = server (DiffDelta.world s)
    /\ requests (DiffDelta.world s') = requests (DiffDelta.world s)
    /\ DiffDelta._cursors (DiffDelta.self s')
       = match DiffDelta._cursors (DiffDelta.self s) with
         | Some store =>
             Some (if truthy (Feed.cursor feed)
                   then CursorStore.set_cursors store
                          (<[key := Feed.cursor feed]> (CursorStore._cursors store))
                   else store)
         | None => None
         end.
Proof.
  unfold DiffDelta.save_new_cursor, DiffDelta.on_cursors, cursor_save_result,
    CursorStore.set, CursorStore.saved; py_run.
  destruct (DiffDelta._cursors (DiffDelta.self s)) as [store | ] eqn:Hc.
  - destruct (truthy (Feed.cursor feed)).
    + destruct (save_returns
                  (CursorStore.set_cursors store
                     (<[key := Feed.cursor feed]> (CursorStore._cursors store)))
                  (DiffDelta.world s)) as (w' & Hs & Hsrv & Hreq & _).
      rewrite Hs. eexists. split; [reflexivity | ]. simpl. auto.
    + eexists. split; [reflexivity | ]. simpl. auto.
  - eexists. split; [reflexivity | ]. simpl. auto.
Qed.

(** The GETs of a poll change nothing that the outcome of the save
    depends on. *)
Lemma cursor_save_result_logged (url : string) (s : DiffDelta.St) (cursor : string) :
  cursor_save_result (logged url s) cursor = cursor_save_result s cursor.
Proof. reflexivity. Qed.

(** [_poll_feed], step by step. *)
Lemma poll_feed_run (head_url latest_url key : string)
    (tags sources : option (list string)) (buckets : list string) (s : DiffDelta.St) :
  DiffDelta._poll_feed head_url latest_url key tags sources buckets s
  = match answer head_url s with
    | inl e => (inl e, logged head_url s)
    | inr hdoc =>
        if DiffDelta.cursor_unchanged (stored_cursor s key) (Head.from_raw hdoc)
        then (inr [], logged head_url s)
        else
          match answer latest_url (logged head_url s) with
          | inl e => (inl e, logged latest_url (logged head_url s))
          | inr fdoc =>
              let s3 := snd (DiffDelta.save_new_cursor key (Feed.from_raw fdoc)
                               (logged latest_url (logged head_url s))) in
              match cursor_save_result s (Feed.cursor (Feed.from_raw fdoc)) with
              | inl e => (inl e, s3)
              | inr _ =>
                  DiffDelta.filter_items tags sources buckets
                    (Feed.items (Feed.from_raw fdoc)) [] s3
              end
          end
    end.
Proof.
  unfold DiffDelta._poll_feed. cbv beta iota zeta delta [bind gets ret].
  rewrite head_run. destruct (answer head_url s) as [e | hdoc]; [reflexivity | ].
  change (match DiffDelta._cursors (DiffDelta.self (logged head_url s)) with
          | Some store => CursorStore.get store key
          | None => None
          end) with (stored_cursor s key).
  destruct (DiffDelta.cursor_unchanged _ _); [reflexivity | ].
  rewrite fetch_feed_run.
  destruct (answer latest_url (logged head_url s)) as [e | fdoc]; [reflexivity | ].
  destruct (save_new_cursor_run key (Feed.from_raw fdoc)
              (logged latest_url (logged head_url s))) as (s' & Hrun & _).
  rewrite Hrun, !cursor_save_result_logged. cbv zeta.
  destruct (cursor_save_result s _) as [e | []]; reflexivity.
Qed.

Lemma cursor_unchanged_iff (stored : option string) (h : Head.t) :
  DiffDelta.cursor_unchanged stored h = true
  <-> exists c, stored = Some c /\ c <> "" /\ c = Head.cursor h.
Proof.
  unfold DiffDelta.cursor_unchanged, truthy. split.
  - destruct stored as [c | ]; [ | discriminate].
    intros H. apply andb_true_iff in H as [H1 H2].
    exists c. split; [reflexivity | ]. split.
    + intros ->. discriminate H1.
    + now apply String.eqb_eq.
  - intros (c & -> & Hne & Heq).
    apply andb_true_iff. split.
    + destruct (String.eqb_spec c ""); [contradiction | reflexivity].
    + now apply String.eqb_eq.
Qed.

Lemma new_requests_app (w w' : World) (l : list (string * (exn + RawDoc))) :
  requests w' = (requests w ++ l)%list -> new_requests w w' = l.
Proof. intros H. unfold new_requests. rewrite H. apply drop_app_length. Qed.

(** Once the head check says "changed", the second request of the poll
    asks for the full feed. *)
Lemma poll_feed_fetches (head_url latest_url key : string)
    (tags sources : option (list string)) (buckets : list string)
    (s : DiffDelta.St) (hdoc : RawDoc) :
  answer head_url s = inr hdoc ->
  DiffDelta.cursor_unchanged (stored_cursor s key) (Head.from_raw hdoc) = false ->
  fetches_full_feed head_url latest_url s
    (snd (DiffDelta._poll_feed head_url latest_url key tags sources buckets s)).
Proof.
  intros Hh Hu. rewrite poll_feed_run, Hh, Hu. unfold fetches_full_feed.
  destruct (answer latest_url (logged head_url s)) as [e | fdoc] eqn:Hf.
  - exists []. simpl snd. apply new_requests_app.
    rewrite !logged_requests, Hf, Hh. now rewrite <- app_assoc.
  - destruct (save_new_cursor_run key (Feed.from_raw fdoc)
                (logged latest_url (logged head_url s)))
      as (s1 & Hrun & _ & _ & _ & Hreq & _).
    cbv zeta. rewrite Hrun. cbn [snd].
    destruct (cursor_save_result s _) as [e | u].
    + exists []. apply new_requests_app. cbn [snd]. rewrite Hreq.
      rewrite !logged_requests, Hf, Hh. now rewrite <- !app_assoc.
    + destruct (filter_items_frame tags sources buckets
                  (Feed.items (Feed.from_raw fdoc)) [] s1) as (_ & _ & l & Hl).
      exists l. apply new_requests_app. rewrite Hl, Hreq.
      rewrite !logged_requests, Hf, Hh. now rewrite <- !app_assoc.
Qed.

(** C1 (amended).  With the head fetched, [_poll_feed] skips the full
    feed exactly when a stored cursor for the key is present, is not the
    empty string, and equals the head's cursor: then it returns the empty
    list, the head request is its only GET, and nothing else changes.  In
    every other case its second GET asks for the full feed; so it does for
    a key without stored cursor and for a client without cursor store. *)
Theorem C1_skip_iff_nonempty_cursor_matches (head_url latest_url key : string)
    (tags sources : option (list string)) (buckets : list string)
    (s : DiffDelta.St) (hdoc : RawDoc) :
  answer head_url s = inr hdoc ->
  let out := DiffDelta._poll_feed head_url latest_url key tags sources buckets s in
  let matches := exists c, stored_cursor s key = Some c /\ c <> ""
                           /\ c = Head.cursor (Head.from_raw hdoc) in
  (matches -> out = (inr [], logged head_url s) /\ head_only head_url s (snd out))
  /\ (~ matches -> fetches_full_feed head_url latest_url s (snd out))
  /\ (head_only head_url s (snd out) <-> matches)
  /\ (stored_cursor s key = None -> fetches_full_feed head_url latest_url s (snd out))
  /\ (DiffDelta._cursors (DiffDelta.self s) = None ->
      fetches_full_feed head_url latest_url s (snd out)).
Proof.
  intros Hh out matches.
  assert (Hskip : matches -> out = (inr [], logged head_url s)
                             /\ head_only head_url s (snd out)).
  { intros Hm. apply cursor_unchanged_iff in Hm.
    assert (Hout : out = (inr [], logged head_url s)).
    { unfold out. now rewrite poll_feed_run, Hh, Hm. }
    split; [exact Hout | ]. rewrite Hout. unfold head_only. simpl snd.
    apply new_requests_app. apply logged_requests. }
  assert (Hfetch : ~ matches -> fetches_full_feed head_url latest_url s (snd out)).
  { intros Hm. apply (poll_feed_fetches _ _ _ _ _ _ _ hdoc Hh).
    destruct (DiffDelta.cursor_unchanged _ _) eqn:Hu; [ | reflexivity].
    exfalso. apply Hm. now apply cursor_unchanged_iff. }
  assert (Hnone : stored_cursor s key = None -> ~ matches).
  { intros Hn (c & Hc & _). congruence. }
  split; [exact Hskip | ]. split; [exact Hfetch | ]. split; [ | split].
  - split; [ | intros Hm; now apply Hskip].
    intros Ho.
    destruct (DiffDelta.cursor_unchanged (stored_cursor s key) (Head.from_raw hdoc))
      eqn:Hu; [now apply cursor_unchanged_iff | ].
    exfalso.
    destruct (poll_feed_fetches head_url latest_url key tags sources buckets s hdoc Hh Hu)
      as (rest & Hrest).
    fold out in Hrest. unfold head_only in Ho. rewrite Ho in Hrest. discriminate Hrest.
  - intros Hn. apply Hfetch. now apply Hnone.
  - intros Hn. apply Hfetch. apply Hnone. unfold stored_cursor. now rewrite Hn.
Qed.

Example init_loads_an_empty_cursor :
  DiffDelta.__init__ DEFAULT_BASE_URL None (Some "/home/bot/.diffdelta/cursors.json")
    DEFAULT_TIMEOUT
    (quiet_world {[ "/home/bot/.diffdelta/cursors.json" := JsonDict {[ "global" := "" ]} ]}
                 (simple_server "" (feed_doc "c2" [] [] [])))
  = (inr (client_with (Some {[ "global" := "" ]})),
     quiet_world {[ "/home/bot/.diffdelta/cursors.json" := JsonDict {[ "global" := "" ]} ]}
                 (simple_server "" (feed_doc "c2" [] [] []))).
Proof. vm_compute. reflexivity. Qed.

Lemma C1_witness :
  let head_url := "https://diffdelta.io/diff/head.json" in
  let latest_url := "https://diffdelta.io/diff/latest.json" in
  let s := {| DiffDelta.self := client_with (Some {[ "global" := "c1" ]});
              DiffDelta.world := quiet_world ∅ (simple_server "c1" (feed_doc "c2" [] [] [])) |} in
  answer head_url s = inr (head_doc "c1")
  /\ DiffDelta._poll_feed head_url latest_url "global" None None ["new"; "updated"] s
     = (inr [], logged head_url s).
Proof.
  cbv zeta. split; [reflexivity | ].
  refine (proj1 (proj1 (C1_skip_iff_nonempty_cursor_matches
                          "https://diffdelta.io/diff/head.json"
                          "https://diffdelta.io/diff/latest.json"
                          "global" None None ["new"; "updated"]
                          {| DiffDelta.self := client_with (Some {[ "global" := "c1" ]});
                             DiffDelta.world :=
                               quiet_world ∅ (simple_server "c1" (feed_doc "c2" [] [] [])) |}
                          (head_doc "c1") eq_refl) _)).
  exists "c1". split; [reflexivity | ]. split; [discriminate | reflexivity].
Defined.

(** The claim as first worded fails: with the empty string stored under
    ["global"] and a head whose cursor is the empty string too, the stored
    cursor is present and equal, and the poll goes on to fetch the feed. *)
Lemma C1_counterexample :
  let head_url := "https://diffdelta.io/diff/head.json" in
  let latest_url := "https://diffdelta.io/diff/latest.json" in
  let s := {| DiffDelta.self := client_with (Some {[ "global" := "" ]});
              DiffDelta.world := quiet_world ∅ (simple_server "" (feed_doc "c2" [] [] [])) |} in
  let out := DiffDelta._poll_feed head_url latest_url "global" None None ["new"; "updated"] s in
  answer head_url s = inr (head_doc "")
  /\ ~ (head_only head_url s (snd out)
        <-> exists c, stored_cursor s "global" = Some c
                      /\ c = Head.cursor (Head.from_raw (head_doc ""))).
Proof.
  cbv zeta. split; [reflexivity | ].
  intros [_ H].
  assert (Hc : exists c,
             stored_cursor
               {| DiffDelta.self := client_with (Some {[ "global" := "" ]});
                  DiffDelta.world :=
                    quiet_world ∅ (simple_server "" (feed_doc "c2" [] [] [])) |}
               "global" = Some c
             /\ c = Head.cursor (Head.from_raw (head_doc ""))).
  { exists "". split; reflexivity. }
  specialize (H Hc). unfold head_only in H. vm_compute in H. discriminate H.
Qed.

(** C10.  A stored cursor that is the empty string counts as no cursor:
    with the head fetched, whatever its cursor (the empty string
    included), the second GET of the poll asks for the full feed. *)
Theorem C10_empty_stored_cursor_refetches (head_url latest_url key : string)
    (tags sources : option (list string)) (buckets : list string)
    (s : DiffDelta.St) (hdoc : RawDoc) :
  stored_cursor s key = Some "" ->
  answer head_url s = inr hdoc ->
  DiffDelta.cursor_unchanged (stored_cursor s key) (Head.from_raw hdoc) = false
  /\ fetches_full_feed head_url latest_url s
       (snd (DiffDelta._poll_feed head_url latest_url key tags sources buckets s)).
Proof.
  intros Hs Hh.
  assert (Hu : DiffDelta.cursor_unchanged (stored_cursor s key) (Head.from_raw hdoc) = false).
  { rewrite Hs. reflexivity. }
  split; [exact Hu | ]. now apply (poll_feed_fetches _ _ _ _ _ _ _ hdoc).
Qed.

Lemma C10_witness :
  let head_url := "https://diffdelta.io/diff/head.json" in
  let latest_url := "https://diffdelta.io/diff/latest.json" in
  let s := {| DiffDelta.self := client_with (Some {[ "global" := "" ]});
              DiffDelta.world := quiet_world ∅ (simple_server "" (feed_doc "" [] [] [])) |} in
  stored_cursor s "global" = Some (Head.cursor (Head.from_raw (head_doc "")))
  /\ answer head_url s = inr (head_doc "")
  /\ fetches_full_feed head_url latest_url s
       (snd (DiffDelta._poll_feed head_url latest_url "global" None None
               ["new"; "updated"] s)).
Proof.
  cbv zeta. split; [reflexivity | ]. split; [reflexivity | ].
  exact (proj2 (C10_empty_stored_cursor_refetches
                  "https://diffdelta.io/diff/head.json"
                  "https://diffdelta.io/diff/latest.json"
                  "global" None None ["new"; "updated"]
                  {| DiffDelta.self := client_with (Some {[ "global" := "" ]});
                     DiffDelta.world :=
                       quiet_world ∅ (simple_server "" (feed_doc "" [] [] [])) |}
                  (head_doc "") eq_refl eq_refl)).
Defined.

(** The cursor store after a poll that fetched the feed. *)
Lemma poll_feed_cursors (head_url latest_url key : string)
    (tags sources : option (list string)) (buckets : list string)
    (s : DiffDelta.St) (hdoc fdoc : RawDoc) :
  answer head_url s = inr hdoc ->
  DiffDelta.cursor_unchanged (stored_cursor s key) (Head.from_raw hdoc) = false ->
  answer latest_url (logged head_url s) = inr fdoc ->
  DiffDelta._cursors (DiffDelta.self
    (snd (DiffDelta._poll_feed head_url latest_url key tags sources buckets s)))
  = match DiffDelta._cursors (DiffDelta.self s) with
    | Some store =>
        Some (if truthy (Feed.cursor (Feed.from_raw fdoc))
              then CursorStore.set_cursors store
                     (<[key := Feed.cursor (Feed.from_raw fdoc)]> (CursorStore._cursors store))
              else store)
    | None => None
    end.
Proof.
  intros Hh Hu Hf. rewrite poll_feed_run, Hh, Hu, Hf.
  destruct (save_new_cursor_run key (Feed.from_raw fdoc)
              (logged latest_url (logged head_url s)))
    as (s1 & Hrun & _ & _ & _ & _ & Hcur).
  cbv zeta. rewrite Hrun. cbn [snd].
  destruct (cursor_save_result s _) as [e | u]; cbn [snd].
  - rewrite Hcur. reflexivity.
  - destruct (filter_items_frame tags sources buckets
                (Feed.items (Feed.from_raw fdoc)) [] s1) as (_ & Hc & _).
    rewrite Hc, Hcur. reflexivity.
Qed.

(** C2.  After a poll that fetched the full feed: with a cursor store, a
    non-empty feed cursor is what [get] then returns for the key, whatever
    was there before and whatever the filters let through, and the other
    keys keep their cursors; an empty feed cursor leaves the store as it
    was.  A client without cursor store stays without one. *)
Theorem C2_feed_cursor_saved (head_url latest_url key : string)
    (tags sources : option (list string)) (buckets : list string)
    (s : DiffDelta.St) (hdoc fdoc : RawDoc) :
  answer head_url s = inr hdoc ->
  DiffDelta.cursor_unchanged (stored_cursor s key) (Head.from_raw hdoc) = false ->
  answer latest_url (logged head_url s) = inr fdoc ->
  let cursor := Feed.cursor (Feed.from_raw fdoc) in
  let s' := snd (DiffDelta._poll_feed head_url latest_url key tags sources buckets s) in
  (forall store, DiffDelta._cursors (DiffDelta.self s) = Some store ->
     (cursor <> "" ->
        stored_cursor s' key = Some cursor
        /\ forall k, k <> key -> stored_cursor s' k = stored_cursor s k)
     /\ (cursor = "" -> DiffDelta._cursors (DiffDelta.self s') = Some store))
  /\ (DiffDelta._cursors (DiffDelta.self s) = None ->
      DiffDelta._cursors (DiffDelta.self s') = None).
Proof.
  intros Hh Hu Hf cursor s'.
  pose proof (poll_feed_cursors head_url latest_url key tags sources buckets
                s hdoc fdoc Hh Hu Hf) as Hc.
  fold s' in Hc. fold cursor in Hc.
  split.
  - intros store Hstore. rewrite Hstore in Hc. split.
    + intros Hne.
      assert (Ht : truthy cursor = true).
      { unfold truthy. destruct (String.eqb_spec cursor ""); [contradiction | reflexivity]. }
      rewrite Ht in Hc. unfold stored_cursor. rewrite Hc, Hstore.
      unfold CursorStore.get; simpl. split.
      * apply lookup_insert_eq.
      * intros k Hk. now apply lookup_insert_ne.
    + intros He. rewrite He in Hc. exact Hc.
  - intros Hnone. now rewrite Hnone in Hc.
Qed.

(** A feed with cursor ["c2"] whose only item is in the [removed] bucket:
    the default filter keeps nothing, and the stored cursor still moves
    from ["c1"] to ["c2"]. *)
Lemma C2_witness :
  let head_url := "https://diffdelta.io/diff/head.json" in
  let latest_url := "https://diffdelta.io/diff/latest.json" in
  let fdoc := feed_doc "c2" [] [] [sample_item "src1" "gone" []] in
  let s := {| DiffDelta.self := client_with (Some {[ "global" := "c1" ]});
              DiffDelta.world := quiet_world ∅ (simple_server "c2" fdoc) |} in
  let out := DiffDelta._poll_feed head_url latest_url "global" None None
               ["new"; "updated"] s in
  answer head_url s = inr (head_doc "c2")
  /\ answer latest_url (logged head_url s) = inr fdoc
  /\ stored_cursor s "global" = Some "c1"
  /\ fst out = inr []
  /\ stored_cursor (snd out) "global" = Some "c2".
Proof.
  cbv zeta. split; [reflexivity | ]. split; [reflexivity | ].
  split; [reflexivity | ]. split; [reflexivity | ].
  refine (proj1 (proj1 (proj1 (C2_feed_cursor_saved
            "https://diffdelta.io/diff/head.json"
            "https://diffdelta.io/diff/latest.json"
            "global" None None ["new"; "updated"]
            {| DiffDelta.self := client_with (Some {[ "global" := "c1" ]});
               DiffDelta.world :=
                 quiet_world ∅ (simple_server "c2"
                                  (feed_doc "c2" [] [] [sample_item "src1" "gone" []])) |}
            (head_doc "c2") (feed_doc "c2" [] [] [sample_item "src1" "gone" []])
            eq_refl eq_refl eq_refl) _ eq_refl) _)).
  discriminate.
Defined.

(** Over a cursor path with a NUL character the poll that fetched the
    feed raises the [ValueError] of [_save] in place of its items; the
    cursor has moved in memory all the same, so the next poll finds no
    change. *)
Example poll_over_a_nul_path :
  let fdoc := feed_doc "c2" [sample_item "src1" "A" []] [] [] in
  let s := {| DiffDelta.self :=
                {| DiffDelta.base_url := DEFAULT_BASE_URL; DiffDelta.api_key := None;
                   DiffDelta.timeout := DEFAULT_TIMEOUT;
                   DiffDelta._cursors :=
                     Some {| CursorStore._path := nul_path; CursorStore._cursors := ∅ |};
                   DiffDelta._source_tags_cache := None |};
              DiffDelta.world := quiet_world ∅ (simple_server "c2" fdoc) |} in
  let out := DiffDelta.poll None None None s in
  fst out = inl ValueError
  /\ stored_cursor (snd out) "global" = Some "c2"
  /\ disk (DiffDelta.world (snd out)) = ∅
  /\ fst (DiffDelta.poll None None None (snd out)) = inr [].
Proof. cbv zeta. repeat split; vm_compute; reflexivity. Qed.

Lemma keep_agrees_with_spec (tags sources : option (list string)) (buckets : list string)
    (table : gmap string (list string)) (item : FeedItem.t) :
  sources <> Some [] -> tags <> Some [] ->
  keep tags sources buckets table item = spec_keep tags sources buckets table item.
Proof.
  intros Hs Ht. unfold keep, spec_keep.
  destruct sources as [[|x xs]|], tags as [[|y ys]|]; try contradiction; reflexivity.
Qed.

(** The state in which step 5 starts sees the sources request as its next
    GET; from the start of the poll it is the third. *)
Lemma filter_start_state (key : string) (feed : Feed.t) (head_url latest_url : string)
    (s : DiffDelta.St) :
  let s3 := snd (DiffDelta.save_new_cursor key feed (logged latest_url (logged head_url s))) in
  tag_table 0 s3 = tag_table 2 s
  /\ (sources_fetch_catchable 2 s -> sources_fetch_catchable 0 s3).
Proof.
  cbv zeta.
  destruct (save_new_cursor_run key feed (logged latest_url (logged head_url s)))
    as (s3 & Hrun & Hbase & Hcache & Hsrv & Hreq & _).
  rewrite Hrun. cbn [snd].
  assert (Ha : sources_answer 0 s3 = sources_answer 2 s).
  { unfold sources_answer. rewrite Hbase, Hsrv, Hreq, !logged_requests.
    rewrite !length_app. simpl.
    replace (length (requests (DiffDelta.world s)) + 1 + 1)
      with (S (S (length (requests (DiffDelta.world s))))) by lia.
    reflexivity. }
  unfold tag_table, sources_fetch_catchable. rewrite Hcache, Ha. simpl.
  split; [reflexivity | tauto].
Qed.

(** With an empty tag table a tag filter keeps nothing. *)
Lemma filter_without_tags (tags sources : option (list string)) (buckets : list string)
    (l : list FeedItem.t) :
  filter_given tags = true ->
  List.filter (keep tags sources buckets ∅) l = [].
Proof.
  intros Htags.
  assert (Hk : forall item, keep tags sources buckets ∅ item = false).
  { intros item. unfold keep. rewrite Htags, lookup_empty. simpl.
    replace (existsb (fun _ : string => false) (default [] tags)) with false.
    - now rewrite !andb_false_r.
    - clear. induction (default [] tags); [reflexivity | assumption]. }
  induction l as [|item rest IH]; [reflexivity | ].
  simpl. now rewrite Hk.
Qed.

(** The save of step 4 returns for a client without cursor store and for
    one whose cursor path has no NUL character. *)
Lemma cursor_save_returns (s : DiffDelta.St) (cursor : string) :
  (forall store, DiffDelta._cursors (DiffDelta.self s) = Some store ->
                 has_nul (CursorStore._path store) = false) ->
  cursor_save_result s cursor = inr tt.
Proof.
  intros H. unfold cursor_save_result, save_result, save_raises.
  destruct (DiffDelta._cursors (DiffDelta.self s)) as [store | ]; [ | reflexivity].
  rewrite (H store eq_refl), andb_false_r. now destruct (truthy cursor).
Qed.

(** C5 (amended).  When the poll fetches the feed and the sources request
    (if one is made) does not die of an interrupt, the result is the list
    of feed items, in feed order, that pass [keep]: the bucket is listed,
    and the source filter is absent, empty, or lists the item's source,
    and the tag filter is absent, empty, or shares a tag with the item's
    source in the cached table.  When that table has to be fetched and the
    fetch fails, every source has no tags and a non-empty tag filter
    leaves nothing.  The poll hands this result to its caller whenever the
    save of step 4 returns, as it does without a cursor store and over a
    cursor path without a NUL character; when that save raises, the poll
    raises the same error and has no result. *)
Theorem C5_result_is_stable_filter (head_url latest_url key : string)
    (tags sources : option (list string)) (buckets : list string)
    (s : DiffDelta.St) (hdoc fdoc : RawDoc) :
  answer head_url s = inr hdoc ->
  DiffDelta.cursor_unchanged (stored_cursor s key) (Head.from_raw hdoc) = false ->
  answer latest_url (logged head_url s) = inr fdoc ->
  sources_fetch_catchable 2 s ->
  let result := fst (DiffDelta._poll_feed head_url latest_url key tags sources buckets s) in
  let saved := cursor_save_result s (Feed.cursor (Feed.from_raw fdoc)) in
  result = match saved with
           | inr _ => inr (List.filter (keep tags sources buckets (tag_table 2 s))
                                       (Feed.items (Feed.from_raw fdoc)))
           | inl e => inl e
           end
  /\ (forall e, DiffDelta._source_tags_cache (DiffDelta.self s) = None ->
                sources_answer 2 s = inl e ->
                filter_given tags = true ->
                result = match saved with inr _ => inr [] | inl e => inl e end)
  /\ ((forall store, DiffDelta._cursors (DiffDelta.self s) = Some store ->
                     has_nul (CursorStore._path store) = false) ->
      saved = inr tt).
Proof.
  intros Hh Hu Hf Hs result saved.
  assert (Hres : result
                 = match saved with
                   | inr _ => inr (List.filter (keep tags sources buckets (tag_table 2 s))
                                               (Feed.items (Feed.from_raw fdoc)))
                   | inl e => inl e
                   end).
  { unfold result, saved. rewrite poll_feed_run, Hh, Hu, Hf. cbv zeta.
    destruct (cursor_save_result s _) as [e | u]; [reflexivity | ].
    destruct (filter_start_state key (Feed.from_raw fdoc) head_url latest_url s)
      as [Ht Hc].
    rewrite filter_items_run by (now apply Hc).
    rewrite Ht. reflexivity. }
  split; [exact Hres | ]. split.
  - intros e Hcache Hans Htags. rewrite Hres.
    destruct saved as [e' | u]; [reflexivity | ]. f_equal.
    unfold tag_table. rewrite Hcache, Hans.
    now apply filter_without_tags.
  - apply cursor_save_returns.
Qed.

(** The items [A(new, src1)], [B(updated, src2)], [C(removed, src1)] under
    the default buckets give [A; B] in that order; under the tag filter
    [security], with [src1] tagged [security] and [src2] tagged [finance],
    only [A] stays. *)
Lemma C5_witness :
  let head_url := "https://diffdelta.io/diff/head.json" in
  let latest_url := "https://diffdelta.io/diff/latest.json" in
  let A := sample_item "src1" "A" [] in
  let B := sample_item "src2" "B" [] in
  let C := sample_item "src1" "C" [] in
  let fdoc := feed_doc "c2" [A] [B] [C] in
  let s := {| DiffDelta.self :=
                {| DiffDelta.base_url := DEFAULT_BASE_URL; DiffDelta.api_key := None;
                   DiffDelta.timeout := DEFAULT_TIMEOUT; DiffDelta._cursors := None;
                   DiffDelta._source_tags_cache :=
                     Some {[ "src1" := ["security"]; "src2" := ["finance"] ]} |};
              DiffDelta.world := quiet_world ∅ (simple_server "c2" fdoc) |} in
  answer head_url s = inr (head_doc "c2")
  /\ answer latest_url (logged head_url s) = inr fdoc
  /\ fst (DiffDelta._poll_feed head_url latest_url "global" None None ["new"; "updated"] s)
     = inr [FeedItem.from_raw A "new"; FeedItem.from_raw B "updated"]
  /\ fst (DiffDelta._poll_feed head_url latest_url "global" (Some ["security"]) None
            ["new"; "updated"] s)
     = inr [FeedItem.from_raw A "new"].
Proof.
  cbv zeta. split; [reflexivity | ]. split; [reflexivity | ]. split.
  - match goal with
    | |- fst (DiffDelta._poll_feed ?hu ?lu ?k ?t ?so ?b ?s) = _ =>
        rewrite (proj1 (C5_result_is_stable_filter hu lu k t so b s
                          (head_doc "c2")
                          (feed_doc "c2" [sample_item "src1" "A" []]
                                    [sample_item "src2" "B" []]
                                    [sample_item "src1" "C" []])
                          eq_refl eq_refl eq_refl I))
    end.
    reflexivity.
  - reflexivity.
Defined.

(** The claim as first worded fails for a source filter that is present
    and empty: no source is a member of it, yet the poll returns the
    item. *)
Lemma C5_counterexample :
  let head_url := "https://diffdelta.io/diff/head.json" in
  let latest_url := "https://diffdelta.io/diff/latest.json" in
  let A := sample_item "src1" "A" [] in
  let fdoc := feed_doc "c2" [A] [] [] in
  let s := {| DiffDelta.self := client_with None;
              DiffDelta.world := quiet_world ∅ (simple_server "c2" fdoc) |} in
  fst (DiffDelta._poll_feed head_url latest_url "global" None (Some [])
         ["new"; "updated"] s)
  <> inr (List.filter (spec_keep None (Some []) ["new"; "updated"] (tag_table 2 s))
                      (Feed.items (Feed.from_raw fdoc))).
Proof. cbv zeta. vm_compute. discriminate. Qed.

(** ** Cursor invariant *)

Lemma stored_cursor_same (s s' : DiffDelta.St) (k : string) :
  DiffDelta._cursors (DiffDelta.self s') = DiffDelta._cursors (DiffDelta.self s) ->
  stored_cursor s' k = stored_cursor s k.
Proof. unfold stored_cursor. now intros ->. Qed.

Lemma cursor_step_frame (key url : string) (s s' : DiffDelta.St) :
  frame s s' -> cursor_step key url s s'.
Proof.
  intros (Hb & Hc & Hl). split; [exact Hb | ]. split; [exact Hl | ].
  intros k. left. now apply stored_cursor_same.
Qed.

Lemma cursor_step_quiet (key url : string) (s s' : DiffDelta.St) :
  quiet_step s s' -> cursor_step key url s s'.
Proof.
  intros [Hs Hr]. apply cursor_step_frame.
  split; [now rewrite Hs | ]. split; [now rewrite Hs | ].
  exists []. now rewrite app_nil_r.
Qed.

Lemma feed_fetched_mono (w1 w2 w3 : World) (url c : string)
    (l l' : list (string * (exn + RawDoc))) :
  requests w2 = (requests w1 ++ l)%list ->
  requests w3 = (requests w2 ++ l')%list ->
  (feed_fetched w1 w2 url c \/ feed_fetched w2 w3 url c) ->
  feed_fetched w1 w3 url c.
Proof.
  intros H12 H23 H.
  assert (H13 : requests w3 = (requests w1 ++ (l ++ l'))%list).
  { rewrite H23, H12. now rewrite <- app_assoc. }
  unfold feed_fetched in *.
  rewrite (new_requests_app _ _ _ H13).
  rewrite (new_requests_app _ _ _ H12), (new_requests_app _ _ _ H23) in H.
  destruct H as [(doc & Hin & Hc) | (doc & Hin & Hc)];
    exists doc; (split; [apply in_or_app; auto | exact Hc]).
Qed.

Lemma cursor_step_trans (key url : string) (s1 s2 s3 : DiffDelta.St) :
  cursor_step key url s1 s2 -> cursor_step key url s2 s3 -> cursor_step key url s1 s3.
Proof.
  intros (Hb & (l & Hl) & Ha) (Hb' & (l' & Hl') & Ha').
  split; [congruence | ]. split.
  { exists (l ++ l')%list. rewrite Hl', Hl. now rewrite <- app_assoc. }
  intros k.
  destruct (Ha' k) as [Hsame | (Hk & c & Hc & Hf)].
  - destruct (Ha k) as [Hsame' | (Hk & c & Hc & Hf)].
    + left. congruence.
    + right. split; [exact Hk | ]. exists c. split; [congruence | ].
      apply (feed_fetched_mono _ _ _ _ _ _ _ Hl Hl'). now left.
  - right. split; [exact Hk | ]. exists c. split; [exact Hc | ].
    apply (feed_fetched_mono _ _ _ _ _ _ _ Hl Hl'). now right.
Qed.

(** What follows the save of step 4, the filter or the error passed on,
    only talks to the server. *)
Lemma after_save_frame (tags sources : option (list string)) (buckets : list string)
    (feed_items : list FeedItem.t) (saved : exn + unit) (s : DiffDelta.St) :
  frame s (snd (match saved with
                | inl e => (inl e, s)
                | inr _ => DiffDelta.filter_items tags sources buckets feed_items [] s
                end)).
Proof. destruct saved; [apply frame_refl | apply filter_items_frame]. Qed.

Lemma poll_feed_step (head_url latest_url key : string)
    (tags sources : option (list string)) (buckets : list string) (s : DiffDelta.St) :
  cursor_step key latest_url s
    (snd (DiffDelta._poll_feed head_url latest_url key tags sources buckets s)).
Proof.
  rewrite poll_feed_run.
  destruct (answer head_url s) as [e | hdoc] eqn:Hh.
  { apply cursor_step_frame, frame_logged. }
  destruct (DiffDelta.cursor_unchanged _ _).
  { apply cursor_step_frame, frame_logged. }
  destruct (answer latest_url (logged head_url s)) as [e | fdoc] eqn:Hf.
  { apply cursor_step_frame.
    eapply frame_trans; apply frame_logged. }
  destruct (save_new_cursor_run key (Feed.from_raw fdoc)
              (logged latest_url (logged head_url s)))
    as (s1 & Hrun & Hbase & _ & _ & Hreq & Hcur).
  cbv zeta. rewrite Hrun. cbn [snd].
  destruct (after_save_frame tags sources buckets (Feed.items (Feed.from_raw fdoc))
              (cursor_save_result s (Feed.cursor (Feed.from_raw fdoc))) s1)
    as (Hb2 & Hc2 & l & Hl).
  set (s' := snd (match cursor_save_result s (Feed.cursor (Feed.from_raw fdoc)) with
                  | inl e => (inl e, s1)
                  | inr _ => DiffDelta.filter_items tags sources buckets
                               (Feed.items (Feed.from_raw fdoc)) [] s1
                  end)) in *.
  assert (Hlog : requests (DiffDelta.world s')
                 = (requests (DiffDelta.world s)
                    ++ (head_url, inr hdoc) :: (latest_url, inr fdoc) :: l)%list).
  { rewrite Hl, Hreq, !logged_requests, Hf, Hh. now rewrite <- !app_assoc. }
  split; [now rewrite Hb2, Hbase | ]. split; [eexists; exact Hlog | ].
  assert (Hst : DiffDelta._cursors (DiffDelta.self s')
                = match DiffDelta._cursors (DiffDelta.self s) with
                  | Some store =>
                      Some (if truthy (Feed.cursor (Feed.from_raw fdoc))
                            then CursorStore.set_cursors store
                                   (<[key := Feed.cursor (Feed.from_raw fdoc)]>
                                      (CursorStore._cursors store))
                            else store)
                  | None => None
                  end).
  { rewrite Hc2, Hcur. reflexivity. }
  clearbody s'. clear Hc2 Hcur Hl Hreq Hrun Hbase Hb2.
  intros k. unfold stored_cursor. rewrite Hst.
  destruct (DiffDelta._cursors (DiffDelta.self s)) as [store | ]; [ | now left].
  destruct (truthy (Feed.cursor (Feed.from_raw fdoc))); [ | now left].
  destruct (decide (k = key)) as [-> | Hne].
  - right. split; [reflexivity | ].
    exists (Feed.cursor (Feed.from_raw fdoc)).
    split; [apply lookup_insert_eq | ].
    exists fdoc. split; [ | reflexivity].
    rewrite (new_requests_app _ _ _ Hlog). right. now left.
  - left. unfold CursorStore.get; simpl. now apply lookup_insert_ne.
Qed.

Lemma poll_step (tags sources buckets : option (list string)) (s : DiffDelta.St) :
  cursor_step "global"
    (DiffDelta.base_url (DiffDelta.self s) ++ "/diff/latest.json") s
    (snd (DiffDelta.poll tags sources buckets s)).
Proof. unfold DiffDelta.poll. cbv beta iota zeta delta [bind gets]. apply poll_feed_step. Qed.

Lemma poll_source_step (source_id : string) (buckets : option (list string))
    (s : DiffDelta.St) :
  cursor_step ("source:" ++ source_id)
    (DiffDelta.base_url (DiffDelta.self s) ++ "/diff/source/" ++ source_id ++ "/latest.json")
    s (snd (DiffDelta.poll_source source_id buckets s)).
Proof.
  unfold DiffDelta.poll_source. cbv beta iota zeta delta [bind gets].
  apply poll_feed_step.
Qed.

Lemma quiet_refl (s : DiffDelta.St) : quiet_step s s.
Proof. split; reflexivity. Qed.

Lemma quiet_trans (s1 s2 s3 : DiffDelta.St) :
  quiet_step s1 s2 -> quiet_step s2 s3 -> quiet_step s1 s3.
Proof. intros [H1 H2] [H3 H4]. split; congruence. Qed.

Lemma print_quiet (m : message) (s : DiffDelta.St) :
  exists s', DiffDelta.print m s = (inr tt, s') /\ quiet_step s s'.
Proof. eexists. split; [reflexivity | split; reflexivity]. Qed.

Lemma call_quiet (callback : list FeedItem.t -> FeedItem.t -> option exn)
    (item : FeedItem.t) (s : DiffDelta.St) :
  quiet_step s (snd (DiffDelta.call callback item s)).
Proof.
  unfold DiffDelta.call. destruct (callback _ item); split; reflexivity.
Qed.

Lemma for_each_quiet (callback : list FeedItem.t -> FeedItem.t -> option exn)
    (items : list FeedItem.t) (s : DiffDelta.St) :
  quiet_step s (snd (DiffDelta.for_each callback items s)).
Proof.
  revert s. induction items as [|item rest IH]; intros s; [apply quiet_refl | ].
  simpl DiffDelta.for_each. cbv beta iota zeta delta [bind].
  pose proof (call_quiet callback item s) as Hc.
  destruct (DiffDelta.call callback item s) as [[e | []] s1]; simpl in Hc.
  - exact Hc.
  - eapply quiet_trans; [exact Hc | apply IH].
Qed.

Lemma sleep_quiet (interval : Z) (s : DiffDelta.St) :
  quiet_step s (snd (DiffDelta.sleep interval s)).
Proof.
  unfold DiffDelta.sleep.
  destruct (negb (DiffDelta.fits_nanoseconds interval)); [apply quiet_refl | ].
  destruct (interval <? 0)%Z; [apply quiet_refl | ].
  destruct (interrupted _ _); split; reflexivity.
Qed.

Lemma watch_sleep_quiet (interval : Z) (s : DiffDelta.St) :
  quiet_step s (snd (DiffDelta.watch_sleep interval s)).
Proof.
  unfold DiffDelta.watch_sleep. cbv beta iota zeta delta [try_except bind ret].
  pose proof (sleep_quiet interval s) as Hq.
  destruct (DiffDelta.sleep interval s) as [[e | []] s1]; simpl in Hq; [ | exact Hq].
  simpl select_handler.
  destruct (except_KeyboardInterrupt e); [ | exact Hq].
  eapply quiet_trans; [exact Hq | ]. split; reflexivity.
Qed.

Lemma watch_poll_step (callback : list FeedItem.t -> FeedItem.t -> option exn)
    (tags sources : option (list string)) (interval : Z) (buckets : list string)
    (s : DiffDelta.St) :
  cursor_step "global"
    (DiffDelta.base_url (DiffDelta.self s) ++ "/diff/latest.json") s
    (snd (DiffDelta.watch_poll callback tags sources interval buckets s)).
Proof.
  unfold DiffDelta.watch_poll. cbv beta iota zeta delta [try_except bind ret].
  pose proof (poll_step tags sources (Some buckets) s) as Hp.
  set (url := DiffDelta.base_url (DiffDelta.self s) ++ "/diff/latest.json") in *.
  destruct (DiffDelta.poll tags sources (Some buckets) s) as [[e | items] s1];
    simpl in Hp.
  - simpl select_handler.
    destruct (except_KeyboardInterrupt e);
      [ | destruct (except_Exception e) ];
      try exact Hp;
      (eapply cursor_step_trans; [exact Hp | ];
       apply cursor_step_quiet; split; reflexivity).
  - destruct items as [|item rest].
    + eapply cursor_step_trans; [exact Hp | ].
      apply cursor_step_quiet; split; reflexivity.
    + destruct (print_quiet (MsgFound (length (item :: rest))) s1) as (s2 & Hpr & Hq).
      rewrite Hpr.
      pose proof (for_each_quiet callback (item :: rest) s2) as Hf.
      destruct (DiffDelta.for_each callback (item :: rest) s2) as [[e | []] s3];
        simpl in Hf.
      * assert (H13 : cursor_step "global" url s s3).
        { eapply cursor_step_trans; [exact Hp | ].
          apply cursor_step_quiet. eapply quiet_trans; eassumption. }
        simpl select_handler.
        destruct (except_KeyboardInterrupt e);
          [ | destruct (except_Exception e) ];
          try exact H13;
          (eapply cursor_step_trans; [exact H13 | ];
           apply cursor_step_quiet; split; reflexivity).
      * eapply cursor_step_trans; [exact Hp | ].
        apply cursor_step_quiet. eapply quiet_trans; eassumption.
Qed.

Lemma watch_body_step (callback : list FeedItem.t -> FeedItem.t -> option exn)
    (tags sources : option (list string)) (interval : Z) (buckets : list string)
    (s : DiffDelta.St) :
  cursor_step "global"
    (DiffDelta.base_url (DiffDelta.self s) ++ "/diff/latest.json") s
    (snd (DiffDelta.watch_body callback tags sources interval buckets s)).
Proof.
  unfold DiffDelta.watch_body. cbv beta iota zeta delta [bind ret].
  pose proof (watch_poll_step callback tags sources interval buckets s) as Hp.
  destruct (DiffDelta.watch_poll callback tags sources interval buckets s)
    as [[e | [ | ]] s1]; simpl in Hp; try exact Hp.
  eapply cursor_step_trans; [exact Hp | ].
  apply cursor_step_quiet, watch_sleep_quiet.
Qed.

Lemma watch_loop_step (n : nat) (callback : list FeedItem.t -> FeedItem.t -> option exn)
    (tags sources : option (list string)) (interval : Z) (buckets : list string)
    (s : DiffDelta.St) :
  cursor_step "global"
    (DiffDelta.base_url (DiffDelta.self s) ++ "/diff/latest.json") s
    (snd (DiffDelta.watch_loop n callback tags sources interval buckets s)).
Proof.
  revert s. induction n as [|n IH]; intros s.
  { apply cursor_step_quiet, quiet_refl. }
  simpl DiffDelta.watch_loop. cbv beta iota zeta delta [bind ret].
  pose proof (watch_body_step callback tags sources interval buckets s) as Hb.
  destruct (DiffDelta.watch_body callback tags sources interval buckets s)
    as [[e | [ | ]] s1]; simpl in Hb; try exact Hb.
  eapply cursor_step_trans; [exact Hb | ].
  destruct Hb as (Hbase & _). rewrite <- Hbase. apply IH.
Qed.

Lemma watch_step (n : nat) (callback : list FeedItem.t -> FeedItem.t -> option exn)
    (tags sources : option (list string)) (interval : option Z)
    (buckets : option (list string)) (s : DiffDelta.St) :
  cursor_step "global"
    (DiffDelta.base_url (DiffDelta.self s) ++ "/diff/latest.json") s
    (snd (DiffDelta.watch n callback tags sources interval buckets s)).
Proof.
  unfold DiffDelta.watch. cbv beta iota zeta delta [bind].
  set (url := DiffDelta.base_url (DiffDelta.self s) ++ "/diff/latest.json").
  assert (Hi : exists r s1,
             DiffDelta.polling_interval interval s = (r, s1) /\ frame s s1).
  { unfold DiffDelta.polling_interval. destruct interval as [i | ].
    - do 2 eexists. split; [reflexivity | apply frame_refl].
    - unfold DiffDelta.head. cbv beta iota zeta delta [try_except bind ret gets].
      simpl default. rewrite get_json_run.
      destruct (answer _ s) as [e | d]; simpl.
      + destruct (except_Exception e); do 2 eexists;
          (split; [reflexivity | apply frame_logged]).
      + do 2 eexists. split; [reflexivity | apply frame_logged]. }
  destruct Hi as (r & s1 & Hrun & Hfr). rewrite Hrun.
  pose proof (cursor_step_frame "global" url _ _ Hfr) as H01.
  destruct r as [e | i]; [exact H01 | ].
  destruct (print_quiet (MsgWatching i) s1) as (s2 & Hp2 & Hq2). rewrite Hp2.
  destruct (print_quiet MsgPressCtrlC s2) as (s3 & Hp3 & Hq3). rewrite Hp3.
  eapply cursor_step_trans; [exact H01 | ].
  eapply cursor_step_trans;
    [apply cursor_step_quiet; eapply quiet_trans; eassumption | ].
  assert (Hb : DiffDelta.base_url (DiffDelta.self s3) = DiffDelta.base_url (DiffDelta.self s)).
  { destruct Hq3 as [-> _]. destruct Hq2 as [-> _]. now destruct Hfr. }
  unfold url. rewrite <- Hb. apply watch_loop_step.
Qed.

(** C4.  Every client operation keeps the cursor table within the
    invariant.  [poll], [poll_source] and [watch] leave each stored cursor
    as it was, except that the cursor of the polled key may become the
    cursor of a feed that was fetched successfully, in that call, from the
    latest-feed URL of that key.  [head] and [fetch_feed] never touch the
    cursor store, and a poll that requested the head and nothing else
    leaves the store as it found it. *)
Theorem C4_cursors_advance_only_to_fetched_feeds :
  (forall tags sources buckets s,
     cursors_advance_only_to_fetched s (snd (DiffDelta.poll tags sources buckets s))
       "global" (DiffDelta.base_url (DiffDelta.self s) ++ "/diff/latest.json"))
  /\ (forall source_id buckets s,
        cursors_advance_only_to_fetched s
          (snd (DiffDelta.poll_source source_id buckets s))
          ("source:" ++ source_id)
          (DiffDelta.base_url (DiffDelta.self s)
           ++ "/diff/source/" ++ source_id ++ "/latest.json"))
  /\ (forall n callback tags sources interval buckets s,
        cursors_advance_only_to_fetched s
          (snd (DiffDelta.watch n callback tags sources interval buckets s))
          "global" (DiffDelta.base_url (DiffDelta.self s) ++ "/diff/latest.json"))
  /\ (forall url s,
        DiffDelta._cursors (DiffDelta.self (snd (DiffDelta.head url s)))
        = DiffDelta._cursors (DiffDelta.self s))
  /\ (forall url s,
        DiffDelta._cursors (DiffDelta.self (snd (DiffDelta.fetch_feed url s)))
        = DiffDelta._cursors (DiffDelta.self s))
  /\ (forall head_url latest_url key tags sources buckets s,
        head_only head_url s
          (snd (DiffDelta._poll_feed head_url latest_url key tags sources buckets s)) ->
        DiffDelta._cursors (DiffDelta.self
          (snd (DiffDelta._poll_feed head_url latest_url key tags sources buckets s)))
        = DiffDelta._cursors (DiffDelta.self s)).
Proof.
  split; [intros; apply poll_step | ].
  split; [intros; apply poll_source_step | ].
  split; [intros; apply watch_step | ].
  split.
  { intros url s. unfold DiffDelta.head. cbv beta iota zeta delta [bind gets ret].
    rewrite get_json_run. destruct (answer _ s); reflexivity. }
  split.
  { intros url s. unfold DiffDelta.fetch_feed. cbv beta iota zeta delta [bind gets ret].
    rewrite get_json_run. destruct (answer _ s); reflexivity. }
  intros head_url latest_url key tags sources buckets s Hho.
  destruct (answer head_url s) as [e | hdoc] eqn:Hh.
  { rewrite poll_feed_run, Hh. reflexivity. }
  destruct (DiffDelta.cursor_unchanged (stored_cursor s key) (Head.from_raw hdoc)) eqn:Hu.
  { rewrite poll_feed_run, Hh, Hu. reflexivity. }
  exfalso.
  destruct (poll_feed_fetches head_url latest_url key tags sources buckets s hdoc Hh Hu)
    as (rest & Hrest).
  unfold head_only in Hho. rewrite Hho in Hrest. discriminate Hrest.
Qed.

(** A poll that finds the stored cursor ["c1"] in the head requests the
    head only, and the cursor store is the same object afterwards. *)
Lemma C4_witness :
  let head_url := "https://diffdelta.io/diff/head.json" in
  let latest_url := "https://diffdelta.io/diff/latest.json" in
  let s := {| DiffDelta.self := client_with (Some {[ "global" := "c1" ]});
              DiffDelta.world := quiet_world ∅ (simple_server "c1" (feed_doc "c2" [] [] [])) |} in
  let out := DiffDelta._poll_feed head_url latest_url "global" None None
               ["new"; "updated"] s in
  head_only head_url s (snd out)
  /\ DiffDelta._cursors (DiffDelta.self (snd out)) = DiffDelta._cursors (DiffDelta.self s).
Proof.
  cbv zeta.
  assert (Hho : head_only "https://diffdelta.io/diff/head.json"
                  {| DiffDelta.self := client_with (Some {[ "global" := "c1" ]});
                     DiffDelta.world :=
                       quiet_world ∅ (simple_server "c1" (feed_doc "c2" [] [] [])) |}
                  (snd (DiffDelta._poll_feed "https://diffdelta.io/diff/head.json"
                          "https://diffdelta.io/diff/latest.json" "global" None None
                          ["new"; "updated"]
                          {| DiffDelta.self := client_with (Some {[ "global" := "c1" ]});
                             DiffDelta.world :=
                               quiet_world ∅
                                 (simple_server "c1" (feed_doc "c2" [] [] [])) |}))).
  { vm_compute. reflexivity. }
  split; [exact Hho | ].
  exact (proj2 (proj2 (proj2 (proj2 (proj2 C4_cursors_advance_only_to_fetched_feeds))))
           _ _ _ _ _ _ _ Hho).
Defined.

(** ** Watch loop *)



(** [time.sleep] takes the whole seconds whose nanoseconds fit 64 bits. *)
Lemma fits_nanoseconds_iff (seconds : Z) :
  DiffDelta.fits_nanoseconds seconds = true
  <-> (-9223372037 < seconds < 9223372037)%Z.
Proof.
  unfold DiffDelta.fits_nanoseconds.
  change (2 ^ 63)%Z with 9223372036854775808%Z.
  rewrite andb_true_iff, !Z.leb_le. lia.
Qed.





(** * Further properties *)

(** ** What a poll asks and what it returns *)

Lemma touched_nothing (s : DiffDelta.St) :
  touched [] (DiffDelta._source_tags_cache (DiffDelta.self s)) s = s.
Proof.
  destruct s as [[b k t c g] [d f e h sv r i sl so di]].
  unfold touched, with_cache, with_requests; simpl. now rewrite app_nil_r.
Qed.

Lemma touched_touched (l l' : list (string * (exn + RawDoc)))
    (c c' : option (gmap string (list string))) (s : DiffDelta.St) :
  touched l' c' (touched l c s) = touched (l ++ l') c' s.
Proof. unfold touched, with_cache, with_requests; simpl. now rewrite <- app_assoc. Qed.

Lemma logged_touched (url : string) (s : DiffDelta.St) :
  logged url s
  = touched [(url, answer url s)] (DiffDelta._source_tags_cache (DiffDelta.self s)) s.
Proof. destruct s as [[b k t c g] w]. reflexivity. Qed.

(** [_get_source_tags] changes nothing but the request log and the cache.
    It asks for the sources at most once, and only with an empty cache;
    when it returns, the cache holds the table it returned. *)
Lemma get_source_tags_touched (s : DiffDelta.St) :
  exists l c,
    snd (DiffDelta._get_source_tags s) = touched l c s
    /\ (l = [] \/ l = [(DiffDelta.base_url (DiffDelta.self s) ++ "/diff/sources.json",
                        sources_answer 0 s)])
    /\ (is_Some (DiffDelta._source_tags_cache (DiffDelta.self s)) ->
        l = [] /\ c = DiffDelta._source_tags_cache (DiffDelta.self s))
    /\ (forall t, fst (DiffDelta._get_source_tags s) = inr t -> c = Some t).
Proof.
  unfold DiffDelta._get_source_tags, DiffDelta.sources,
    DiffDelta.set_source_tags_cache; py_run.
  destruct (DiffDelta._source_tags_cache (DiffDelta.self s)) as [t0 | ] eqn:Hc.
  { exists [], (Some t0). split.
    - cbn [snd]. rewrite <- Hc. symmetry. apply touched_nothing.
    - split; [now left | ]. split.
      + intros _. split; reflexivity.
      + intros t [= <-]. reflexivity. }
  rewrite get_json_run.
  destruct (answer _ s) as [e | doc] eqn:Ha.
  - destruct (except_Exception e); cbn [fst snd].
    + eexists _, (Some ∅). split; [reflexivity | ]. split.
      * right. reflexivity.
      * split; [intros [x Hx]; discriminate Hx | ]. intros t [= <-]. reflexivity.
    + eexists _, None. split; [rewrite <- Hc; apply logged_touched | ]. split.
      * right. reflexivity.
      * split; [intros [x Hx]; discriminate Hx | ]. intros t Ht. discriminate Ht.
  - cbn [fst snd]. eexists _, (Some _). split; [reflexivity | ]. split.
    + right. reflexivity.
    + split; [intros [x Hx]; discriminate Hx | ]. intros t [= <-]. reflexivity.
Qed.

(** Step 5 changes nothing but the request log and the tag cache; it asks
    for the sources at most once, and not at all when the cache is filled
    or no tag filter is given. *)
Lemma filter_items_touched (tags sources : option (list string)) (buckets : list string)
    (feed_items acc : list FeedItem.t) (s : DiffDelta.St) :
  exists l c,
    snd (DiffDelta.filter_items tags sources buckets feed_items acc s) = touched l c s
    /\ (l = [] \/ l = [(DiffDelta.base_url (DiffDelta.self s) ++ "/diff/sources.json",
                        sources_answer 0 s)])
    /\ (is_Some (DiffDelta._source_tags_cache (DiffDelta.self s))
        \/ filter_given tags = false ->
        l = [] /\ c = DiffDelta._source_tags_cache (DiffDelta.self s)).
Proof.
  revert acc s. induction feed_items as [|item rest IH]; intros acc s.
  { exists [], (DiffDelta._source_tags_cache (DiffDelta.self s)).
    cbn [DiffDelta.filter_items]. unfold ret. cbn [snd].
    rewrite touched_nothing. split; [reflexivity | ]. split; [now left | ].
    intros _. split; reflexivity. }
  cbn [DiffDelta.filter_items].
  destruct (negb (str_in (FeedItem.bucket item) buckets)); [apply IH | ].
  destruct (filter_given sources
            && negb (str_in (FeedItem.source item) (default [] sources)));
    [apply IH | ].
  destruct (filter_given tags) eqn:Htags; [ | apply IH].
  cbv beta iota zeta delta [bind].
  destruct (get_source_tags_touched s) as (l1 & c1 & Hs1 & Hl1 & Hcached & Hret).
  destruct (DiffDelta._get_source_tags s) as [[e | t] s1]; cbn [fst snd] in *.
  { exists l1, c1. split; [exact Hs1 | ]. split; [exact Hl1 | ].
    intros [Hc | Hf]; [now apply Hcached | discriminate Hf]. }
  specialize (Hret t eq_refl). subst c1.
  assert (Hnext : forall acc',
             exists l c,
               snd (DiffDelta.filter_items tags sources buckets rest acc' s1) = touched l c s
               /\ (l = [] \/ l = [(DiffDelta.base_url (DiffDelta.self s) ++ "/diff/sources.json",
                                   sources_answer 0 s)])
               /\ (is_Some (DiffDelta._source_tags_cache (DiffDelta.self s))
                   \/ true = false ->
                   l = [] /\ c = DiffDelta._source_tags_cache (DiffDelta.self s))).
  { intros acc'.
    destruct (IH acc' s1) as (l2 & c2 & Hs2 & _ & Hc2).
    assert (Hsome : is_Some (DiffDelta._source_tags_cache (DiffDelta.self s1))).
    { rewrite Hs1. simpl. eauto. }
    destruct (Hc2 (or_introl Hsome)) as [-> ->].
    exists l1, (Some t). split.
    - rewrite Hs2, Hs1. rewrite touched_touched, app_nil_r. reflexivity.
    - split; [exact Hl1 | ].
      intros [Hc | Hf]; [ | discriminate Hf].
      destruct (Hcached Hc) as [-> Hct]. split; [reflexivity | exact Hct]. }
  destruct (negb (existsb _ _)); apply Hnext.
Qed.

(** Whatever step 5 returns was selected by bucket and source: it adds to
    [acc] only items of the feed, in feed order, that pass both filters. *)
Lemma filter_items_sound (tags sources : option (list string)) (buckets : list string)
    (feed_items acc items : list FeedItem.t) (s : DiffDelta.St) :
  fst (DiffDelta.filter_items tags sources buckets feed_items acc s) = inr items ->
  exists kept,
    items = (acc ++ kept)%list
    /\ sublist kept feed_items
    /\ Forall (fun i => passes_bucket_and_source sources buckets i = true) kept.
Proof.
  revert acc s. induction feed_items as [|item rest IH]; intros acc s.
  { cbn. intros [= <-]. exists []. rewrite app_nil_r.
    split; [reflexivity | ]. split; constructor. }
  cbn [DiffDelta.filter_items].
  assert (Hskip : forall s',
             fst (DiffDelta.filter_items tags sources buckets rest acc s') = inr items ->
             exists kept, items = (acc ++ kept)%list
               /\ sublist kept (item :: rest)
               /\ Forall (fun i => passes_bucket_and_source sources buckets i = true) kept).
  { intros s' H. destruct (IH _ _ H) as (kept & -> & Hsub & Hall).
    exists kept. split; [reflexivity | ]. split; [now apply sublist_cons | exact Hall]. }
  set (p := passes_bucket_and_source sources buckets item).
  assert (Hp : p = str_in (FeedItem.bucket item) buckets
                   && (negb (filter_given sources)
                       || str_in (FeedItem.source item) (default [] sources)))
    by reflexivity.
  assert (Htake : forall s',
             p = true ->
             fst (DiffDelta.filter_items tags sources buckets rest (acc ++ [item]) s')
             = inr items ->
             exists kept, items = (acc ++ kept)%list
               /\ sublist kept (item :: rest)
               /\ Forall (fun i => passes_bucket_and_source sources buckets i = true) kept).
  { intros s' Hpt H. destruct (IH _ _ H) as (kept & -> & Hsub & Hall).
    exists (item :: kept). split; [now rewrite <- app_assoc | ].
    split; [now apply sublist_skip | now constructor]. }
  clearbody p. clear IH.
  destruct (str_in (FeedItem.bucket item) buckets); cbn [negb andb] in Hp |- *;
    [ | apply Hskip].
  destruct (filter_given sources),
           (str_in (FeedItem.source item) (default [] sources));
    cbn [negb andb orb] in Hp |- *; try apply Hskip.
  all: destruct (filter_given tags); [ | now apply Htake].
  all: cbv beta iota zeta delta [bind];
    destruct (DiffDelta._get_source_tags s) as [[e | t] s1]; cbn [fst];
    [ discriminate | ];
    destruct (negb (existsb _ _)); [ apply Hskip | now apply Htake ].
Qed.

(** What follows the save of step 4 logs at most the sources request. *)
Lemma after_save_touched (tags sources : option (list string)) (buckets : list string)
    (feed_items : list FeedItem.t) (saved : exn + unit) (s : DiffDelta.St) :
  exists l c,
    snd (match saved with
         | inl e => (inl e, s)
         | inr _ => DiffDelta.filter_items tags sources buckets feed_items [] s
         end) = touched l c s
    /\ (l = [] \/ l = [(DiffDelta.base_url (DiffDelta.self s) ++ "/diff/sources.json",
                        sources_answer 0 s)])
    /\ (is_Some (DiffDelta._source_tags_cache (DiffDelta.self s))
        \/ filter_given tags = false ->
        l = [] /\ c = DiffDelta._source_tags_cache (DiffDelta.self s)).
Proof.
  destruct saved as [e | u]; [ | apply filter_items_touched].
  exists [], (DiffDelta._source_tags_cache (DiffDelta.self s)).
  split; [symmetry; apply touched_nothing | ]. split; [now left | now split].
Qed.

Lemma poll_feed_kept (head_url latest_url key : string)
    (tags sources : option (list string)) (buckets : list string)
    (s : DiffDelta.St) (items : list FeedItem.t) :
  fst (DiffDelta._poll_feed head_url latest_url key tags sources buckets s) = inr items ->
  Forall (fun i => passes_bucket_and_source sources buckets i = true) items
  /\ (items = []
      \/ exists fdoc, answer latest_url (logged head_url s) = inr fdoc
                      /\ sublist items (Feed.items (Feed.from_raw fdoc))).
Proof.
  rewrite poll_feed_run.
  destruct (answer head_url s) as [e | hdoc]; [discriminate | ].
  destruct (DiffDelta.cursor_unchanged _ _).
  { intros [= <-]. split; [constructor | now left]. }
  destruct (answer latest_url (logged head_url s)) as [e | fdoc]; [discriminate | ].
  cbv zeta. destruct (cursor_save_result s _) as [e | u]; [discriminate | ].
  intros H. apply filter_items_sound in H. destruct H as (kept & -> & Hsub & Hall).
  cbn [app]. split; [exact Hall | ].
  right. exists fdoc. split; [reflexivity | exact Hsub].
Qed.

(** X1.  A poll never returns an item that was not asked for: every item
    of a returned list has a bucket listed in [buckets], comes from a
    listed source when a non-empty source filter is given, and the list is
    a subsequence (same relative order) of the items of the feed fetched
    in that poll. *)
Theorem poll_returns_only_selected_items (head_url latest_url key : string)
    (tags sources : option (list string)) (buckets : list string)
    (s : DiffDelta.St) (items : list FeedItem.t) :
  fst (DiffDelta._poll_feed head_url latest_url key tags sources buckets s) = inr items ->
  Forall (fun i => str_in (FeedItem.bucket i) buckets = true
                   /\ (filter_given sources = true ->
                       str_in (FeedItem.source i) (default [] sources) = true)) items
  /\ (items = []
      \/ exists fdoc, answer latest_url (logged head_url s) = inr fdoc
                      /\ sublist items (Feed.items (Feed.from_raw fdoc))).
Proof.
  intros H. apply poll_feed_kept in H. destruct H as [Hall Hsub].
  split; [ | exact Hsub].
  eapply Forall_impl; [exact Hall | ].
  intros i Hi. unfold passes_bucket_and_source in Hi.
  apply andb_true_iff in Hi as [Hb Hs]. split; [exact Hb | ].
  intros Hg. rewrite Hg in Hs. exact Hs.
Qed.

Lemma poll_returns_only_selected_items_witness :
  let head_url := "https://diffdelta.io/diff/head.json" in
  let latest_url := "https://diffdelta.io/diff/latest.json" in
  let A := sample_item "src1" "A" [] in
  let B := sample_item "src2" "B" [] in
  let C := sample_item "src1" "C" [] in
  let s := {| DiffDelta.self := client_with None;
              DiffDelta.world := quiet_world ∅ (simple_server "c2" (feed_doc "c2" [A] [B] [C])) |} in
  fst (DiffDelta._poll_feed head_url latest_url "global" None (Some ["src1"])
         ["new"; "removed"] s)
  = inr [FeedItem.from_raw A "new"; FeedItem.from_raw C "removed"]
  /\ Forall (fun i => str_in (FeedItem.bucket i) ["new"; "removed"] = true
                      /\ (filter_given (Some ["src1"]) = true ->
                          str_in (FeedItem.source i) ["src1"] = true))
            [FeedItem.from_raw A "new"; FeedItem.from_raw C "removed"].
Proof.
  cbv zeta. split; [vm_compute; reflexivity | ].
  refine (proj1 (poll_returns_only_selected_items
                   "https://diffdelta.io/diff/head.json"
                   "https://diffdelta.io/diff/latest.json" "global" None (Some ["src1"])
                   ["new"; "removed"]
                   {| DiffDelta.self := client_with None;
                      DiffDelta.world :=
                        quiet_world ∅ (simple_server "c2"
                          (feed_doc "c2" [sample_item "src1" "A" []]
                                    [sample_item "src2" "B" []]
                                    [sample_item "src1" "C" []])) |}
                   _ _)).
  vm_compute. reflexivity.
Defined.

(** X2.  Removed items are opt-in: with [buckets] left out, [poll] and
    [poll_source] return only items of the [new] and [updated] buckets. *)
Theorem default_poll_returns_no_removed_items (s : DiffDelta.St)
    (items : list FeedItem.t) :
  (forall tags sources,
     fst (DiffDelta.poll tags sources None s) = inr items ->
     Forall (fun i => FeedItem.bucket i = "new" \/ FeedItem.bucket i = "updated") items)
  /\ (forall source_id,
        fst (DiffDelta.poll_source source_id None s) = inr items ->
        Forall (fun i => FeedItem.bucket i = "new" \/ FeedItem.bucket i = "updated") items).
Proof.
  assert (Hb : forall i : FeedItem.t,
             str_in (FeedItem.bucket i) ["new"; "updated"] = true ->
             FeedItem.bucket i = "new" \/ FeedItem.bucket i = "updated").
  { intros i. unfold str_in. cbn [existsb].
    destruct (String.eqb_spec (FeedItem.bucket i) "new"); [now left | ].
    destruct (String.eqb_spec (FeedItem.bucket i) "updated"); [now right | discriminate]. }
  split.
  - intros tags sources H. unfold DiffDelta.poll in H.
    cbv beta iota zeta delta [bind gets] in H.
    apply poll_feed_kept in H. destruct H as [H _].
    eapply Forall_impl; [exact H | ]. intros i Hi. apply Hb.
    unfold passes_bucket_and_source in Hi. now apply andb_true_iff in Hi as [Hi _].
  - intros source_id H. unfold DiffDelta.poll_source in H.
    cbv beta iota zeta delta [bind gets] in H.
    apply poll_feed_kept in H. destruct H as [H _].
    eapply Forall_impl; [exact H | ]. intros i Hi. apply Hb.
    unfold passes_bucket_and_source in Hi. now apply andb_true_iff in Hi as [Hi _].
Qed.

Lemma default_poll_returns_no_removed_items_witness :
  let A := sample_item "src1" "A" [] in
  let C := sample_item "src1" "C" [] in
  let s := {| DiffDelta.self := client_with None;
              DiffDelta.world := quiet_world ∅ (simple_server "c2" (feed_doc "c2" [A] [] [C])) |} in
  fst (DiffDelta.poll None None None s) = inr [FeedItem.from_raw A "new"]
  /\ Forall (fun i => FeedItem.bucket i = "new" \/ FeedItem.bucket i = "updated")
            [FeedItem.from_raw A "new"].
Proof.
  cbv zeta. split; [vm_compute; reflexivity | ].
  refine (proj1 (default_poll_returns_no_removed_items
                   {| DiffDelta.self := client_with None;
                      DiffDelta.world :=
                        quiet_world ∅ (simple_server "c2"
                          (feed_doc "c2" [sample_item "src1" "A" []] []
                                    [sample_item "src1" "C" []])) |}
                   _) None None _).
  vm_compute. reflexivity.
Defined.

Lemma poll_feed_urls (hu lu k : string) (tg so : option (list string))
    (bu : list string) (s : DiffDelta.St) :
  let asked := urls_asked s (snd (DiffDelta._poll_feed hu lu k tg so bu s)) in
  (asked = [hu] \/ asked = [hu; lu]
   \/ asked = [hu; lu; DiffDelta.base_url (DiffDelta.self s) ++ "/diff/sources.json"])
  /\ (is_Some (DiffDelta._source_tags_cache (DiffDelta.self s))
      \/ filter_given tg = false ->
      asked = [hu] \/ asked = [hu; lu]).
Proof.
  cbv zeta. unfold urls_asked. rewrite poll_feed_run.
  assert (H1 : map fst (new_requests (DiffDelta.world s)
                          (DiffDelta.world (logged hu s))) = [hu]).
  { rewrite (new_requests_app _ _ _ (logged_requests hu s)). reflexivity. }
  assert (H2 : map fst (new_requests (DiffDelta.world s)
                          (DiffDelta.world (logged lu (logged hu s)))) = [hu; lu]).
  { erewrite new_requests_app; [ | rewrite !logged_requests, <- app_assoc; reflexivity].
    reflexivity. }
  destruct (answer hu s) as [e | hdoc]; cbn [snd]; [now auto | ].
  destruct (DiffDelta.cursor_unchanged _ _); cbn [snd]; [now auto | ].
  destruct (answer lu (logged hu s)) as [e | fdoc]; cbn [snd]; [now auto | ].
  destruct (save_new_cursor_run k (Feed.from_raw fdoc) (logged lu (logged hu s)))
    as (s3 & Hrun & Hbase & Hcache & _ & Hreq & _).
  cbv zeta. rewrite Hrun. cbn [snd].
  destruct (after_save_touched tg so bu (Feed.items (Feed.from_raw fdoc))
              (cursor_save_result s (Feed.cursor (Feed.from_raw fdoc))) s3)
    as (l & c & Hs' & Hl & Hnone).
  rewrite Hs'.
  assert (Hasked : map fst (new_requests (DiffDelta.world s)
                              (DiffDelta.world (touched l c s3)))
                   = ([hu; lu] ++ map fst l)%list).
  { erewrite new_requests_app;
      [ | simpl; rewrite Hreq, !logged_requests, <- !app_assoc; reflexivity ].
    rewrite !map_app. reflexivity. }
  rewrite Hasked. split.
  - destruct Hl as [-> | ->]; [now auto | ].
    right. right. cbn. now rewrite Hbase.
  - intros Hc. rewrite Hcache in Hnone.
    destruct (Hnone Hc) as [-> _]. now auto.
Qed.

Lemma poll_asks_at_most_three_urls_cached (hu lu k : string)
    (tg so : option (list string)) (bu : list string) (s : DiffDelta.St) :
  is_Some (DiffDelta._source_tags_cache (DiffDelta.self s)) \/ filter_given tg = false ->
  urls_asked s (snd (DiffDelta._poll_feed hu lu k tg so bu s)) = [hu]
  \/ urls_asked s (snd (DiffDelta._poll_feed hu lu k tg so bu s)) = [hu; lu].
Proof. apply poll_feed_urls. Qed.

(** X3.  A poll costs one, two or three GETs, always in the order head,
    feed, sources.  The sources are asked for only when a non-empty tag
    filter meets an empty tag cache; [poll_source] never asks for them. *)
Theorem poll_asks_at_most_three_urls (head_url latest_url key : string)
    (tags sources : option (list string)) (buckets : list string) (s : DiffDelta.St) :
  let asked :=
    urls_asked s (snd (DiffDelta._poll_feed head_url latest_url key tags sources buckets s)) in
  (asked = [head_url] \/ asked = [head_url; latest_url]
   \/ asked = [head_url; latest_url;
               DiffDelta.base_url (DiffDelta.self s) ++ "/diff/sources.json"])
  /\ (is_Some (DiffDelta._source_tags_cache (DiffDelta.self s))
      \/ filter_given tags = false ->
      asked = [head_url] \/ asked = [head_url; latest_url])
  /\ (forall source_id bs,
        let asked_by_source := urls_asked s (snd (DiffDelta.poll_source source_id bs s)) in
        let b := DiffDelta.base_url (DiffDelta.self s) in
        asked_by_source = [b ++ "/diff/source/" ++ source_id ++ "/head.json"]
        \/ asked_by_source = [b ++ "/diff/source/" ++ source_id ++ "/head.json";
                              b ++ "/diff/source/" ++ source_id ++ "/latest.json"]).
Proof.
  cbv zeta. split; [apply poll_feed_urls | ]. split; [apply poll_feed_urls | ].
  intros source_id bs. unfold DiffDelta.poll_source.
  cbv beta iota zeta delta [bind gets].
  apply poll_feed_urls. now right.
Qed.

(** X4.  A poll that fails on a request fails whole.  When the head
    request fails, the poll raises that error after one GET; when the
    head says "changed" and the feed request fails, it raises that error
    after two.  In both cases the client object, and with it the cursor
    store and the tag cache, and the disk are as before, so the next poll
    starts over. *)
Theorem failed_poll_changes_nothing (head_url latest_url key : string)
    (tags sources : option (list string)) (buckets : list string)
    (s : DiffDelta.St) (e : exn) :
  let out := DiffDelta._poll_feed head_url latest_url key tags sources buckets s in
  (answer head_url s = inl e \/
   exists hdoc, answer head_url s = inr hdoc
                /\ DiffDelta.cursor_unchanged (stored_cursor s key) (Head.from_raw hdoc) = false
                /\ answer latest_url (logged head_url s) = inl e) ->
  fst out = inl e
  /\ DiffDelta.self (snd out) = DiffDelta.self s
  /\ disk (DiffDelta.world (snd out)) = disk (DiffDelta.world s)
  /\ (urls_asked s (snd out) = [head_url] \/ urls_asked s (snd out) = [head_url; latest_url]).
Proof.
  cbv zeta. unfold urls_asked. rewrite poll_feed_run.
  intros [Hh | (hdoc & Hh & Hu & Hf)].
  - rewrite Hh. cbn [fst snd]. repeat split. left.
    rewrite (new_requests_app _ _ _ (logged_requests head_url s)). reflexivity.
  - rewrite Hh, Hu, Hf. cbn [fst snd]. repeat split. right.
    erewrite new_requests_app; [ | rewrite !logged_requests, <- app_assoc; reflexivity].
    reflexivity.
Qed.

Lemma failed_poll_changes_nothing_witness :
  let head_url := "https://diffdelta.io/diff/head.json" in
  let latest_url := "https://diffdelta.io/diff/latest.json" in
  let srv := fun (_ : nat) (url : string) =>
               if url =? "https://diffdelta.io/diff/head.json"
               then inr (head_doc "c2") else inl HTTPError in
  let s := {| DiffDelta.self := client_with (Some {[ "global" := "c1" ]});
              DiffDelta.world := quiet_world ∅ srv |} in
  let out := DiffDelta._poll_feed head_url latest_url "global" None None
               ["new"; "updated"] s in
  fst out = inl HTTPError /\ stored_cursor (snd out) "global" = Some "c1".
Proof.
  cbv zeta.
  match goal with
  | |- fst (DiffDelta._poll_feed ?hu ?lu ?k ?t ?so ?b ?s) = _ /\ _ =>
      destruct (failed_poll_changes_nothing hu lu k t so b s HTTPError)
        as (Hf & Hself & _)
  end.
  - right. exists (head_doc "c2"). repeat split.
  - split; [exact Hf | ]. unfold stored_cursor. rewrite Hself. reflexivity.
Defined.

(** ** Construction *)

Lemma load_run (path : string) (w : World) :
  CursorStore._load {| CursorStore._path := path; CursorStore._cursors := ∅ |} w
  = (match loaded w path with
     | inl e => inl e
     | inr d => inr {| CursorStore._path := path; CursorStore._cursors := d |}
     end, w).
Proof.
  unfold loaded.
  unfold CursorStore._load, path_exists, open_json_load; py_run. simpl.
  destruct (has_nul path); simpl; [reflexivity | ].
  destruct (disk w !! path) as [[ | | | | | | d] | ] eqn:Hd; simpl; rewrite ?Hd; reflexivity.
Qed.

Lemma store_init_run (resolved : string) (w : World) :
  CursorStore.__init__ (if truthy resolved then Some resolved else None) w
  = CursorStore._load
      {| CursorStore._path :=
           if truthy resolved then resolved
           else path_join (DEFAULT_CURSOR_DIR w) DEFAULT_CURSOR_FILE;
         CursorStore._cursors := ∅ |} w.
Proof.
  unfold CursorStore.__init__. cbv beta iota zeta delta [bind gets].
  destruct (truthy resolved) eqn:Ht; [rewrite Ht | ]; reflexivity.
Qed.

Lemma client_init_run (base_url : string) (api_key : option string)
    (cursor_path : string) (timeout : Z) (w : World) :
  DiffDelta.__init__ base_url api_key (Some cursor_path) timeout w
  = (match loaded w (cursor_file_of cursor_path w) with
     | inl e => inl e
     | inr d =>
         inr {| DiffDelta.base_url := rstrip_slash base_url;
                DiffDelta.api_key := api_key; DiffDelta.timeout := timeout;
                DiffDelta._cursors :=
                  Some {| CursorStore._path := cursor_file_of cursor_path w;
                          CursorStore._cursors := d |};
                DiffDelta._source_tags_cache := None |}
     end, w).
Proof.
  set (path := cursor_file_of cursor_path w). unfold DiffDelta.__init__.
  cbv beta iota zeta delta [bind].
  assert (Hres : exists resolved,
             (if truthy cursor_path then ret cursor_path
              else gets (fun w0 : World => default "" (environ w0 !! "DD_CURSOR_PATH"))) w
             = (inr resolved, w)
             /\ path = (if truthy resolved then resolved
                        else path_join (DEFAULT_CURSOR_DIR w) DEFAULT_CURSOR_FILE)).
  { unfold path, cursor_file_of.
    destruct (truthy cursor_path) eqn:Ht.
    - exists cursor_path. rewrite Ht. split; reflexivity.
    - eexists. split; [reflexivity | reflexivity]. }
  destruct Hres as (resolved & Hrun & Hpath). rewrite Hrun.
  rewrite store_init_run, <- Hpath, load_run.
  destruct (loaded w path) as [e | d]; reflexivity.
Qed.

(** X5.  Building a client changes nothing in the world.  With
    [cursor_path=None] there is no cursor store and the disk is not
    looked at.  Otherwise the cursor file is the argument if it is not
    empty, else [DD_CURSOR_PATH] if set and not empty, else [cursors.json]
    in [.diffdelta] under the home directory, and the outcome is what
    [_load] makes of that file.  The client starts with the table of a
    file that holds an object of strings, and with the empty table when
    the file is missing, cannot be opened, is not JSON or is JSON but not
    an object, and also when the path has a NUL character.  The
    construction raises in three cases, the errors of [json.load] that
    [except (json.JSONDecodeError, OSError)] lets through:
    [UnicodeDecodeError] when the bytes are not text, [ValueError] when
    an integer of the JSON text is past the digit limit, [RecursionError]
    when the JSON text is nested too deep.  The base URL is kept without
    trailing slashes and the tag cache starts empty. *)
Theorem client_construction (base_url : string) (api_key : option string)
    (timeout : Z) (w : World) :
  DiffDelta.__init__ base_url api_key None timeout w
  = (inr {| DiffDelta.base_url := rstrip_slash base_url;
            DiffDelta.api_key := api_key; DiffDelta.timeout := timeout;
            DiffDelta._cursors := None; DiffDelta._source_tags_cache := None |}, w)
  /\ (forall cursor_path,
        let path := cursor_file_of cursor_path w in
        DiffDelta.__init__ base_url api_key (Some cursor_path) timeout w
        = (match loaded w path with
           | inl e => inl e
           | inr d =>
               inr {| DiffDelta.base_url := rstrip_slash base_url;
                      DiffDelta.api_key := api_key; DiffDelta.timeout := timeout;
                      DiffDelta._cursors :=
                        Some {| CursorStore._path := path; CursorStore._cursors := d |};
                      DiffDelta._source_tags_cache := None |}
           end, w))
  /\ (forall path d, has_nul path = false -> disk w !! path = Some (JsonDict d) ->
        loaded w path = inr d)
  /\ (forall path,
        has_nul path = true \/ disk w !! path = None
        \/ disk w !! path = Some Unreadable \/ disk w !! path = Some NotJson
        \/ disk w !! path = Some JsonOther ->
        loaded w path = inr ∅)
  /\ (forall path e,
        loaded w path = inl e
        <-> has_nul path = false
            /\ (disk w !! path = Some NotText /\ e = UnicodeDecodeError
                \/ disk w !! path = Some TooManyDigits /\ e = ValueError
                \/ disk w !! path = Some TooDeep /\ e = RecursionError))
  /\ (forall cursor_path, cursor_path <> "" ->
        cursor_file_of cursor_path w = cursor_path)
  /\ (forall env, environ w !! "DD_CURSOR_PATH" = Some env -> env <> "" ->
        cursor_file_of "" w = env)
  /\ (environ w !! "DD_CURSOR_PATH" = None \/ environ w !! "DD_CURSOR_PATH" = Some "" ->
      cursor_file_of "" w
      = path_join (path_join (home w) ".diffdelta") "cursors.json").
Proof.
  split; [reflexivity | ]. split; [intros cp; apply client_init_run | ].
  split; [ | split; [ | split; [ | split; [ | split]]]].
  - intros path d Hn Hd. unfold loaded. now rewrite Hn, Hd.
  - intros path H. unfold loaded.
    destruct (has_nul path); [reflexivity | ].
    destruct H as [H | [H | [H | [H | H]]]]; [discriminate H | | | | ];
      now rewrite H.
  - intros path e. unfold loaded. split.
    + destruct (has_nul path); [discriminate | ].
      destruct (disk w !! path) as [[ | | | | | | d] | ]; intros [= <-];
        (split; [reflexivity | ]); tauto.
    + intros (Hn & [[Hd ->] | [[Hd ->] | [Hd ->]]]); now rewrite Hn, Hd.
  - intros cp Hcp. unfold cursor_file_of, truthy.
    destruct (String.eqb_spec cp ""); [contradiction | reflexivity].
  - intros env Henv Hne. unfold cursor_file_of. rewrite Henv. simpl.
    unfold truthy. destruct (String.eqb_spec env ""); [contradiction | reflexivity].
  - intros [Henv | Henv]; unfold cursor_file_of; rewrite Henv; reflexivity.
Qed.

Lemma drop_while_head {A} (p : A -> bool) (l : list A) :
  match drop_while p l with
  | [] => True
  | x :: _ => p x = false
  end.
Proof.
  induction l as [|x l IH]; [exact I | ].
  cbn. destruct (p x) eqn:Hp; [exact IH | exact Hp].
Qed.

Lemma rstrip_slash_no_trailing_slash (b : string) :
  ends_with_slash (rstrip_slash b) = false.
Proof.
  unfold ends_with_slash, rstrip_slash.
  rewrite list_ascii_of_string_of_list_ascii, rev_involutive.
  pose proof (drop_while_head is_slash (rev (list_ascii_of_string b))) as H.
  destruct (drop_while is_slash (rev (list_ascii_of_string b))); [reflexivity | exact H].
Qed.

Lemma list_ascii_of_string_app (a b : string) :
  list_ascii_of_string (a ++ b) = (list_ascii_of_string a ++ list_ascii_of_string b)%list.
Proof. induction a as [|c a IH]; simpl; [reflexivity | f_equal; exact IH]. Qed.

Lemma rstrip_slash_app_slash (b : string) :
  rstrip_slash (b ++ "/") = rstrip_slash b.
Proof.
  unfold rstrip_slash. rewrite list_ascii_of_string_app. cbn [list_ascii_of_string].
  rewrite rev_app_distr. reflexivity.
Qed.

(** X6.  Trailing slashes of the base URL do not matter: a client never
    holds a base URL that ends with a slash, and the clients built from
    [base_url] and from [base_url + "/"] are the same, so both ask the same
    URLs. *)
Theorem base_url_is_normalised (base_url : string) (api_key : option string)
    (cursor_path : option string) (timeout : Z) (w : World) :
  (forall c w', DiffDelta.__init__ base_url api_key cursor_path timeout w = (inr c, w') ->
                ends_with_slash (DiffDelta.base_url c) = false)
  /\ DiffDelta.__init__ (base_url ++ "/") api_key cursor_path timeout w
     = DiffDelta.__init__ base_url api_key cursor_path timeout w.
Proof.
  split.
  - intros c w' H. destruct cursor_path as [cp | ].
    + rewrite client_init_run in H.
      destruct (loaded w (cursor_file_of cp w)) as [e | d];
        [discriminate H | injection H as <- _];
        apply rstrip_slash_no_trailing_slash.
    + injection H as <- _. apply rstrip_slash_no_trailing_slash.
  - unfold DiffDelta.__init__. now rewrite rstrip_slash_app_slash.
Qed.

(** ** Seeing a change once *)

Lemma truthy_true (c : string) : c <> "" -> truthy c = true.
Proof. unfold truthy. intros H. destruct (String.eqb_spec c ""); [contradiction | reflexivity]. Qed.

Lemma unchanged_when_stored (key c : string) (s : DiffDelta.St) (hdoc : RawDoc) :
  stored_cursor s key = Some c -> c <> "" ->
  Head.cursor (Head.from_raw hdoc) = c ->
  DiffDelta.cursor_unchanged (stored_cursor s key) (Head.from_raw hdoc) = true.
Proof.
  intros Hs Hc Hh. apply cursor_unchanged_iff. exists c. now rewrite Hh.
Qed.

(** X7.  A change is reported once.  After a poll that fetched a feed
    with a non-empty cursor, a client with a cursor store answers the next
    poll of the same key with the empty list and a single GET, whatever
    the filters of either poll, as long as the head still shows that
    cursor; this holds in memory, whether or not the cursor file could be
    written.  A client without cursor store fetches the full feed again. *)
Theorem second_poll_sees_no_change (head_url latest_url key : string)
    (tags sources tags' sources' : option (list string)) (buckets buckets' : list string)
    (s : DiffDelta.St) (hdoc fdoc hdoc2 : RawDoc) :
  answer head_url s = inr hdoc ->
  DiffDelta.cursor_unchanged (stored_cursor s key) (Head.from_raw hdoc) = false ->
  answer latest_url (logged head_url s) = inr fdoc ->
  let s1 := snd (DiffDelta._poll_feed head_url latest_url key tags sources buckets s) in
  answer head_url s1 = inr hdoc2 ->
  Head.cursor (Head.from_raw hdoc2) = Feed.cursor (Feed.from_raw fdoc) ->
  (is_Some (DiffDelta._cursors (DiffDelta.self s)) ->
   Feed.cursor (Feed.from_raw fdoc) <> "" ->
   DiffDelta._poll_feed head_url latest_url key tags' sources' buckets' s1
   = (inr [], logged head_url s1))
  /\ (DiffDelta._cursors (DiffDelta.self s) = None ->
      fetches_full_feed head_url latest_url s1
        (snd (DiffDelta._poll_feed head_url latest_url key tags' sources' buckets' s1))).
Proof.
  intros Hh Hu Hf s1 Hh2 Hc2.
  pose proof (poll_feed_cursors head_url latest_url key tags sources buckets
                s hdoc fdoc Hh Hu Hf) as Hcur.
  fold s1 in Hcur. split.
  - intros [store Hstore] Hne. rewrite Hstore, (truthy_true _ Hne) in Hcur.
    assert (Hst : stored_cursor s1 key = Some (Feed.cursor (Feed.from_raw fdoc))).
    { unfold stored_cursor. rewrite Hcur. apply lookup_insert_eq. }
    rewrite poll_feed_run, Hh2.
    now rewrite (unchanged_when_stored key _ s1 hdoc2 Hst Hne Hc2).
  - intros Hnone. rewrite Hnone in Hcur.
    apply (poll_feed_fetches _ _ _ _ _ _ _ hdoc2 Hh2).
    unfold stored_cursor. rewrite Hcur. reflexivity.
Qed.

Lemma second_poll_sees_no_change_witness :
  let head_url := "https://diffdelta.io/diff/head.json" in
  let latest_url := "https://diffdelta.io/diff/latest.json" in
  let fdoc := feed_doc "c2" [sample_item "src1" "A" []] [] [] in
  let s := {| DiffDelta.self := client_with (Some ∅);
              DiffDelta.world :=
                {| disk := ∅; io_fails := fun _ => true; environ := ∅; home := "/home/bot";
                   server := simple_server "c2" fdoc; requests := [];
                   interrupted := fun _ => false; slept := []; stdout := [];
                   dispatched := [] |} |} in
  let out1 := DiffDelta._poll_feed head_url latest_url "global" None None
                ["new"; "updated"] s in
  fst out1 = inr [FeedItem.from_raw (sample_item "src1" "A" []) "new"]
  /\ fst (DiffDelta._poll_feed head_url latest_url "global" None None
            ["new"; "updated"] (snd out1)) = inr [].
Proof.
  cbv zeta. split; [vm_compute; reflexivity | ].
  match goal with
  | |- fst (DiffDelta._poll_feed ?hu ?lu ?k ?t ?so ?b
              (snd (DiffDelta._poll_feed _ _ _ _ _ _ ?s))) = _ =>
      rewrite (proj1 (second_poll_sees_no_change hu lu k t so t so b b s
                        (head_doc "c2")
                        (feed_doc "c2" [sample_item "src1" "A" []] [] [])
                        (head_doc "c2") eq_refl eq_refl eq_refl eq_refl eq_refl))
  end.
  - reflexivity.
  - simpl. eauto.
  - discriminate.
Defined.

Lemma save_new_cursor_persists (key : string) (feed : Feed.t) (s : DiffDelta.St)
    (store : CursorStore.t) :
  DiffDelta._cursors (DiffDelta.self s) = Some store ->
  Feed.cursor feed <> "" ->
  save_fails (DiffDelta.world s) (CursorStore._path store) = false ->
  disk (DiffDelta.world (snd (DiffDelta.save_new_cursor key feed s)))
  = <[CursorStore._path store :=
        JsonDict (<[key := Feed.cursor feed]> (CursorStore._cursors store))]>
      (disk (DiffDelta.world s)).
Proof.
  intros Hstore Hne Hok.
  unfold DiffDelta.save_new_cursor, DiffDelta.on_cursors.
  cbv beta iota zeta delta [bind gets modify].
  rewrite Hstore, (truthy_true _ Hne), (set_overwrites _ _ _ _ Hok). reflexivity.
Qed.

Lemma cursor_save_goes_through (s : DiffDelta.St) (store : CursorStore.t)
    (cursor : string) :
  DiffDelta._cursors (DiffDelta.self s) = Some store ->
  save_fails (DiffDelta.world s) (CursorStore._path store) = false ->
  cursor_save_result s cursor = inr tt.
Proof.
  intros Hstore Hok. apply cursor_save_returns. intros store' Hstore'.
  rewrite Hstore in Hstore'. injection Hstore' as <-.
  now destruct (save_goes_through _ _ Hok) as (_ & Hn & _).
Qed.

(** The disk after a poll that fetched the feed, for a client whose
    cursor file can be written. *)
Lemma poll_feed_disk (head_url latest_url key : string)
    (tags sources : option (list string)) (buckets : list string)
    (s : DiffDelta.St) (hdoc fdoc : RawDoc) (store : CursorStore.t) :
  DiffDelta._cursors (DiffDelta.self s) = Some store ->
  save_fails (DiffDelta.world s) (CursorStore._path store) = false ->
  answer head_url s = inr hdoc ->
  DiffDelta.cursor_unchanged (stored_cursor s key) (Head.from_raw hdoc) = false ->
  answer latest_url (logged head_url s) = inr fdoc ->
  Feed.cursor (Feed.from_raw fdoc) <> "" ->
  disk (DiffDelta.world
          (snd (DiffDelta._poll_feed head_url latest_url key tags sources buckets s)))
  = <[CursorStore._path store :=
        JsonDict (<[key := Feed.cursor (Feed.from_raw fdoc)]> (CursorStore._cursors store))]>
      (disk (DiffDelta.world s)).
Proof.
  intros Hstore Hok Hh Hu Hf Hne. rewrite poll_feed_run, Hh, Hu, Hf. cbv zeta.
  rewrite (cursor_save_goes_through s store _ Hstore Hok).
  destruct (filter_items_touched tags sources buckets (Feed.items (Feed.from_raw fdoc)) []
              (snd (DiffDelta.save_new_cursor key (Feed.from_raw fdoc)
                      (logged latest_url (logged head_url s)))))
    as (l & c & Hs' & _).
  rewrite Hs'.
  exact (save_new_cursor_persists key (Feed.from_raw fdoc)
           (logged latest_url (logged head_url s)) store Hstore Hne Hok).
Qed.

(** X8.  The cursor survives a restart.  When a poll fetched a feed with
    a non-empty cursor and the cursor file could be written, a client
    built afterwards over the same cursor file starts with that cursor
    under the key, and its poll of that key returns the empty list after a
    single GET as long as the head still shows that cursor. *)
Theorem cursor_survives_restart (head_url latest_url key : string)
    (tags sources tags' sources' : option (list string)) (buckets buckets' : list string)
    (s : DiffDelta.St) (hdoc fdoc : RawDoc) (store : CursorStore.t)
    (base_url : string) (api_key : option string) (timeout : Z) :
  DiffDelta._cursors (DiffDelta.self s) = Some store ->
  save_fails (DiffDelta.world s) (CursorStore._path store) = false ->
  answer head_url s = inr hdoc ->
  DiffDelta.cursor_unchanged (stored_cursor s key) (Head.from_raw hdoc) = false ->
  answer latest_url (logged head_url s) = inr fdoc ->
  Feed.cursor (Feed.from_raw fdoc) <> "" ->
  let w1 := DiffDelta.world
              (snd (DiffDelta._poll_feed head_url latest_url key tags sources buckets s)) in
  exists restarted,
    DiffDelta.__init__ base_url api_key (Some (CursorStore._path store)) timeout w1
    = (inr restarted, w1)
    /\ stored_cursor {| DiffDelta.self := restarted; DiffDelta.world := w1 |} key
       = Some (Feed.cursor (Feed.from_raw fdoc))
    /\ (forall hdoc2,
          let s2 := {| DiffDelta.self := restarted; DiffDelta.world := w1 |} in
          answer head_url s2 = inr hdoc2 ->
          Head.cursor (Head.from_raw hdoc2) = Feed.cursor (Feed.from_raw fdoc) ->
          DiffDelta._poll_feed head_url latest_url key tags' sources' buckets' s2
          = (inr [], logged head_url s2)).
Proof.
  intros Hstore Hok Hh Hu Hf Hne w1.
  pose proof (poll_feed_disk head_url latest_url key tags sources buckets s hdoc fdoc
                store Hstore Hok Hh Hu Hf Hne) as Hdisk.
  fold w1 in Hdisk.
  destruct (save_goes_through _ _ Hok) as (_ & Hn & Hpath).
  assert (Hfile : cursor_file_of (CursorStore._path store) w1 = CursorStore._path store).
  { unfold cursor_file_of. now rewrite (truthy_true _ Hpath). }
  assert (Hlook : loaded w1 (CursorStore._path store)
                  = inr (<[key := Feed.cursor (Feed.from_raw fdoc)]>
                           (CursorStore._cursors store))).
  { unfold loaded. rewrite Hn, Hdisk, lookup_insert_eq. reflexivity. }
  eexists. split; [ | split].
  - rewrite client_init_run, Hfile, Hlook. reflexivity.
  - unfold stored_cursor. cbn. apply lookup_insert_eq.
  - intros hdoc2 s2 Hh2 Hc2.
    assert (Hst : stored_cursor s2 key = Some (Feed.cursor (Feed.from_raw fdoc))).
    { unfold s2, stored_cursor. cbn. apply lookup_insert_eq. }
    rewrite poll_feed_run, Hh2.
    now rewrite (unchanged_when_stored key _ s2 hdoc2 Hst Hne Hc2).
Qed.

Lemma cursor_survives_restart_witness :
  let head_url := "https://diffdelta.io/diff/head.json" in
  let latest_url := "https://diffdelta.io/diff/latest.json" in
  let path := "/home/bot/.diffdelta/cursors.json" in
  let fdoc := feed_doc "c2" [sample_item "src1" "A" []] [] [] in
  let s := {| DiffDelta.self := client_with (Some ∅);
              DiffDelta.world := quiet_world ∅ (simple_server "c2" fdoc) |} in
  let w1 := DiffDelta.world
              (snd (DiffDelta._poll_feed head_url latest_url "global" None None
                      ["new"; "updated"] s)) in
  disk w1 !! path = Some (JsonDict {[ "global" := "c2" ]})
  /\ exists restarted,
       DiffDelta.__init__ DEFAULT_BASE_URL None (Some path) DEFAULT_TIMEOUT w1
       = (inr restarted, w1)
       /\ stored_cursor {| DiffDelta.self := restarted; DiffDelta.world := w1 |} "global"
          = Some "c2".
Proof.
  cbv zeta. split; [vm_compute; reflexivity | ].
  set (s := {| DiffDelta.self := client_with (Some ∅);
               DiffDelta.world :=
                 quiet_world ∅ (simple_server "c2"
                   (feed_doc "c2" [sample_item "src1" "A" []] [] [])) |}).
  assert (Hu : DiffDelta.cursor_unchanged (stored_cursor s "global")
                 (Head.from_raw (head_doc "c2")) = false) by (vm_compute; reflexivity).
  assert (Hok : save_fails (DiffDelta.world s) "/home/bot/.diffdelta/cursors.json" = false)
    by (vm_compute; reflexivity).
  destruct (cursor_survives_restart
              "https://diffdelta.io/diff/head.json" "https://diffdelta.io/diff/latest.json"
              "global" None None None None ["new"; "updated"] ["new"; "updated"]
              s (head_doc "c2") (feed_doc "c2" [sample_item "src1" "A" []] [] [])
              {| CursorStore._path := "/home/bot/.diffdelta/cursors.json";
                 CursorStore._cursors := ∅ |}
              DEFAULT_BASE_URL None DEFAULT_TIMEOUT
              eq_refl Hok eq_refl Hu eq_refl)
    as (restarted & Hinit & Hst & _).
  - discriminate.
  - exists restarted. split; [exact Hinit | exact Hst].
Defined.

(** ** The tag table *)

Lemma poll_feed_cache (head_url latest_url key : string)
    (tags sources : option (list string)) (buckets : list string) (s : DiffDelta.St) :
  is_Some (DiffDelta._source_tags_cache (DiffDelta.self s)) ->
  DiffDelta._source_tags_cache (DiffDelta.self
    (snd (DiffDelta._poll_feed head_url latest_url key tags sources buckets s)))
  = DiffDelta._source_tags_cache (DiffDelta.self s).
Proof.
  intros Hc. rewrite poll_feed_run.
  destruct (answer head_url s) as [e | hdoc]; [reflexivity | ].
  destruct (DiffDelta.cursor_unchanged _ _); [reflexivity | ].
  destruct (answer latest_url (logged head_url s)) as [e | fdoc]; [reflexivity | ].
  destruct (save_new_cursor_run key (Feed.from_raw fdoc)
              (logged latest_url (logged head_url s)))
    as (s3 & Hrun & _ & Hcache & _).
  cbv zeta. rewrite Hrun. cbn [snd].
  destruct (after_save_touched tags sources buckets (Feed.items (Feed.from_raw fdoc))
              (cursor_save_result s (Feed.cursor (Feed.from_raw fdoc))) s3)
    as (l & c & Hs' & _ & Hsame).
  rewrite Hs'. cbn. rewrite Hcache in Hsame.
  destruct (Hsame (or_introl Hc)) as [_ ->]. reflexivity.
Qed.

(** X9.  A failed sources request is remembered, not retried.  When the
    tag table has to be fetched and the request fails with an [Exception],
    [_get_source_tags] returns the empty table and caches it.  From then
    on, in every state with that cache, a poll with a non-empty tag filter
    returns no item, asks the server for the head and the feed only, and
    leaves the empty table cached, whatever the server would now answer. *)
Theorem failed_sources_fetch_is_cached (s : DiffDelta.St) (e : exn) :
  DiffDelta._source_tags_cache (DiffDelta.self s) = None ->
  sources_answer 0 s = inl e ->
  except_Exception e = true ->
  fst (DiffDelta._get_source_tags s) = inr ∅
  /\ DiffDelta._source_tags_cache (DiffDelta.self (snd (DiffDelta._get_source_tags s)))
     = Some ∅
  /\ (forall s2 head_url latest_url key tags sources buckets,
        DiffDelta._source_tags_cache (DiffDelta.self s2) = Some ∅ ->
        filter_given tags = true ->
        let out := DiffDelta._poll_feed head_url latest_url key tags sources buckets s2 in
        (forall items, fst out = inr items -> items = [])
        /\ (urls_asked s2 (snd out) = [head_url]
            \/ urls_asked s2 (snd out) = [head_url; latest_url])
        /\ DiffDelta._source_tags_cache (DiffDelta.self (snd out)) = Some ∅).
Proof.
  intros Hcache Hans He.
  assert (Hcatch : sources_fetch_catchable 0 s).
  { unfold sources_fetch_catchable. now rewrite Hcache, Hans. }
  assert (Htable : tag_table 0 s = ∅).
  { unfold tag_table. now rewrite Hcache, Hans. }
  destruct (get_source_tags_run s Hcatch) as (s1 & Hrun & Hc1).
  rewrite Hrun, Htable in *. cbn [fst snd].
  split; [reflexivity | ]. split; [exact Hc1 | ].
  intros s2 head_url latest_url key tags sources buckets Hc2 Htags.
  assert (Hsome : is_Some (DiffDelta._source_tags_cache (DiffDelta.self s2)))
    by (rewrite Hc2; eauto).
  split; [ | split].
  - intros items. rewrite poll_feed_run.
    destruct (answer head_url s2) as [e' | hdoc]; [discriminate | ].
    destruct (DiffDelta.cursor_unchanged _ _); [now intros [= <-] | ].
    destruct (answer latest_url (logged head_url s2)) as [e' | fdoc]; [discriminate | ].
    destruct (save_new_cursor_run key (Feed.from_raw fdoc)
                (logged latest_url (logged head_url s2)))
      as (s3 & Hrun3 & _ & Hcache3 & _).
    cbv zeta. rewrite Hrun3. cbn [snd].
    destruct (cursor_save_result s2 _) as [e' | u]; [discriminate | ].
    assert (Hc3 : DiffDelta._source_tags_cache (DiffDelta.self s3) = Some ∅).
    { rewrite Hcache3. exact Hc2. }
    destruct (tag_table_cached _ _ Hc3) as [Ht3 Hcatch3].
    rewrite filter_items_run by exact Hcatch3.
    rewrite Ht3, filter_without_tags by exact Htags. now intros [= <-].
  - destruct (poll_asks_at_most_three_urls_cached head_url latest_url key tags sources
                buckets s2 (or_introl Hsome)) as [H | H]; auto.
  - rewrite poll_feed_cache by exact Hsome. exact Hc2.
Qed.

Lemma failed_sources_fetch_is_cached_witness :
  let s := {| DiffDelta.self := client_with None;
              DiffDelta.world := quiet_world ∅ (fun _ _ => inl HTTPError) |} in
  sources_answer 0 s = inl HTTPError
  /\ fst (DiffDelta._get_source_tags s) = inr ∅.
Proof.
  cbv zeta. split; [reflexivity | ].
  exact (proj1 (failed_sources_fetch_is_cached
                  {| DiffDelta.self := client_with None;
                     DiffDelta.world := quiet_world ∅ (fun _ _ => inl HTTPError) |}
                  HTTPError eq_refl eq_refl eq_refl)).
Defined.

(** ** Clearing cursors *)

(** The table that [clear(key)] leaves in memory. *)
Lemma clear_run (self : CursorStore.t) (key : option string) (w : World) :
  exists w',
    CursorStore.clear self key w
    = (save_result w (CursorStore._path self),
       (CursorStore.set_cursors self
          (match key with
           | Some k => if truthy k then delete k (CursorStore._cursors self) else ∅
           | None => ∅
           end), w'))
    /\ requests w' = requests w
    /\ server w' = server w
    /\ (save_fails w (CursorStore._path self) = false ->
        w' = with_disk (insert (CursorStore._path self)
                          (JsonDict (match key with
                                     | Some k => if truthy k
                                                 then delete k (CursorStore._cursors self)
                                                 else ∅
                                     | None => ∅
                                     end))) w).
Proof.
  unfold CursorStore.clear, CursorStore.saved.
  set (table := match key with
                | Some k => if truthy k then delete k (CursorStore._cursors self) else ∅
                | None => ∅
                end).
  assert (Hself : match key with
                  | Some k => if truthy k
                              then CursorStore.set_cursors self (delete k (CursorStore._cursors self))
                              else CursorStore.set_cursors self ∅
                  | None => CursorStore.set_cursors self ∅
                  end = CursorStore.set_cursors self table).
  { unfold table. destruct key as [k | ]; [destruct (truthy k) | ]; reflexivity. }
  rewrite Hself.
  destruct (save_returns (CursorStore.set_cursors self table) w)
    as (w' & Hs & Hsrv & Hreq & _).
  exists w'. rewrite Hs. split; [reflexivity | ]. split; [exact Hreq | ].
  split; [exact Hsrv | ].
  intros Hok.
  rewrite (save_persists (CursorStore.set_cursors self table) w Hok) in Hs.
  now injection Hs as _ <-.
Qed.

(** X10.  [clear] reaches the file.  When the write goes through,
    [clear(key)] with a non-empty key removes that cursor and keeps the
    others, in memory and for a store built afterwards over the same path;
    [clear()] removes them all and leaves the file holding the empty
    object.  An empty-string key counts as no key: [clear("")] removes
    every cursor. *)
Theorem clear_then_reload (self : CursorStore.t) (w : World) :
  save_fails w (CursorStore._path self) = false ->
  (forall key, key <> "" ->
     exists self' w' fresh,
       CursorStore.clear self (Some key) w = (inr tt, (self', w'))
       /\ CursorStore.__init__ (Some (CursorStore._path self)) w' = (inr fresh, w')
       /\ CursorStore.get self' key = None /\ CursorStore.get fresh key = None
       /\ (forall k, k <> key ->
             CursorStore.get self' k = CursorStore.get self k
             /\ CursorStore.get fresh k = CursorStore.get self k))
  /\ (forall key, key = None \/ key = Some "" ->
        exists self' w' fresh,
          CursorStore.clear self key w = (inr tt, (self', w'))
          /\ disk w' !! CursorStore._path self = Some (JsonDict ∅)
          /\ CursorStore.__init__ (Some (CursorStore._path self)) w' = (inr fresh, w')
          /\ (forall k, CursorStore.get self' k = None /\ CursorStore.get fresh k = None)).
Proof.
  intros Hok.
  destruct (save_goes_through _ _ Hok) as (Hnoraise & Hn & Hpath).
  assert (Hreload : forall key table,
             table = match key with
                     | Some k => if truthy k then delete k (CursorStore._cursors self) else ∅
                     | None => ∅
                     end ->
             exists w',
               CursorStore.clear self key w
               = (inr tt, (CursorStore.set_cursors self table, w'))
               /\ disk w' !! CursorStore._path self = Some (JsonDict table)
               /\ CursorStore.__init__ (Some (CursorStore._path self)) w'
                  = (inr (CursorStore.set_cursors self table), w')).
  { intros key table ->.
    destruct (clear_run self key w) as (w' & Hrun & _ & _ & Hw').
    unfold save_result in Hrun. rewrite Hnoraise in Hrun.
    specialize (Hw' Hok). exists w'. split; [exact Hrun | ].
    assert (Hd : disk w' !! CursorStore._path self
                 = Some (JsonDict (match key with
                                   | Some k => if truthy k
                                               then delete k (CursorStore._cursors self)
                                               else ∅
                                   | None => ∅
                                   end))).
    { rewrite Hw'. simpl. apply lookup_insert_eq. }
    split; [exact Hd | ].
    rewrite init_explicit_path by exact Hpath.
    exact (load_dict {| CursorStore._path := CursorStore._path self;
                        CursorStore._cursors := ∅ |} w' _ Hn Hd). }
  split.
  - intros key Hkey.
    destruct (Hreload (Some key) (delete key (CursorStore._cursors self)))
      as (w' & Hrun & _ & Hinit).
    { now rewrite (truthy_true _ Hkey). }
    do 3 eexists. split; [exact Hrun | ]. split; [exact Hinit | ].
    unfold CursorStore.get; simpl.
    split; [apply lookup_delete_eq | ]. split; [apply lookup_delete_eq | ].
    intros k Hk. split; now apply lookup_delete_ne.
  - intros key Hkey.
    destruct (Hreload key ∅) as (w' & Hrun & Hd & Hinit).
    { destruct Hkey as [-> | ->]; reflexivity. }
    do 3 eexists. split; [exact Hrun | ]. split; [exact Hd | ]. split; [exact Hinit | ].
    intros k. unfold CursorStore.get; simpl. split; apply lookup_empty.
Qed.

Lemma clear_then_reload_witness :
  let self := {| CursorStore._path := "/home/bot/.diffdelta/cursors.json";
                 CursorStore._cursors := {[ "global" := "c1"; "source:x" := "c7" ]} |} in
  let w := quiet_world ∅ (fun _ _ => inl HTTPError) in
  save_fails w (CursorStore._path self) = false
  /\ exists self' w' fresh,
       CursorStore.clear self (Some "source:x") w = (inr tt, (self', w'))
       /\ CursorStore.__init__ (Some (CursorStore._path self)) w' = (inr fresh, w')
       /\ CursorStore.get fresh "source:x" = None
       /\ CursorStore.get fresh "global" = Some "c1".
Proof.
  cbv zeta. split; [reflexivity | ].
  destruct (proj1 (clear_then_reload
                     {| CursorStore._path := "/home/bot/.diffdelta/cursors.json";
                        CursorStore._cursors := {[ "global" := "c1"; "source:x" := "c7" ]} |}
                     (quiet_world ∅ (fun _ _ => inl HTTPError)) eq_refl)
                  "source:x")
    as (self' & w' & fresh & Hclear & Hinit & _ & Hgone & Hkeep).
  { discriminate. }
  exists self', w', fresh. split; [exact Hclear | ]. split; [exact Hinit | ].
  split; [exact Hgone | ].
  destruct (Hkeep "global") as [_ ->]; [discriminate | ]. vm_compute. reflexivity.
Defined.

Lemma reset_cursors_run (source_id : option string) (s : DiffDelta.St) :
  exists s',
    DiffDelta.reset_cursors source_id s
    = (match DiffDelta._cursors (DiffDelta.self s) with
       | Some store => save_result (DiffDelta.world s) (CursorStore._path store)
       | None => inr tt
       end, s')
    /\ DiffDelta.base_url (DiffDelta.self s') = DiffDelta.base_url (DiffDelta.self s)
    /\ DiffDelta._source_tags_cache (DiffDelta.self s')
       = DiffDelta._source_tags_cache (DiffDelta.self s)
    /\ requests (DiffDelta.world s') = requests (DiffDelta.world s)
    /\ server (DiffDelta.world s') = server (DiffDelta.world s)
    /\ DiffDelta._cursors (DiffDelta.self s')
       = match DiffDelta._cursors (DiffDelta.self s) with
         | Some store =>
             Some (CursorStore.set_cursors store
                     (match source_id with
                      | Some sid =>
                          if truthy sid
                          then delete ("source:" ++ sid) (CursorStore._cursors store)
                          else ∅
                      | None => ∅
                      end))
         | None => None
         end
    /\ (DiffDelta._cursors (DiffDelta.self s) = None -> s' = s).
Proof.
  unfold DiffDelta.reset_cursors, DiffDelta.on_cursors.
  cbv beta iota zeta delta [bind gets modify ret].
  destruct (DiffDelta._cursors (DiffDelta.self s)) as [store | ] eqn:Hc.
  - set (key := match source_id with
                | Some sid => if truthy sid then Some ("source:" ++ sid) else None
                | None => None
                end).
    assert (Hcall : match source_id with
                    | Some sid =>
                        if truthy sid
                        then CursorStore.clear store (Some ("source:" ++ sid))
                        else CursorStore.clear store None
                    | None => CursorStore.clear store None
                    end = CursorStore.clear store key).
    { unfold key. destruct source_id as [sid | ]; [destruct (truthy sid) | ]; reflexivity. }
    rewrite Hcall.
    destruct (clear_run store key (DiffDelta.world s)) as (w' & Hrun & Hreq & Hsrv & _).
    rewrite Hrun. eexists. split; [reflexivity | ]. cbn.
    split; [reflexivity | ]. split; [reflexivity | ].
    split; [exact Hreq | ]. split; [exact Hsrv | ].
    split; [ | discriminate].
    f_equal. f_equal. unfold key.
    destruct source_id as [sid | ]; [destruct (truthy sid) | ]; reflexivity.
  - exists s. split; [reflexivity | ]. split; [reflexivity | ].
    split; [reflexivity | ]. split; [reflexivity | ]. split; [reflexivity | ].
    split; [exact Hc | ]. intros _. reflexivity.
Qed.

(** X11.  [reset_cursors] forgets in memory, whatever becomes of the
    write.  With a non-empty source id it forgets the cursor of that
    source feed and leaves every other cursor, the global one included;
    with no id, or with the empty string as id, it forgets all cursors,
    and the next poll of any key then fetches the full feed.  On a client
    without cursor store it does nothing.  It returns normally on a client
    without cursor store and on one whose cursor path has no NUL
    character, also when the file cannot be written; what it hands to its
    caller is the outcome of [_save], so over a cursor path with a NUL
    character (and a directory part that the system does not refuse) it
    raises [ValueError], after the cursors are forgotten. *)
Theorem reset_cursors_forgets (s : DiffDelta.St) :
  (forall source_id,
     fst (DiffDelta.reset_cursors source_id s)
     = match DiffDelta._cursors (DiffDelta.self s) with
       | Some store => save_result (DiffDelta.world s) (CursorStore._path store)
       | None => inr tt
       end)
  /\ ((forall store, DiffDelta._cursors (DiffDelta.self s) = Some store ->
                     has_nul (CursorStore._path store) = false) ->
      forall source_id, fst (DiffDelta.reset_cursors source_id s) = inr tt)
  /\ (forall sid, sid <> "" ->
        let s' := snd (DiffDelta.reset_cursors (Some sid) s) in
        stored_cursor s' ("source:" ++ sid) = None
        /\ forall k, k <> "source:" ++ sid -> stored_cursor s' k = stored_cursor s k)
  /\ (forall source_id, source_id = None \/ source_id = Some "" ->
        let s' := snd (DiffDelta.reset_cursors source_id s) in
        (forall k, stored_cursor s' k = None)
        /\ forall head_url latest_url key tags sources buckets hdoc,
             answer head_url s' = inr hdoc ->
             fetches_full_feed head_url latest_url s'
               (snd (DiffDelta._poll_feed head_url latest_url key tags sources buckets s')))
  /\ (DiffDelta._cursors (DiffDelta.self s) = None ->
      forall source_id, DiffDelta.reset_cursors source_id s = (inr tt, s)).
Proof.
  assert (Hfst : forall source_id,
             fst (DiffDelta.reset_cursors source_id s)
             = match DiffDelta._cursors (DiffDelta.self s) with
               | Some store => save_result (DiffDelta.world s) (CursorStore._path store)
               | None => inr tt
               end).
  { intros source_id.
    destruct (reset_cursors_run source_id s) as (s' & Hrun & _). now rewrite Hrun. }
  split; [exact Hfst | ]. split; [ | split; [ | split]].
  - intros Hn source_id. rewrite Hfst.
    destruct (DiffDelta._cursors (DiffDelta.self s)) as [store | ]; [ | reflexivity].
    unfold save_result, save_raises. now rewrite (Hn store eq_refl), andb_false_r.
  - intros sid Hsid. cbv zeta.
    destruct (reset_cursors_run (Some sid) s) as (s' & Hrun & _ & _ & _ & _ & Hcur & _).
    rewrite Hrun. cbn [snd]. unfold stored_cursor. rewrite Hcur.
    rewrite (truthy_true _ Hsid).
    destruct (DiffDelta._cursors (DiffDelta.self s)) as [store | ]; [ | now split].
    unfold CursorStore.get; simpl. split; [apply lookup_delete_eq | ].
    intros k Hk. now apply lookup_delete_ne.
  - intros source_id Hall. cbv zeta.
    destruct (reset_cursors_run source_id s) as (s' & Hrun & _ & _ & _ & _ & Hcur & _).
    rewrite Hrun. cbn [snd].
    assert (Hnone : forall k, stored_cursor s' k = None).
    { intros k. unfold stored_cursor. rewrite Hcur.
      destruct (DiffDelta._cursors (DiffDelta.self s)) as [store | ]; [ | reflexivity].
      destruct Hall as [-> | ->]; apply lookup_empty. }
    split; [exact Hnone | ].
    intros head_url latest_url key tags sources buckets hdoc Hh.
    apply (poll_feed_fetches _ _ _ _ _ _ _ hdoc Hh). now rewrite Hnone.
  - intros Hnone source_id.
    destruct (reset_cursors_run source_id s) as (s' & Hrun & _ & _ & _ & _ & _ & Hsame).
    rewrite Hrun, Hnone. now rewrite (Hsame Hnone).
Qed.

(** ** The watch loop beyond exceptions *)

(** X12.  The polling interval.  An interval given by the caller is used
    as it is and costs no request.  Without one, [watch] asks for the
    global head once: the interval is the head's [ttl_sec] (900 when the
    document has none) but never less than 60, it is 900 when the request
    fails with an [Exception], and an interrupt goes up to the caller.  So
    an interval that [watch] chose itself is at least 60 seconds. *)
Theorem polling_interval_is_at_least_a_minute (s : DiffDelta.St) :
  (forall i, DiffDelta.polling_interval (Some i) s = (inr i, s))
  /\ (let url := DiffDelta.base_url (DiffDelta.self s) ++ "/diff/head.json" in
      DiffDelta.polling_interval None s
      = (match answer url s with
         | inr doc => inr (Z.max (default 900%Z (doc_ttl_sec doc)) 60)
         | inl e => if except_Exception e then inr 900%Z else inl e
         end, logged url s))
  /\ (forall i, fst (DiffDelta.polling_interval None s) = inr i -> (60 <= i)%Z).
Proof.
  assert (Hrun : let url := DiffDelta.base_url (DiffDelta.self s) ++ "/diff/head.json" in
                 DiffDelta.polling_interval None s
                 = (match answer url s with
                    | inr doc => inr (Z.max (default 900%Z (doc_ttl_sec doc)) 60)
                    | inl e => if except_Exception e then inr 900%Z else inl e
                    end, logged url s)).
  { cbv zeta. unfold DiffDelta.polling_interval, DiffDelta.head.
    cbv beta iota zeta delta [try_except bind ret gets]. simpl default.
    rewrite get_json_run.
    destruct (answer _ s) as [e | doc]; [ | reflexivity].
    simpl select_handler. destruct (except_Exception e); reflexivity. }
  split; [reflexivity | ]. split; [exact Hrun | ].
  intros i. cbv zeta in Hrun. rewrite Hrun. cbn [fst].
  destruct (answer _ s) as [e | doc].
  - destruct (except_Exception e); [ | discriminate]. intros [= <-]. lia.
  - intros [= <-]. lia.
Qed.

Lemma for_each_all_accepted
    (callback : list FeedItem.t -> FeedItem.t -> option exn)
    (items : list FeedItem.t) (s : DiffDelta.St) :
  (forall pre y post, items = (pre ++ y :: post)%list ->
     callback (dispatched (DiffDelta.world s) ++ pre)%list y = None) ->
  DiffDelta.for_each callback items s
  = (inr tt, {| DiffDelta.self := DiffDelta.self s;
                DiffDelta.world :=
                  with_dispatched (fun l => (l ++ items)%list) (DiffDelta.world s) |}).
Proof.
  revert s. induction items as [|y items IH]; intros s Hok.
  - destruct s as [d [? ? ? ? ? ? ? ? ? di]]. cbn. unfold ret, with_dispatched; cbn.
    now rewrite app_nil_r.
  - assert (Hy : callback (dispatched (DiffDelta.world s)) y = None).
    { specialize (Hok [] y items eq_refl). now rewrite app_nil_r in Hok. }
    cbn [DiffDelta.for_each]. cbv beta iota zeta delta [bind].
    unfold DiffDelta.call at 1. rewrite Hy.
    rewrite IH.
    + unfold with_dispatched; cbn. now rewrite <- app_assoc.
    + intros pre z post Heq. cbn. rewrite <- app_assoc.
      apply (Hok (y :: pre) z post). cbn. now rewrite Heq.
Qed.

(** X13.  When the handler accepts every item, one pass hands the whole
    batch of the poll to it, each item once and in the order of the
    batch, and prints how many there were (or that nothing changed). *)
Theorem accepted_batch_is_dispatched_in_order
    (callback : list FeedItem.t -> FeedItem.t -> option exn)
    (tags sources : option (list string)) (interval : Z) (buckets : list string)
    (s s1 : DiffDelta.St) (items : list FeedItem.t) :
  DiffDelta.poll tags sources (Some buckets) s = (inr items, s1) ->
  (forall pre y post, items = (pre ++ y :: post)%list ->
     callback (dispatched (DiffDelta.world s1) ++ pre)%list y = None) ->
  exists s2,
    DiffDelta.watch_poll callback tags sources interval buckets s = (inr Continue, s2)
    /\ dispatched (DiffDelta.world s2) = (dispatched (DiffDelta.world s1) ++ items)%list
    /\ stdout (DiffDelta.world s2)
       = (stdout (DiffDelta.world s1)
          ++ [match items with [] => MsgNoChanges | _ => MsgFound (length items) end])%list
    /\ DiffDelta.self s2 = DiffDelta.self s1.
Proof.
  intros Hpoll Hok.
  unfold DiffDelta.watch_poll. cbv beta iota zeta delta [try_except bind ret].
  rewrite Hpoll. destruct items as [|i r].
  - eexists. split; [reflexivity | ]. cbn. split; [now rewrite app_nil_r | ].
    split; reflexivity.
  - unfold DiffDelta.print at 1. unfold modify.
    rewrite for_each_all_accepted by exact Hok.
    eexists. split; [reflexivity | ]. cbn. repeat split.
Qed.

Lemma accepted_batch_is_dispatched_in_order_witness :
  let fdoc := feed_doc "c2" [sample_item "src1" "A" []] [sample_item "src2" "B" []] [] in
  let A := FeedItem.from_raw (sample_item "src1" "A" []) "new" in
  let B := FeedItem.from_raw (sample_item "src2" "B" []) "updated" in
  let s := {| DiffDelta.self := client_with (Some ∅);
              DiffDelta.world := quiet_world ∅ (simple_server "c2" fdoc) |} in
  fst (DiffDelta.poll None None (Some ["new"; "updated"]) s) = inr [A; B]
  /\ exists s2,
       DiffDelta.watch_poll (picky_handler "Z") None None 60 ["new"; "updated"] s
       = (inr Continue, s2)
       /\ dispatched (DiffDelta.world s2) = [A; B].
Proof.
  cbv zeta. split; [vm_compute; reflexivity | ].
  set (s := {| DiffDelta.self := client_with (Some ∅);
               DiffDelta.world :=
                 quiet_world ∅ (simple_server "c2"
                   (feed_doc "c2" [sample_item "src1" "A" []]
                             [sample_item "src2" "B" []] [])) |}).
  set (A := FeedItem.from_raw (sample_item "src1" "A" []) "new").
  set (B := FeedItem.from_raw (sample_item "src2" "B" []) "updated").
  assert (Hpoll : DiffDelta.poll None None (Some ["new"; "updated"]) s
                  = (inr [A; B],
                     snd (DiffDelta.poll None None (Some ["new"; "updated"]) s))).
  { vm_compute. reflexivity. }
  destruct (accepted_batch_is_dispatched_in_order (picky_handler "Z") None None 60
              ["new"; "updated"] s _ [A; B] Hpoll)
    as (s2 & Hrun & Hd & _).
  - intros pre y post Heq.
    assert (Hin : In y [A; B]) by (rewrite Heq; apply in_elt).
    destruct Hin as [<- | [<- | []]]; reflexivity.
  - exists s2. split; [exact Hrun | ]. rewrite Hd. vm_compute. reflexivity.
Defined.



(** X15.  A negative interval stops [watch] with an error.  The first
    pass polls and dispatches as usual; then [time.sleep] refuses the
    negative length, with [ValueError] down to -9223372036 seconds and
    with [OverflowError] below that.  Neither [try] of the loop catches
    the error, so [watch] ends there, after one pass and without having
    slept. *)
Theorem negative_interval_stops_watch
    (callback : list FeedItem.t -> FeedItem.t -> option exn)
    (tags sources : option (list string)) (interval : Z) (buckets : option (list string))
    (s s2 : DiffDelta.St) (n : nat) :
  (interval < 0)%Z ->
  DiffDelta.watch_poll callback tags sources interval (DiffDelta.default_buckets buckets)
    (snd (DiffDelta.print MsgPressCtrlC (snd (DiffDelta.print (MsgWatching interval) s))))
  = (inr Continue, s2) ->
  DiffDelta.watch (S n) callback tags sources (Some interval) buckets s
  = (inl (if (interval <=? -9223372037)%Z then OverflowError else ValueError), s2).
Proof.
  intros Hneg Hwp.
  unfold DiffDelta.watch, DiffDelta.polling_interval.
  cbv beta iota zeta delta [bind ret].
  cbn [DiffDelta.watch_loop]. unfold DiffDelta.watch_body.
  cbv beta iota zeta delta [bind ret].
  change (DiffDelta.print (MsgWatching interval) s)
    with (@inr exn unit tt, snd (DiffDelta.print (MsgWatching interval) s)).
  cbv iota.
  change (DiffDelta.print MsgPressCtrlC (snd (DiffDelta.print (MsgWatching interval) s)))
    with (@inr exn unit tt,
          snd (DiffDelta.print MsgPressCtrlC (snd (DiffDelta.print (MsgWatching interval) s)))).
  cbv iota. rewrite Hwp.
  unfold DiffDelta.watch_sleep, DiffDelta.sleep.
  cbv beta iota zeta delta [try_except bind ret raise].
  destruct (DiffDelta.fits_nanoseconds interval) eqn:Hfits; cbn [negb].
  - apply fits_nanoseconds_iff in Hfits.
    destruct (Z.leb_spec interval (-9223372037)); [lia | ].
    destruct (Z.ltb_spec interval 0); [reflexivity | lia].
  - destruct (Z.leb_spec interval (-9223372037)); [reflexivity | ].
    assert (Hin : DiffDelta.fits_nanoseconds interval = true)
      by (apply fits_nanoseconds_iff; lia).
    congruence.
Qed.

Lemma negative_interval_stops_watch_witness :
  let fdoc := feed_doc "c2" [sample_item "src1" "A" []] [] [] in
  let s := {| DiffDelta.self := client_with (Some ∅);
              DiffDelta.world := quiet_world ∅ (simple_server "c2" fdoc) |} in
  let out := DiffDelta.watch 5 (picky_handler "Z") None None (Some (-1)%Z) None s in
  fst out = inl (OtherException "ValueError")
  /\ length (dispatched (DiffDelta.world (snd out))) = 1
  /\ slept (DiffDelta.world (snd out)) = [].
Proof.
  cbv zeta.
  set (s := {| DiffDelta.self := client_with (Some ∅);
               DiffDelta.world :=
                 quiet_world ∅ (simple_server "c2"
                   (feed_doc "c2" [sample_item "src1" "A" []] [] [])) |}).
  assert (Hwp : DiffDelta.watch_poll (picky_handler "Z") None None (-1)
                  (DiffDelta.default_buckets None)
                  (snd (DiffDelta.print MsgPressCtrlC
                          (snd (DiffDelta.print (MsgWatching (-1)) s))))
                = (inr Continue,
                   snd (DiffDelta.watch_poll (picky_handler "Z") None None (-1)
                          (DiffDelta.default_buckets None)
                          (snd (DiffDelta.print MsgPressCtrlC
                                  (snd (DiffDelta.print (MsgWatching (-1)) s))))))).
  { vm_compute. reflexivity. }
  rewrite (negative_interval_stops_watch (picky_handler "Z") None None (-1) None s _ 4
             ltac:(lia) Hwp).
  split; [reflexivity | ]. split; vm_compute; reflexivity.
Defined.

(** ** When nothing reaches the disk *)

Lemma save_without_directory (self : CursorStore.t) (w : World) :
  dirname (CursorStore._path self) = "" ->
  CursorStore._save self w = (inr tt, w).
Proof.
  intros Hd. unfold CursorStore._save, makedirs; py_run. rewrite Hd. reflexivity.
Qed.

Lemma save_new_cursor_disk_same (key : string) (feed : Feed.t) (s : DiffDelta.St) :
  (DiffDelta._cursors (DiffDelta.self s) = None
   \/ exists store, DiffDelta._cursors (DiffDelta.self s) = Some store
                    /\ dirname (CursorStore._path store) = "") ->
  disk (DiffDelta.world (snd (DiffDelta.save_new_cursor key feed s)))
  = disk (DiffDelta.world s).
Proof.
  unfold DiffDelta.save_new_cursor, DiffDelta.on_cursors, CursorStore.set,
    CursorStore.saved.
  cbv beta iota zeta delta [bind gets modify ret].
  intros [Hnone | (store & Hstore & Hd)].
  - rewrite Hnone. reflexivity.
  - rewrite Hstore. destruct (truthy (Feed.cursor feed)); [ | reflexivity].
    rewrite save_without_directory by exact Hd. reflexivity.
Qed.

Lemma poll_feed_disk_same (head_url latest_url key : string)
    (tags sources : option (list string)) (buckets : list string) (s : DiffDelta.St) :
  (DiffDelta._cursors (DiffDelta.self s) = None
   \/ exists store, DiffDelta._cursors (DiffDelta.self s) = Some store
                    /\ dirname (CursorStore._path store) = "") ->
  disk (DiffDelta.world
          (snd (DiffDelta._poll_feed head_url latest_url key tags sources buckets s)))
  = disk (DiffDelta.world s).
Proof.
  intros H. rewrite poll_feed_run.
  destruct (answer head_url s) as [e | hdoc]; [reflexivity | ].
  destruct (DiffDelta.cursor_unchanged _ _); [reflexivity | ].
  destruct (answer latest_url (logged head_url s)) as [e | fdoc]; [reflexivity | ].
  cbv zeta.
  destruct (after_save_touched tags sources buckets (Feed.items (Feed.from_raw fdoc))
              (cursor_save_result s (Feed.cursor (Feed.from_raw fdoc)))
              (snd (DiffDelta.save_new_cursor key (Feed.from_raw fdoc)
                      (logged latest_url (logged head_url s)))))
    as (l & c & Hs' & _).
  rewrite Hs'.
  exact (save_new_cursor_disk_same key (Feed.from_raw fdoc)
           (logged latest_url (logged head_url s)) H).
Qed.

(** X16.  A client built with [cursor_path=None] stays without cursor
    store and never writes to the disk: a poll of any feed leaves the disk
    as it was, stores no cursor, and so meets every later poll as the
    first one, fetching the full feed whenever the head can be fetched. *)
Theorem no_cursor_store_no_disk_access (head_url latest_url key : string)
    (tags sources : option (list string)) (buckets : list string) (s : DiffDelta.St) :
  DiffDelta._cursors (DiffDelta.self s) = None ->
  let s' := snd (DiffDelta._poll_feed head_url latest_url key tags sources buckets s) in
  disk (DiffDelta.world s') = disk (DiffDelta.world s)
  /\ DiffDelta._cursors (DiffDelta.self s') = None
  /\ (forall k, stored_cursor s' k = None)
  /\ (forall hdoc, answer head_url s = inr hdoc ->
        fetches_full_feed head_url latest_url s s')
  /\ (forall hdoc tags' sources' buckets', answer head_url s' = inr hdoc ->
        fetches_full_feed head_url latest_url s'
          (snd (DiffDelta._poll_feed head_url latest_url key tags' sources' buckets' s'))).
Proof.
  intros Hnone s'.
  assert (Hc' : DiffDelta._cursors (DiffDelta.self s') = None).
  { unfold s'. rewrite poll_feed_run.
    destruct (answer head_url s) as [e | hdoc]; [exact Hnone | ].
    destruct (DiffDelta.cursor_unchanged _ _); [exact Hnone | ].
    destruct (answer latest_url (logged head_url s)) as [e | fdoc]; [exact Hnone | ].
    destruct (save_new_cursor_run key (Feed.from_raw fdoc)
                (logged latest_url (logged head_url s)))
      as (s3 & Hrun & _ & _ & _ & _ & Hcur).
    cbv zeta. rewrite Hrun. cbn [snd].
    destruct (after_save_frame tags sources buckets (Feed.items (Feed.from_raw fdoc))
                (cursor_save_result s (Feed.cursor (Feed.from_raw fdoc))) s3)
      as (_ & Hc & _).
    rewrite Hc, Hcur. cbn. now rewrite Hnone. }
  split; [apply poll_feed_disk_same; now left | ].
  split; [exact Hc' | ].
  assert (Hst : forall k, stored_cursor s' k = None).
  { intros k. unfold stored_cursor. now rewrite Hc'. }
  split; [exact Hst | ]. split.
  - intros hdoc Hh. apply (poll_feed_fetches _ _ _ _ _ _ _ hdoc Hh).
    unfold stored_cursor. now rewrite Hnone.
  - intros hdoc tags' sources' buckets' Hh.
    apply (poll_feed_fetches _ _ _ _ _ _ _ hdoc Hh). now rewrite Hst.
Qed.

Lemma no_cursor_store_no_disk_access_witness :
  let head_url := "https://diffdelta.io/diff/head.json" in
  let latest_url := "https://diffdelta.io/diff/latest.json" in
  let s := {| DiffDelta.self := client_with None;
              DiffDelta.world :=
                quiet_world ∅ (simple_server "c2" (feed_doc "c2" [] [] [])) |} in
  let s' := snd (DiffDelta._poll_feed head_url latest_url "global" None None
                   ["new"; "updated"] s) in
  DiffDelta._cursors (DiffDelta.self s) = None
  /\ disk (DiffDelta.world s') = ∅
  /\ fetches_full_feed head_url latest_url s'
       (snd (DiffDelta._poll_feed head_url latest_url "global" None None
               ["new"; "updated"] s')).
Proof.
  cbv zeta. split; [reflexivity | ].
  match goal with
  | |- disk (DiffDelta.world (snd (DiffDelta._poll_feed ?hu ?lu ?k ?t ?so ?b ?s))) = _ /\ _ =>
      destruct (no_cursor_store_no_disk_access hu lu k t so b s eq_refl)
        as (Hd & _ & _ & _ & Hagain)
  end.
  split; [exact Hd | ].
  apply (Hagain (head_doc "c2")). vm_compute. reflexivity.
Defined.

(** X17.  A cursor file named without a directory is never written.
    For such a path [os.path.dirname] is empty and [os.makedirs] refuses
    it, which [_save] swallows before opening the file: [set] and [clear]
    change the table in memory and leave the world as it was, and a poll
    that fetched a feed leaves the disk unchanged.  A store built later
    over that path therefore starts from the old file. *)
Theorem cursor_file_without_directory_is_never_written (store : CursorStore.t) :
  dirname (CursorStore._path store) = "" ->
  (forall key cursor w,
     CursorStore.set store key cursor w
     = (inr tt,
        (CursorStore.set_cursors store (<[key := cursor]> (CursorStore._cursors store)),
         w)))
  /\ (forall key w,
        fst (CursorStore.clear store key w) = inr tt
        /\ snd (snd (CursorStore.clear store key w)) = w)
  /\ (forall head_url latest_url key tags sources buckets s,
        DiffDelta._cursors (DiffDelta.self s) = Some store ->
        disk (DiffDelta.world
                (snd (DiffDelta._poll_feed head_url latest_url key tags sources buckets s)))
        = disk (DiffDelta.world s)).
Proof.
  intros Hd. split; [ | split].
  - intros key cursor w. unfold CursorStore.set, CursorStore.saved.
    now rewrite save_without_directory.
  - intros key w. unfold CursorStore.clear, CursorStore.saved.
    rewrite save_without_directory; [split; reflexivity | ].
    destruct key as [k | ]; [destruct (truthy k) | ]; exact Hd.
  - intros head_url latest_url key tags sources buckets s Hstore.
    apply poll_feed_disk_same. right. exists store. split; [exact Hstore | exact Hd].
Qed.

Lemma cursor_file_without_directory_is_never_written_witness :
  let store := {| CursorStore._path := "cursors.json"; CursorStore._cursors := ∅ |} in
  let w := quiet_world ∅ (fun _ _ => inl HTTPError) in
  dirname (CursorStore._path store) = ""
  /\ snd (snd (CursorStore.set store "global" "abc123" w)) = w
  /\ fst (CursorStore.__init__ (Some "cursors.json")
            (snd (snd (CursorStore.set store "global" "abc123" w))))
     = inr store.
Proof.
  cbv zeta. split; [reflexivity | ].
  rewrite (proj1 (cursor_file_without_directory_is_never_written
                    {| CursorStore._path := "cursors.json"; CursorStore._cursors := ∅ |}
                    eq_refl)).
  split; [reflexivity | ]. vm_compute. reflexivity.
Defined.

(** ** Recipes: the risk bands *)

Lemma score_ge_mono (score : QArith_base.Q) (k k' : Z) :
  (k' <= k)%Z -> score_ge score k = true -> score_ge score k' = true.
Proof.
  unfold score_ge. intros Hk H.
  apply QArith_base.Qle_bool_iff. apply QArith_base.Qle_bool_iff in H.
  eapply QArith_base.Qle_trans; [ | exact H].
  unfold QArith_base.Qle, QArith_base.inject_Z; simpl. lia.
Qed.

(** X18.  The four recipes cut the risk scale at the same places.  For
    every score: it is at least 9 and Slack shows the red circle, Discord
    the red colour, GitHub the CRITICAL badge and PagerDuty gets
    [critical]; or it is at least 7 and below 9 and they show orange,
    orange, HIGH and [error]; or at least 4 and below 7: yellow, yellow,
    MEDIUM and [warning]; or below 4: green, green, LOW and [info]. *)
Theorem risk_bands_agree (score : QArith_base.Q) :
  let shown := (slack_alerts.risk_emoji (Some score),
                discord_alerts.risk_color (Some score),
                github_issues.risk_badge score,
                pagerduty_trigger.risk_to_severity score) in
  (score_ge score 9 = true
   /\ shown = ("🔴", 0xED4245%Z, "🔴 CRITICAL", "critical"))
  \/ (score_ge score 7 = true /\ score_lt score 9 = true
      /\ shown = ("🟠", 0xFFA500%Z, "🟠 HIGH", "error"))
  \/ (score_ge score 4 = true /\ score_lt score 7 = true
      /\ shown = ("🟡", 0xFEE75C%Z, "🟡 MEDIUM", "warning"))
  \/ (score_lt score 4 = true
      /\ shown = ("🟢", 0x57F287%Z, "🟢 LOW", "info")).
Proof.
  cbv zeta. unfold slack_alerts.risk_emoji, discord_alerts.risk_color,
    github_issues.risk_badge, pagerduty_trigger.risk_to_severity, score_lt.
  destruct (score_ge score 9) eqn:H9; [left; split; reflexivity | right].
  destruct (score_ge score 7) eqn:H7; [left; repeat split | right].
  destruct (score_ge score 4) eqn:H4; [left; repeat split | right].
  split; reflexivity.
Qed.

(** X19.  What the shipped thresholds let through.  PagerDuty (minimum
    8) and GitHub (minimum 7) return early for an item without risk score
    and for every score below their minimum, so the severities they send
    are [critical] and [error] and the badges CRITICAL and HIGH only: the
    lower bands of [risk_to_severity] and [risk_badge] are never reached.
    Slack and Discord (minimum 0) go on for an item without score and
    return early exactly for negative scores. *)
Theorem shipped_thresholds (risk : option QArith_base.Q) :
  (pagerduty_trigger.returns_early risk = false ->
   exists score, risk = Some score
     /\ score_ge score 8 = true
     /\ (pagerduty_trigger.risk_to_severity score = "critical"
         \/ pagerduty_trigger.risk_to_severity score = "error"))
  /\ (github_issues.returns_early risk = false ->
      exists score, risk = Some score
        /\ score_ge score 7 = true
        /\ (github_issues.risk_badge score = "🔴 CRITICAL"
            \/ github_issues.risk_badge score = "🟠 HIGH"))
  /\ (slack_alerts.returns_early risk = true
      <-> exists score, risk = Some score /\ score_lt score 0 = true)
  /\ (discord_alerts.returns_early risk = true
      <-> exists score, risk = Some score /\ score_lt score 0 = true)
  /\ slack_alerts.returns_early None = false
  /\ discord_alerts.returns_early None = false
  /\ pagerduty_trigger.returns_early None = true
  /\ github_issues.returns_early None = true.
Proof.
  split; [ | split; [ | split; [ | split]]].
  - destruct risk as [score | ]; [ | discriminate].
    unfold pagerduty_trigger.returns_early, score_lt, pagerduty_trigger.MIN_RISK_SCORE.
    intros H. apply negb_false_iff in H.
    exists score. split; [reflexivity | ]. split; [exact H | ].
    unfold pagerduty_trigger.risk_to_severity.
    rewrite (score_ge_mono score 8 7 ltac:(lia) H).
    destruct (score_ge score 9); [now left | now right].
  - destruct risk as [score | ]; [ | discriminate].
    unfold github_issues.returns_early, score_lt, github_issues.MIN_RISK_SCORE.
    intros H. apply negb_false_iff in H.
    exists score. split; [reflexivity | ]. split; [exact H | ].
    unfold github_issues.risk_badge. rewrite H.
    destruct (score_ge score 9); [now left | now right].
  - unfold slack_alerts.returns_early, slack_alerts.MIN_RISK_SCORE. split.
    + destruct risk as [score | ]; [ | discriminate]. intros H. now exists score.
    + intros (score & -> & H). exact H.
  - unfold discord_alerts.returns_early, discord_alerts.MIN_RISK_SCORE. split.
    + destruct risk as [score | ]; [ | discriminate]. intros H. now exists score.
    + intros (score & -> & H). exact H.
  - repeat split.
Qed.

Example a_score_of_seven_and_a_half :
  (slack_alerts.risk_emoji (Some (QArith_base.Qmake 15 2)),
   pagerduty_trigger.risk_to_severity (QArith_base.Qmake 15 2),
   pagerduty_trigger.returns_early (Some (QArith_base.Qmake 15 2)),
   github_issues.returns_early (Some (QArith_base.Qmake 15 2)))
  = ("🟠", "error", true, false).
Proof. reflexivity. Qed.

(** ** The rhythm of the loop *)

Lemma save_slept (self : CursorStore.t) (w : World) :
  slept (snd (CursorStore._save self w)) = slept w.
Proof.
  unfold CursorStore._save, makedirs, open_json_dump; py_run.
  destruct (dirname (CursorStore._path self) =? ""); [reflexivity | ].
  destruct (io_fails w (Makedirs _)); [reflexivity | ].
  destruct (has_nul (dirname _)); [reflexivity | ].
  destruct (has_nul (CursorStore._path self)); [reflexivity | ].
  destruct (io_fails w (OpenWrite _)); [reflexivity | ].
  destruct (io_fails w (WriteText _)); reflexivity.
Qed.

Lemma save_new_cursor_slept (key : string) (feed : Feed.t) (s : DiffDelta.St) :
  slept (DiffDelta.world (snd (DiffDelta.save_new_cursor key feed s)))
  = slept (DiffDelta.world s).
Proof.
  unfold DiffDelta.save_new_cursor, DiffDelta.on_cursors, CursorStore.set,
    CursorStore.saved.
  cbv beta iota zeta delta [bind gets modify ret].
  destruct (DiffDelta._cursors (DiffDelta.self s)) as [store | ]; [ | reflexivity].
  destruct (truthy (Feed.cursor feed)); [ | reflexivity].
  pose proof (save_slept
                (CursorStore.set_cursors store
                   (<[key := Feed.cursor feed]> (CursorStore._cursors store)))
                (DiffDelta.world s)) as Hs.
  destruct (CursorStore._save _ (DiffDelta.world s)) as [[e | []] w']; exact Hs.
Qed.

Lemma poll_slept (tags sources buckets : option (list string)) (s : DiffDelta.St) :
  slept (DiffDelta.world (snd (DiffDelta.poll tags sources buckets s)))
  = slept (DiffDelta.world s).
Proof.
  unfold DiffDelta.poll. cbv beta iota zeta delta [bind gets].
  rewrite poll_feed_run.
  destruct (answer _ s) as [e | hdoc]; [reflexivity | ].
  destruct (DiffDelta.cursor_unchanged _ _); [reflexivity | ].
  destruct (answer _ (logged _ s)) as [e | fdoc]; [reflexivity | ].
  cbv zeta.
  match goal with
  | |- context [match ?saved with
                | inl _ => _
                | inr _ => DiffDelta.filter_items ?t ?so ?b ?its [] ?s3
                end] =>
      destruct (after_save_touched t so b its saved s3) as (l & c & Hs' & _)
  end.
  rewrite Hs'. cbn [touched DiffDelta.world with_requests slept].
  rewrite save_new_cursor_slept. reflexivity.
Qed.

Lemma for_each_slept (callback : list FeedItem.t -> FeedItem.t -> option exn)
    (items : list FeedItem.t) (s : DiffDelta.St) :
  slept (DiffDelta.world (snd (DiffDelta.for_each callback items s)))
  = slept (DiffDelta.world s).
Proof.
  revert s. induction items as [|y items IH]; intros s; [reflexivity | ].
  cbn [DiffDelta.for_each]. cbv beta iota zeta delta [bind].
  unfold DiffDelta.call at 1.
  destruct (callback (dispatched (DiffDelta.world s)) y); [reflexivity | ].
  rewrite IH. reflexivity.
Qed.

Lemma watch_poll_slept (callback : list FeedItem.t -> FeedItem.t -> option exn)
    (tags sources : option (list string)) (interval : Z) (buckets : list string)
    (s : DiffDelta.St) :
  slept (DiffDelta.world
           (snd (DiffDelta.watch_poll callback tags sources interval buckets s)))
  = slept (DiffDelta.world s).
Proof.
  unfold DiffDelta.watch_poll. cbv beta iota zeta delta [try_except bind ret].
  pose proof (poll_slept tags sources (Some buckets) s) as Hp.
  destruct (DiffDelta.poll tags sources (Some buckets) s) as [[e | items] s1];
    cbn [snd] in Hp.
  - cbn [select_handler].
    destruct (except_KeyboardInterrupt e); [exact Hp | ].
    destruct (except_Exception e); exact Hp.
  - destruct items as [|i r]; [exact Hp | ].
    unfold DiffDelta.print at 1. unfold modify.
    match goal with
    | |- context [DiffDelta.for_each callback (i :: r) ?s1'] =>
        pose proof (for_each_slept callback (i :: r) s1') as Hf;
        destruct (DiffDelta.for_each callback (i :: r) s1') as [[e | []] s2]
    end; cbn [snd] in Hf; cbn in Hf.
    + cbn [select_handler].
      destruct (except_KeyboardInterrupt e); [cbn; congruence | ].
      destruct (except_Exception e); cbn; congruence.
    + cbn. congruence.
Qed.

(** One pass of the loop sleeps at most once, and then for the interval. *)
Lemma watch_body_slept (callback : list FeedItem.t -> FeedItem.t -> option exn)
    (tags sources : option (list string)) (interval : Z) (buckets : list string)
    (s : DiffDelta.St) :
  let out := DiffDelta.watch_body callback tags sources interval buckets s in
  slept (DiffDelta.world (snd out)) = slept (DiffDelta.world s)
  \/ slept (DiffDelta.world (snd out)) = (slept (DiffDelta.world s) ++ [interval])%list.
Proof.
  cbv zeta. unfold DiffDelta.watch_body. cbv beta iota zeta delta [bind ret].
  pose proof (watch_poll_slept callback tags sources interval buckets s) as Hp.
  destruct (DiffDelta.watch_poll callback tags sources interval buckets s)
    as [[e | [ | ]] s1]; cbn [snd] in Hp; [now left | | now left].
  unfold DiffDelta.watch_sleep, DiffDelta.sleep.
  cbv beta iota zeta delta [try_except bind ret raise].
  destruct (negb (DiffDelta.fits_nanoseconds interval)); [now left | ].
  destruct (interval <? 0)%Z; [now left | ].
  destruct (interrupted _ _); cbn; right; now rewrite Hp.
Qed.

(** X20.  The loop keeps one rhythm.  Whatever happens in a pass (new
    items, no change, a failed poll, a failing handler), [watch] sleeps
    for the same interval after it: a run of at most [n] passes adds at
    most [n] entries to the sleep log, and each of them is the interval
    the run started with.  Nothing else in [watch] sleeps, and no pause
    grows after a failure. *)
Theorem watch_sleeps_the_same_interval_every_pass
    (callback : list FeedItem.t -> FeedItem.t -> option exn)
    (tags sources : option (list string)) (interval : Z) (buckets : list string)
    (n : nat) (s : DiffDelta.St) :
  exists k,
    k <= n
    /\ slept (DiffDelta.world
                (snd (DiffDelta.watch_loop n callback tags sources interval buckets s)))
       = (slept (DiffDelta.world s) ++ repeat interval k)%list.
Proof.
  revert s. induction n as [|n IH]; intros s.
  { exists 0. split; [lia | ]. cbn. now rewrite app_nil_r. }
  cbn [DiffDelta.watch_loop]. cbv beta iota zeta delta [bind ret].
  pose proof (watch_body_slept callback tags sources interval buckets s) as Hb.
  cbv zeta in Hb.
  destruct (DiffDelta.watch_body callback tags sources interval buckets s)
    as [[e | [ | ]] s1]; cbn [snd] in Hb |- *.
  - destruct Hb as [Hb | Hb]; [exists 0 | exists 1]; (split; [lia | ]);
      rewrite Hb; cbn; [now rewrite app_nil_r | reflexivity].
  - destruct (IH s1) as (k & Hk & Hs).
    destruct Hb as [Hb | Hb].
    + exists k. split; [lia | ]. rewrite Hs, Hb. reflexivity.
    + exists (S k). split; [lia | ]. rewrite Hs, Hb. now rewrite <- app_assoc.
  - destruct Hb as [Hb | Hb]; [exists 0 | exists 1]; (split; [lia | ]);
      rewrite Hb; cbn; [now rewrite app_nil_r | reflexivity].
Qed.
